(** * esb-cli end-to-end fixtures: envelope codec, heartbeat filter, action
    dispatchers, chain invokers and the trace bridge.

    The Python functions of the fixtures are embedded as Rocq functions over
    a type of Python values.  Calls to collaborators (boto3 clients, the
    logger, the clock, uuid) go through an oracle and are recorded in a
    trace, so that "this call was never attempted" is a statement about the
    trace.  Python's [json] module is modelled by an executable decoder and
    encoder. *)

From Stdlib Require Import ZArith List String Ascii Bool Lia.
Import ListNotations.
Local Open Scope string_scope.
Local Open Scope list_scope.
Local Open Scope Z_scope.

(** ** Python values *)

(** A float is kept as the decimal number its literal denotes, mantissa
    times ten to the exponent (rounding to binary64 is not modelled), or one
    of the three constants the decoder accepts. *)
Inductive pyfloat : Type :=
| FDec (m e : Z)
| FNaN
| FInf
| FNegInf.

(** Values an event, a request body or a response can hold.  A [str] is
    modelled by its UTF-8 bytes; a [dict] by its items in insertion order
    (keys are strings, as in every value decoded from JSON). *)
#[local] Unset Elimination Schemes.
Inductive value : Type :=
| VNone
| VBool (b : bool)
| VInt (n : Z)
| VFloat (f : pyfloat)
| VStr (s : string)
| VList (l : list value)
| VDict (d : list (string * value)).
#[local] Set Elimination Schemes.

(** Python's truth test. *)
Definition truthy (v : value) : bool :=
  match v with
  | VNone => false
  | VBool b => b
  | VInt n => negb (n =? 0)
  | VFloat (FDec m _) => negb (m =? 0)
  | VFloat _ => true
  | VStr s => negb (s =? "")%string
  | VList l => match l with [] => false | _ => true end
  | VDict d => match d with [] => false | _ => true end
  end.

Definition is_dict (v : value) : bool :=
  match v with VDict _ => true | _ => false end.

Definition is_str (v : value) : bool :=
  match v with VStr _ => true | _ => false end.

(** [type(v).__name__] *)
Definition type_name (v : value) : string :=
  match v with
  | VNone => "NoneType"
  | VBool _ => "bool"
  | VInt _ => "int"
  | VFloat _ => "float"
  | VStr _ => "str"
  | VList _ => "list"
  | VDict _ => "dict"
  end.

(** [v == s] for a string literal [s]. *)
Definition eq_str (v : value) (s : string) : bool :=
  match v with VStr t => (t =? s)%string | _ => false end.

(** ** Dictionaries *)

Fixpoint lookup (k : string) (d : list (string * value)) : option value :=
  match d with
  | [] => None
  | (k', v) :: r => if (k' =? k)%string then Some v else lookup k r
  end.

(** [d[k] = v]: an existing key keeps its position, a new one goes last. *)
Fixpoint dict_set (d : list (string * value)) (k : string) (v : value)
  : list (string * value) :=
  match d with
  | [] => [(k, v)]
  | (k', v') :: r =>
      if (k' =? k)%string then (k, v) :: r else (k', v') :: dict_set r k v
  end.

(** [dict(pairs)] and [d.update(pairs)] *)
Definition dict_update (d pairs : list (string * value)) : list (string * value) :=
  fold_left (fun acc kv => dict_set acc (fst kv) (snd kv)) pairs d.

Definition dict_of_pairs (pairs : list (string * value)) : list (string * value) :=
  dict_update [] pairs.

Definition has_key (k : string) (d : list (string * value)) : bool :=
  match lookup k d with Some _ => true | None => false end.

(** ** The JSON codec ([json.dumps], [json.loads]) *)

(** Python's [json] module with its default options, on text: the decoder
    is the scanner of [json.decoder] (strict mode), the encoder is
    [json.dumps] with [ensure_ascii], the separators [", "] and [": "] and
    [allow_nan].  Not modelled: the rounding of a float to binary64 and the
    text Python prints for a float, the limit Python puts on the digits of
    an [int], and the [RecursionError] on deeply nested text. *)

Module Json.

Local Open Scope char_scope.
Local Open Scope Z_scope.

Definition code (c : ascii) : Z := Z.of_N (N_of_ascii c).
Definition chr (n : Z) : ascii := ascii_of_N (Z.to_N n).

Definition is_digit (c : ascii) : bool := (48 <=? code c) && (code c <=? 57).
Definition digit_val (c : ascii) : Z := code c - 48.
Definition digit_char (d : Z) : ascii := chr (48 + d).

(** *** Encoder *)

Fixpoint print_digits (fuel : nat) (n : Z) (acc : list ascii) : list ascii :=
  match fuel with
  | O => acc
  | S f =>
      if n <? 10 then digit_char n :: acc
      else print_digits f (n / 10) (digit_char (n mod 10) :: acc)
  end.

Definition print_nat (n : Z) : list ascii :=
  print_digits (S (Z.to_nat (Z.log2 n))) n [].

Definition print_int (n : Z) : list ascii :=
  if n <? 0 then "-" :: print_nat (- n) else print_nat n.

(** Python prints the shortest decimal that reads back as the same double;
    that text is not modelled.  The encoder prints mantissa and exponent,
    a JSON number that denotes the same value. *)
Definition print_float (f : pyfloat) : list ascii :=
  match f with
  | FDec m e => print_int m ++ "e" :: print_int e
  | FNaN => list_ascii_of_string "NaN"
  | FInf => list_ascii_of_string "Infinity"
  | FNegInf => list_ascii_of_string "-Infinity"
  end.

Definition hex_char (d : Z) : ascii :=
  if d <? 10 then chr (48 + d) else chr (87 + d).

Definition hex4 (n : Z) : list ascii :=
  [hex_char (n / 4096 mod 16); hex_char (n / 256 mod 16);
   hex_char (n / 16 mod 16); hex_char (n mod 16)].

Definition escape_u (n : Z) : list ascii := "\" :: "u" :: hex4 n.

(** A code point outside the basic plane is written as a surrogate pair. *)
Definition escape_cp (cp : Z) : list ascii :=
  if cp <? 65536 then escape_u cp
  else escape_u (55296 + (cp - 65536) / 1024 mod 1024)
       ++ escape_u (56320 + (cp - 65536) mod 1024).

(** [ensure_ascii]: printable ASCII is copied, except the quote and the
    backslash; everything else is escaped. *)
Definition escape_ascii (c : ascii) : list ascii :=
  if (c =? "034")%char then ["\"; "034"]
  else if (c =? "\")%char then ["\"; "\"]
  else if (c =? "010")%char then ["\"; "n"]
  else if (c =? "013")%char then ["\"; "r"]
  else if (c =? "009")%char then ["\"; "t"]
  else if (c =? "008")%char then ["\"; "b"]
  else if (c =? "012")%char then ["\"; "f"]
  else if (32 <=? code c) && (code c <=? 126) then [c]
  else escape_u (code c).

(** The bytes of a [str] are read as UTF-8 to find the code points to
    escape.  Bytes that are not UTF-8 cannot occur in a Python [str]; they
    are escaped one by one. *)
Fixpoint escape_chars (cs : list ascii) : list ascii :=
  match cs with
  | [] => []
  | c :: r =>
      let b := code c in
      if b <? 128 then escape_ascii c ++ escape_chars r
      else if (192 <=? b) && (b <? 224) then
        match r with
        | c1 :: r1 => escape_cp ((b - 192) * 64 + code c1 mod 64) ++ escape_chars r1
        | _ => escape_u b ++ escape_chars r
        end
      else if (224 <=? b) && (b <? 240) then
        match r with
        | c1 :: c2 :: r2 =>
            escape_cp ((b - 224) * 4096 + code c1 mod 64 * 64 + code c2 mod 64)
            ++ escape_chars r2
        | _ => escape_u b ++ escape_chars r
        end
      else if (240 <=? b) && (b <? 248) then
        match r with
        | c1 :: c2 :: c3 :: r3 =>
            escape_cp ((b - 240) * 262144 + code c1 mod 64 * 4096
                       + code c2 mod 64 * 64 + code c3 mod 64)
            ++ escape_chars r3
        | _ => escape_u b ++ escape_chars r
        end
      else escape_u b ++ escape_chars r
  end.

Definition print_string (s : string) : list ascii :=
  "034" :: escape_chars (list_ascii_of_string s) ++ ["034"].

(** [", ".join(items)] *)
Fixpoint join_items (items : list (list ascii)) : list ascii :=
  match items with
  | [] => []
  | [x] => x
  | x :: r => x ++ "," :: " " :: join_items r
  end.

Fixpoint print_value (v : value) : list ascii :=
  match v with
  | VNone => list_ascii_of_string "null"
  | VBool true => list_ascii_of_string "true"
  | VBool false => list_ascii_of_string "false"
  | VInt n => print_int n
  | VFloat f => print_float f
  | VStr s => print_string s
  | VList l => "[" :: join_items (map print_value l) ++ ["]"]
  | VDict d =>
      "{" :: join_items
               (map (fun kv => print_string (fst kv) ++ ":" :: " " :: print_value (snd kv)) d)
          ++ ["}"]
  end.

(** [json.dumps(v)] with the default options. *)
Definition dumps (v : value) : string := string_of_list_ascii (print_value v).

(** *** Decoder *)

Definition is_ws (c : ascii) : bool :=
  (c =? " ")%char || (c =? "009")%char || (c =? "010")%char || (c =? "013")%char.

Fixpoint skip_ws (cs : list ascii) : list ascii :=
  match cs with
  | c :: r => if is_ws c then skip_ws r else cs
  | [] => []
  end.

Fixpoint strip_prefix (p cs : list ascii) : option (list ascii) :=
  match p, cs with
  | [], _ => Some cs
  | a :: p', c :: r => if (a =? c)%char then strip_prefix p' r else None
  | _ :: _, [] => None
  end.

Definition hex_val (c : ascii) : option Z :=
  let n := code c in
  if (48 <=? n) && (n <=? 57) then Some (n - 48)
  else if (97 <=? n) && (n <=? 102) then Some (n - 87)
  else if (65 <=? n) && (n <=? 70) then Some (n - 55)
  else None.

Definition hex4_val (a b c d : ascii) : option Z :=
  match hex_val a, hex_val b, hex_val c, hex_val d with
  | Some x, Some y, Some z, Some w => Some (((x * 16 + y) * 16 + z) * 16 + w)
  | _, _, _, _ => None
  end.

(** [chr(cp)], as the UTF-8 bytes of the character. *)
Definition utf8_encode (cp : Z) : list ascii :=
  if cp <? 128 then [chr cp]
  else if cp <? 2048 then [chr (192 + cp / 64); chr (128 + cp mod 64)]
  else if cp <? 65536 then
    [chr (224 + cp / 4096); chr (128 + cp / 64 mod 64); chr (128 + cp mod 64)]
  else
    [chr (240 + cp / 262144); chr (128 + cp / 4096 mod 64);
     chr (128 + cp / 64 mod 64); chr (128 + cp mod 64)].

Definition unescape (e : ascii) : option ascii :=
  if (e =? "034")%char then Some "034"
  else if (e =? "\")%char then Some "\"
  else if (e =? "/")%char then Some "/"
  else if (e =? "b")%char then Some "008"
  else if (e =? "f")%char then Some "012"
  else if (e =? "n")%char then Some "010"
  else if (e =? "r")%char then Some "013"
  else if (e =? "t")%char then Some "009"
  else None.

Definition push (pre : list ascii) (res : option (list ascii * list ascii))
  : option (list ascii * list ascii) :=
  match res with
  | Some (s, r) => Some (pre ++ s, r)
  | None => None
  end.

(** [scanstring] in strict mode, from just after the opening quote: the
    characters of the string and the text after the closing quote. *)
Fixpoint scan_string (cs : list ascii) : option (list ascii * list ascii) :=
  match cs with
  | [] => None
  | c :: r =>
      if (c =? "034")%char then Some ([], r)
      else if (c =? "\")%char then
        match r with
        | [] => None
        | e :: r1 =>
            if (e =? "u")%char then
              match r1 with
              | h1 :: h2 :: h3 :: h4 :: r2 =>
                  match hex4_val h1 h2 h3 h4 with
                  | None => None
                  | Some u =>
                      if (55296 <=? u) && (u <=? 56319) then
                        match r2 with
                        | b :: u' :: r3 =>
                            if (b =? "\")%char && (u' =? "u")%char then
                              match r3 with
                              | k1 :: k2 :: k3 :: k4 :: r4 =>
                                  match hex4_val k1 k2 k3 k4 with
                                  | None => None
                                  | Some u2 =>
                                      if (56320 <=? u2) && (u2 <=? 57343) then
                                        push (utf8_encode
                                                (65536 + (u - 55296) * 1024 + (u2 - 56320)))
                                             (scan_string r4)
                                      else push (utf8_encode u) (scan_string r2)
                                  end
                              | _ => None
                              end
                            else push (utf8_encode u) (scan_string r2)
                        | _ => push (utf8_encode u) (scan_string r2)
                        end
                      else push (utf8_encode u) (scan_string r2)
                  end
              | _ => None
              end
            else
              match unescape e with
              | Some x => push [x] (scan_string r1)
              | None => None
              end
        end
      else if code c <? 32 then None
      else push [c] (scan_string r)
  end.

(** A run of digits: the digits read extend [acc]; [k] counts them. *)
Fixpoint scan_digits (cs : list ascii) (acc k : Z) : Z * Z * list ascii :=
  match cs with
  | c :: r =>
      if is_digit c then scan_digits r (acc * 10 + digit_val c) (k + 1)
      else (acc, k, cs)
  | [] => (acc, k, [])
  end.

(** The integer part: a lone zero, or a non-zero digit and more digits. *)
Definition scan_int_part (cs : list ascii) : option (Z * list ascii) :=
  match cs with
  | c :: r =>
      if (c =? "0")%char then Some (0, r)
      else if is_digit c then
        let '(n, _, r') := scan_digits r (digit_val c) 0 in Some (n, r')
      else None
  | [] => None
  end.

(** The fraction, a dot and at least one digit: the mantissa extended by
    the fraction digits, and their number. *)
Definition scan_frac (m : Z) (cs : list ascii) : option (Z * Z * list ascii) :=
  match cs with
  | dot :: d :: r =>
      if (dot =? ".")%char && is_digit d then Some (scan_digits (d :: r) m 0)
      else None
  | _ => None
  end.

(** The exponent: e or E, an optional sign, at least one digit. *)
Definition scan_exp (cs : list ascii) : option (Z * list ascii) :=
  match cs with
  | e :: r =>
      if (e =? "e")%char || (e =? "E")%char then
        let '(neg, r1) :=
          match r with
          | s :: r' =>
              if (s =? "-")%char then (true, r')
              else if (s =? "+")%char then (false, r')
              else (false, r)
          | [] => (false, r)
          end in
        match r1 with
        | d :: _ =>
            if is_digit d then
              let '(n, _, r2) := scan_digits r1 0 0 in
              Some (if neg then - n else n, r2)
            else None
        | [] => None
        end
      else None
  | [] => None
  end.

(** What follows the integer part: with a fraction or an exponent the
    number is a [float], otherwise an [int]. *)
Definition scan_tail (neg : bool) (ip : Z) (r1 : list ascii)
  : option (value * list ascii) :=
  let sgn (n : Z) := if neg then - n else n in
  match scan_frac ip r1 with
  | Some (m, k, r2) =>
      match scan_exp r2 with
      | Some (e, r3) => Some (VFloat (FDec (sgn m) (e - k)), r3)
      | None => Some (VFloat (FDec (sgn m) (- k)), r2)
      end
  | None =>
      match scan_exp r1 with
      | Some (e, r3) => Some (VFloat (FDec (sgn ip) e), r3)
      | None => Some (VInt (sgn ip), r1)
      end
  end.

(** The number pattern of the scanner: an optional minus sign, the integer
    part, and what follows it. *)
Definition scan_number (cs : list ascii) : option (value * list ascii) :=
  let '(neg, cs1) :=
    match cs with
    | c :: r => if (c =? "-")%char then (true, r) else (false, cs)
    | [] => (false, cs)
    end in
  match scan_int_part cs1 with
  | Some (ip, r1) => scan_tail neg ip r1
  | None => None
  end.

Definition scan_constant (cs : list ascii) : option (value * list ascii) :=
  match strip_prefix (list_ascii_of_string "null") cs with
  | Some r => Some (VNone, r)
  | None =>
  match strip_prefix (list_ascii_of_string "true") cs with
  | Some r => Some (VBool true, r)
  | None =>
  match strip_prefix (list_ascii_of_string "false") cs with
  | Some r => Some (VBool false, r)
  | None =>
  match scan_number cs with
  | Some x => Some x
  | None =>
  match strip_prefix (list_ascii_of_string "NaN") cs with
  | Some r => Some (VFloat FNaN, r)
  | None =>
  match strip_prefix (list_ascii_of_string "Infinity") cs with
  | Some r => Some (VFloat FInf, r)
  | None =>
  match strip_prefix (list_ascii_of_string "-Infinity") cs with
  | Some r => Some (VFloat FNegInf, r)
  | None => None
  end end end end end end end.

(** [scan_once]; [parse_elems] is the loop of [JSONArray] and
    [parse_members] the loop of [JSONObject], entered just after the
    opening quote of a key.  Every call takes one unit of fuel. *)
Fixpoint parse_value (fuel : nat) (cs : list ascii) {struct fuel}
  : option (value * list ascii) :=
  match fuel with
  | O => None
  | S f =>
      match cs with
      | [] => None
      | c :: r =>
          if (c =? "034")%char then
            match scan_string r with
            | Some (s, r') => Some (VStr (string_of_list_ascii s), r')
            | None => None
            end
          else if (c =? "{")%char then
            match skip_ws r with
            | c' :: r' =>
                if (c' =? "}")%char then Some (VDict [], r')
                else if (c' =? "034")%char then parse_members f r' []
                else None
            | [] => None
            end
          else if (c =? "[")%char then
            match skip_ws r with
            | c' :: r' =>
                if (c' =? "]")%char then Some (VList [], r')
                else parse_elems f (c' :: r') []
            | [] => None
            end
          else scan_constant cs
      end
  end
with parse_elems (fuel : nat) (cs : list ascii) (acc : list value) {struct fuel}
  : option (value * list ascii) :=
  match fuel with
  | O => None
  | S f =>
      match parse_value f cs with
      | Some (v, r) =>
          match skip_ws r with
          | c :: r' =>
              if (c =? "]")%char then Some (VList (rev (v :: acc)), r')
              else if (c =? ",")%char then parse_elems f (skip_ws r') (v :: acc)
              else None
          | [] => None
          end
      | None => None
      end
  end
with parse_members (fuel : nat) (cs : list ascii) (acc : list (string * value))
       {struct fuel} : option (value * list ascii) :=
  match fuel with
  | O => None
  | S f =>
      match scan_string cs with
      | Some (k, r) =>
          match skip_ws r with
          | c :: r1 =>
              if (c =? ":")%char then
                match parse_value f (skip_ws r1) with
                | Some (v, r2) =>
                    let acc' := (string_of_list_ascii k, v) :: acc in
                    match skip_ws r2 with
                    | c2 :: r3 =>
                        if (c2 =? "}")%char then
                          Some (VDict (dict_of_pairs (rev acc')), r3)
                        else if (c2 =? ",")%char then
                          match skip_ws r3 with
                          | c3 :: r4 =>
                              if (c3 =? "034")%char then parse_members f r4 acc'
                              else None
                          | [] => None
                          end
                        else None
                    | [] => None
                    end
                | None => None
                end
              else None
          | [] => None
          end
      | None => None
      end
  end.

(** [json.loads(s)] for a [str]: [None] stands for [JSONDecodeError].
    Every call of the parser consumes input before it recurses, so twice
    the length of the text is fuel enough. *)
Definition loads (s : string) : option value :=
  let cs := list_ascii_of_string s in
  match parse_value (2 * List.length cs + 2)%nat (skip_ws cs) with
  | Some (v, r) =>
      match skip_ws r with
      | [] => Some v
      | _ :: _ => None
      end
  | None => None
  end.

End Json.

(** ** Exceptions, collaborators and the process state *)

(** A Python exception: its class and [str(e)]. *)
Inductive exn : Type := Exn (cls msg : string).

Definition str_exn (e : exn) : string :=
  match e with Exn _ msg => msg end.

Inductive outcome (A : Type) : Type :=
| Ok (a : A)
| Raise (e : exn).
Arguments Ok {A} a.
Arguments Raise {A} e.

(** A call that leaves the function: the object called, the method and the
    keyword arguments. *)
Record call : Type := Call { target : string; method : string; args : value }.

(** What the collaborators answer, given the calls made so far.  [reply]
    answers the boto3 clients and [time.sleep] and may raise; [uuid4] is
    [str(uuid.uuid4())]; [clock] is [time.time()] in milliseconds. *)
Record world : Type := World {
  reply : list call -> call -> outcome value;
  uuid4 : list call -> string;
  clock : list call -> Z
}.

(** The state of the process a function runs in: [os.environ] and the
    calls made so far. *)
Record process : Type := Process {
  environ : list (string * string);
  calls : list call
}.

(** A computation of a handler: from the state of the process to a
    result, or an exception, and the state after.  The [context] argument
    of the handlers, which none of them reads, is left out; only the trace
    bridge looks at it. *)
Definition M (A : Type) : Type := process -> outcome A * process.

Definition ret {A} (a : A) : M A := fun p => (Ok a, p).

Definition bind {A B} (m : M A) (k : A -> M B) : M B :=
  fun p =>
    match m p with
    | (Ok a, p') => k a p'
    | (Raise e, p') => (Raise e, p')
    end.

Definition raise {A} (e : exn) : M A := fun p => (Raise e, p).

Definition lift {A} (o : outcome A) : M A := fun p => (o, p).

(** [try: m except Exception as e: h e] *)
Definition try_except {A} (m : M A) (h : exn -> M A) : M A :=
  fun p =>
    match m p with
    | (Ok a, p') => (Ok a, p')
    | (Raise e, p') => h e p'
    end.

Declare Scope py_scope.
Delimit Scope py_scope with py.
Notation "x <- m ;; k" := (bind m (fun x => k))
  (at level 61, m at next level, right associativity) : py_scope.
Notation "m ;;; k" := (bind m (fun _ => k))
  (at level 61, right associativity) : py_scope.
Local Open Scope py_scope.

Definition record (c : call) (p : process) : process :=
  Process (environ p) (calls p ++ [c]).

(** A call to a collaborator that may raise. *)
Definition perform (w : world) (c : call) : M value :=
  fun p => (reply w (calls p) c, record c p).

(** A write to the logger or to standard output. *)
Definition emit (c : call) : M unit :=
  fun p => (Ok tt, record c p).

Definition log (level msg : string) : M unit :=
  emit (Call "logger" level (VStr msg)).

Definition print (msg : string) : M unit :=
  emit (Call "stdout" "print" (VStr msg)).

Definition boto3_client (w : world) (service : string) : M value :=
  perform w (Call "boto3" "client" (VStr service)).

(** [str(uuid.uuid4())] *)
Definition uuid4_str (w : world) : M string :=
  fun p => let c := Call "uuid" "uuid4" VNone in (Ok (uuid4 w (calls p)), record c p).

(** [time.time()], in milliseconds. *)
Definition time_ms (w : world) : M Z :=
  fun p => let c := Call "time" "time" VNone in (Ok (clock w (calls p)), record c p).

Fixpoint env_get (k : string) (env : list (string * string)) : option string :=
  match env with
  | [] => None
  | (k', v) :: r => if (k' =? k)%string then Some v else env_get k r
  end.

Fixpoint env_set (env : list (string * string)) (k v : string)
  : list (string * string) :=
  match env with
  | [] => [(k, v)]
  | (k', v') :: r =>
      if (k' =? k)%string then (k, v) :: r else (k', v') :: env_set r k v
  end.

(** [os.environ.get(k)] *)
Definition environ_get (k : string) : M (option string) :=
  fun p => (Ok (env_get k (environ p)), p).

(** ** Built-in operations on values *)

Definition attribute_error (v : value) (a : string) : exn :=
  Exn "AttributeError"
      ("'" ++ type_name v ++ "' object has no attribute '" ++ a ++ "'").

(** [v.get(k, dflt)] *)
Definition py_get (v : value) (k : string) (dflt : value) : outcome value :=
  match v with
  | VDict d =>
      Ok (match lookup k d with Some x => x | None => dflt end)
  | _ => Raise (attribute_error v "get")
  end.

Fixpoint is_substring (s t : string) : bool :=
  String.prefix s t ||
  match t with
  | EmptyString => false
  | String _ t' => is_substring s t'
  end.

(** [k in v] for a string [k] *)
Definition py_contains (k : string) (v : value) : outcome bool :=
  match v with
  | VDict d => Ok (has_key k d)
  | VStr s => Ok (is_substring k s)
  | VList l => Ok (existsb (fun x => eq_str x k) l)
  | _ => Raise (Exn "TypeError"
                    ("argument of type '" ++ type_name v ++ "' is not iterable"))
  end.

(** [v[k]] for a string [k] *)
Definition py_getitem (v : value) (k : string) : outcome value :=
  match v with
  | VDict d =>
      match lookup k d with
      | Some x => Ok x
      | None => Raise (Exn "KeyError" ("'" ++ k ++ "'"))
      end
  | VStr _ => Raise (Exn "TypeError" "string indices must be integers, not 'str'")
  | VList _ =>
      Raise (Exn "TypeError" "list indices must be integers or slices, not str")
  | _ => Raise (Exn "TypeError"
                    ("'" ++ type_name v ++ "' object is not subscriptable"))
  end.

(** [v > 0] *)
Definition py_gt_zero (v : value) : outcome bool :=
  match v with
  | VInt n => Ok (0 <? n)
  | VBool b => Ok b
  | VFloat (FDec m _) => Ok (0 <? m)
  | VFloat FInf => Ok true
  | VFloat _ => Ok false
  | _ => Raise (Exn "TypeError"
                    ("'>' not supported between instances of '"
                     ++ type_name v ++ "' and 'int'"))
  end.

(** [str(n)] for an [int] *)
Definition str_of_int (n : Z) : string := string_of_list_ascii (Json.print_int n).

(** ** common/utils.py *)

Module Utils.

Definition parse_event_body (event : value) : value :=
  match event with
  | VDict d =>
      match lookup "body" d with
      | Some body =>
          match body with
          | VStr s =>
              match Json.loads s with
              | Some v => v
              | None => VDict []
              end
          | _ => body
          end
      | None => event
      end
  | _ => VDict []
  end.

(** The result is the canned response or [None]. *)
Definition handle_ping (event : value) : value :=
  match event with
  | VDict d =>
      if truthy (match lookup "ping" d with Some x => x | None => VNone end)
      then VDict [("statusCode", VInt 200); ("body", VStr "pong")]
      else VNone
  | _ => VNone
  end.

(** An argument left out is [None] here and takes the default of the
    signature: [status_code=200], [body=None], [headers=None]. *)
Definition create_response (status_code body headers : option value) : value :=
  let status_code := match status_code with Some x => x | None => VInt 200 end in
  let body := match body with Some x => x | None => VNone end in
  let headers := match headers with Some x => x | None => VNone end in
  let headers :=
    match headers with
    | VNone => VDict [("Content-Type", VStr "application/json")]
    | _ => headers
    end in
  let body :=
    match body with
    | VNone => VNone
    | VStr _ => body
    | _ => VStr (Json.dumps body)
    end in
  VDict [("statusCode", status_code); ("headers", headers); ("body", body)].

End Utils.

(** ** stateful/functions/python/dynamo/lambda_function.py *)

Module Dynamo.
Import Utils.

Section Handler.

(** The collaborators, and Python's [str()] on a value (used by the
    f-strings only). *)
Variable w : world.
Variable py_str : value -> string.

Definition TABLE_NAME : string := "e2e-test-table".

Definition dynamodb (op : string) (kwargs : list (string * value)) : M value :=
  perform w (Call "dynamodb" op (VDict kwargs)).

Definition key_of (item_id : value) : value :=
  VDict [("id", VDict [("S", item_id)])].

Definition id_required : value :=
  create_response (Some (VInt 400))
    (Some (VDict [("success", VBool false); ("error", VStr "id is required")])) None.

Definition put_get (body : value) : M value :=
  item_id <- uuid4_str w ;;
  now <- time_ms w ;;
  message <- lift (py_get body "message" (VStr "Hello from ScyllaDB Lambda")) ;;
  let item := VDict [("id", VDict [("S", VStr item_id)]);
                     ("timestamp", VDict [("N", VStr (str_of_int (now / 1000)))]);
                     ("message", VDict [("S", message)])] in
  log "info" ("Putting item: " ++ py_str item) ;;;
  dynamodb "put_item" [("TableName", VStr TABLE_NAME); ("Item", item)] ;;;
  log "info" ("Getting item: " ++ item_id) ;;;
  response <- dynamodb "get_item"
                [("TableName", VStr TABLE_NAME); ("Key", key_of (VStr item_id))] ;;
  retrieved <- lift (py_get response "Item" (VDict [])) ;;
  ret (create_response None
         (Some (VDict [("success", VBool true); ("item_id", VStr item_id);
                       ("retrieved_item", retrieved)])) None).

Definition get (body : value) : M value :=
  item_id <- lift (py_get body "id" VNone) ;;
  if negb (truthy item_id) then ret id_required
  else
    response <- dynamodb "get_item"
                  [("TableName", VStr TABLE_NAME); ("Key", key_of item_id)] ;;
    item <- lift (py_get response "Item" VNone) ;;
    ret (create_response None
           (Some (VDict [("success", VBool true); ("item", item);
                         ("found", VBool (match item with VNone => false | _ => true end))]))
           None).

(** The default of [body.get("id", str(uuid.uuid4()))] is computed before
    the lookup, whether the key is present or not. *)
Definition put (body : value) : M value :=
  fresh <- uuid4_str w ;;
  item_id <- lift (py_get body "id" (VStr fresh)) ;;
  now <- time_ms w ;;
  message <- lift (py_get body "message" (VStr "Hello from ScyllaDB Lambda")) ;;
  let item := VDict [("id", VDict [("S", item_id)]);
                     ("timestamp", VDict [("N", VStr (str_of_int (now / 1000)))]);
                     ("message", VDict [("S", message)])] in
  dynamodb "put_item" [("TableName", VStr TABLE_NAME); ("Item", item)] ;;;
  ret (create_response None
         (Some (VDict [("success", VBool true); ("item_id", item_id)])) None).

Definition update (body : value) : M value :=
  item_id <- lift (py_get body "id" VNone) ;;
  if negb (truthy item_id) then ret id_required
  else
    new_message <- lift (py_get body "message" (VStr "Updated message")) ;;
    now <- time_ms w ;;
    dynamodb "update_item"
      [("TableName", VStr TABLE_NAME);
       ("Key", key_of item_id);
       ("UpdateExpression", VStr "SET message = :msg, #ts = :ts");
       ("ExpressionAttributeNames", VDict [("#ts", VStr "timestamp")]);
       ("ExpressionAttributeValues",
        VDict [(":msg", VDict [("S", new_message)]);
               (":ts", VDict [("N", VStr (str_of_int (now / 1000)))])])] ;;;
    ret (create_response None
           (Some (VDict [("success", VBool true); ("item_id", item_id)])) None).

Definition delete (body : value) : M value :=
  item_id <- lift (py_get body "id" VNone) ;;
  if negb (truthy item_id) then ret id_required
  else
    dynamodb "delete_item"
      [("TableName", VStr TABLE_NAME); ("Key", key_of item_id)] ;;;
    ret (create_response None
           (Some (VDict [("success", VBool true); ("item_id", item_id);
                         ("deleted", VBool true)])) None).

Definition unknown_action (action : value) : value :=
  create_response (Some (VInt 400))
    (Some (VDict [("success", VBool false);
                  ("error", VStr ("Unknown action: " ++ py_str action))])) None.

(** The body of the [try] block. *)
Definition run_action (action body : value) : M value :=
  boto3_client w "dynamodb" ;;;
  if eq_str action "put_get" then put_get body
  else if eq_str action "get" then get body
  else if eq_str action "put" then put body
  else if eq_str action "update" then update body
  else if eq_str action "delete" then delete body
  else ret (unknown_action action).

(** The [except Exception] clause. *)
Definition on_error (e : exn) : M value :=
  log "error" ("Error: " ++ str_exn e) ;;;
  ret (create_response (Some (VInt 500))
         (Some (VDict [("success", VBool false); ("error", VStr (str_exn e))])) None).

Definition lambda_handler (event : value) : M value :=
  let ping_response := handle_ping event in
  if truthy ping_response then ret ping_response
  else
    log "info" ("Received event: " ++ Json.dumps event) ;;;
    let body := parse_event_body event in
    action <- lift (py_get body "action" (VStr "put_get")) ;;
    try_except (run_action action body) on_error.

End Handler.
End Dynamo.

(** ** core/functions/python/scaling/lambda_function.py *)

Module Scaling.

Section Handler.

Variable w : world.

(** The [try] block: the body found in the event, when there is one. *)
Definition read_body (event : value) : outcome (option value) :=
  match py_contains "body" event with
  | Raise e => Raise e
  | Ok false => Ok None
  | Ok true =>
      match py_getitem event "body" with
      | Raise e => Raise e
      | Ok (VStr s) =>
          match Json.loads s with
          | Some v => Ok (Some v)
          | None => Raise (Exn "JSONDecodeError" "")
          end
      | Ok b => Ok (Some b)
      end
  end.

Definition lambda_handler (event : value) : M value :=
  let body :=
    match read_body event with
    | Ok (Some b) => b
    | Ok None => VDict []
    | Raise _ => VDict []
    end in
  sleep_ms <- lift (py_get body "sleep_ms" (VInt 0)) ;;
  positive <- lift (py_gt_zero sleep_ms) ;;
  (if positive then perform w (Call "time" "sleep" (VDict [("ms", sleep_ms)]))
   else ret VNone) ;;;
  ret (VDict [("statusCode", VInt 200);
              ("headers", VDict [("Content-Type", VStr "application/json")]);
              ("body", VStr (Json.dumps (VDict [("message", VStr "scaling-test");
                                                ("slept_ms", sleep_ms)])))]).

End Handler.
End Scaling.

(** ** Calls to boto3 clients *)

Definition client_call (w : world) (service op : string)
           (kwargs : list (string * value)) : M value :=
  perform w (Call service op (VDict kwargs)).

(** [response[key].read().decode("utf-8")]: the answer of a client holds
    the content of a stream as the text read from it. *)
Definition read_stream (response : value) (key : string) : outcome string :=
  match py_getitem response key with
  | Raise e => Raise e
  | Ok (VStr s) => Ok s
  | Ok v => Raise (attribute_error v "read")
  end.

(** [try: m except Exception: pass] *)
Definition swallow (m : M value) : M unit :=
  try_except (m ;;; ret tt) (fun _ => ret tt).

(** ** core/functions/python/connectivity/lambda_function.py *)

Module Connectivity.
Import Utils.

Section Handler.

Variable w : world.
Variable py_str : value -> string.

Definition DEFAULT_TABLE : string := "e2e-test-table".
Definition DEFAULT_BUCKET : string := "e2e-test-bucket".
Definition DEFAULT_LAMBDA_TARGET : string := "lambda-echo".

Definition handle_echo (body : value) : M value :=
  message <- lift (py_get body "message" (VStr "hello")) ;;
  ret (create_response None
         (Some (VDict [("success", VBool true); ("action", VStr "echo");
                       ("message", VStr ("Echo: " ++ py_str message))])) None).

Definition handle_dynamodb_put (body : value) : M value :=
  table_env <- environ_get "E2E_TABLE_NAME" ;;
  let table := match table_env with Some t => t | None => DEFAULT_TABLE end in
  key <- lift (py_get body "key" (VStr "python-smoke")) ;;
  val <- lift (py_get body "value" (VStr "ok")) ;;
  boto3_client w "dynamodb" ;;;
  client_call w "dynamodb" "put_item"
    [("TableName", VStr table);
     ("Item", VDict [("id", VDict [("S", VStr (py_str key))]);
                     ("value", VDict [("S", VStr (py_str val))])])] ;;;
  ret (create_response None
         (Some (VDict [("success", VBool true); ("action", VStr "dynamodb_put")])) None).

Definition handle_s3_put (body : value) : M value :=
  bucket_env <- environ_get "E2E_BUCKET" ;;
  let bucket_default :=
    match bucket_env with Some b => b | None => DEFAULT_BUCKET end in
  bucket <- lift (py_get body "bucket" (VStr bucket_default)) ;;
  key <- lift (py_get body "key" (VStr "python-connectivity.txt")) ;;
  content <- lift (py_get body "content" (VStr "ok")) ;;
  boto3_client w "s3" ;;;
  swallow (client_call w "s3" "create_bucket" [("Bucket", bucket)]) ;;;
  client_call w "s3" "put_object"
    [("Bucket", bucket); ("Key", key); ("Body", VStr (py_str content))] ;;;
  ret (create_response None
         (Some (VDict [("success", VBool true); ("action", VStr "s3_put")])) None).

Definition handle_chain_invoke (body : value) : M value :=
  target <- lift (py_get body "target" (VStr DEFAULT_LAMBDA_TARGET)) ;;
  message <- lift (py_get body "message" (VStr "from-python")) ;;
  let payload := VDict [("message", message)] in
  boto3_client w "lambda" ;;;
  response <- client_call w "lambda" "invoke"
                [("FunctionName", target);
                 ("InvocationType", VStr "RequestResponse");
                 ("Payload", VStr (Json.dumps payload))] ;;
  payload_text <- lift (read_stream response "Payload") ;;
  let child :=
    match Json.loads payload_text with
    | Some v => v
    | None => VStr payload_text
    end in
  ret (create_response None
         (Some (VDict [("success", VBool true); ("action", VStr "chain_invoke");
                       ("child", child)])) None).

Definition cloudwatch_events (timestamp_ms : Z) : value :=
  VList
    [VDict [("timestamp", VInt timestamp_ms);
            ("message", VStr ("[INFO] Test log from Lambda at "
                              ++ str_of_int timestamp_ms))];
     VDict [("timestamp", VInt (timestamp_ms + 1));
            ("message", VStr "[DEBUG] This is a debug message")];
     VDict [("timestamp", VInt (timestamp_ms + 2));
            ("message", VStr "[ERROR] This is an error message")];
     VDict [("timestamp", VInt (timestamp_ms + 3));
            ("message", VStr "CloudWatch Logs E2E verification successful!")]].

Definition handle_cloudwatch : M value :=
  try_except
    (boto3_client w "logs" ;;;
     let log_group := "/lambda/hello-test" in
     now <- time_ms w ;;
     let log_stream := ("test-stream-" ++ str_of_int (now / 1000))%string in
     swallow (client_call w "logs" "create_log_group"
                [("logGroupName", VStr log_group)]) ;;;
     swallow (client_call w "logs" "create_log_stream"
                [("logGroupName", VStr log_group);
                 ("logStreamName", VStr log_stream)]) ;;;
     timestamp_ms <- time_ms w ;;
     client_call w "logs" "put_log_events"
       [("logGroupName", VStr log_group);
        ("logStreamName", VStr log_stream);
        ("logEvents", cloudwatch_events timestamp_ms)] ;;;
     ret (create_response None
            (Some (VDict [("success", VBool true);
                          ("action", VStr "test_cloudwatch");
                          ("log_stream", VStr log_stream);
                          ("log_group", VStr log_group)])) None))
    (fun exc =>
       ret (create_response (Some (VInt 500))
              (Some (VDict [("success", VBool false);
                            ("error", VStr (str_exn exc));
                            ("action", VStr "test_cloudwatch")])) None)).

(** The action handler the dispatcher selects, when there is one. *)
Definition select (action body : value) : option (M value) :=
  if eq_str action "echo" then Some (handle_echo body)
  else if eq_str action "dynamodb_put" then Some (handle_dynamodb_put body)
  else if eq_str action "s3_put" then Some (handle_s3_put body)
  else if eq_str action "chain_invoke" then Some (handle_chain_invoke body)
  else if eq_str action "test_cloudwatch" then Some handle_cloudwatch
  else None.

(** The [except Exception] clause. *)
Definition on_error (action : value) (exc : exn) : M value :=
  ret (create_response (Some (VInt 500))
         (Some (VDict [("success", VBool false); ("action", action);
                       ("error", VStr (str_exn exc))])) None).

Definition lambda_handler (event : value) : M value :=
  let ping_response := handle_ping event in
  if truthy ping_response then ret ping_response
  else
    let body := parse_event_body event in
    action <- lift (py_get body "action" (VStr "echo")) ;;
    log "info" ("Processing action: " ++ py_str action) ;;;
    match select action body with
    | Some handler => try_except handler (on_error action)
    | None =>
        ret (create_response None
               (Some (VDict [("success", VBool true); ("action", action)])) None)
    end.

End Handler.
End Connectivity.

(** ** core/functions/python/integration/lambda_function.py *)

Module Integration.
Import Utils.

Section Handler.

Variable w : world.
Variable py_str : value -> string.
(** The message of the [JSONDecodeError] raised for a text; the wording of
    the decoder's diagnostics is not modelled. *)
Variable decode_message : string -> string.

Definition chain (next_target is_async : value) : M value :=
  log "info" ("Chaining " ++ (if truthy is_async then "async" else "sync")
              ++ " invocation to " ++ py_str next_target) ;;;
  let invoke_type := if truthy is_async then "Event" else "RequestResponse" in
  boto3_client w "lambda" ;;;
  response <- client_call w "lambda" "invoke"
                [("FunctionName", next_target);
                 ("InvocationType", VStr invoke_type);
                 ("Payload", VStr (Json.dumps (VDict [("message", VStr "from-chain")])))] ;;
  if negb (truthy is_async) then
    child_payload <- lift (read_stream response "Payload") ;;
    match Json.loads child_payload with
    | Some v => ret v
    | None => raise (Exn "JSONDecodeError" (decode_message child_payload))
    end
  else
    status_code <- lift (py_getitem response "StatusCode") ;;
    ret (VDict [("status", VStr "async-started"); ("status_code", status_code)]).

Definition lambda_handler (event : value) : M value :=
  let ping_response := handle_ping event in
  if truthy ping_response then ret ping_response
  else
    trace_env <- environ_get "_X_AMZN_TRACE_ID" ;;
    let trace_id := match trace_env with Some t => t | None => "not-found" end in
    log "info" ("Trace ID in environment: " ++ trace_id) ;;;
    let body := parse_event_body event in
    next_target <- lift (py_get body "next_target" VNone) ;;
    is_async <- lift (py_get body "async" (VBool false)) ;;
    child_info <- (if truthy next_target then chain next_target is_async
                   else ret VNone) ;;
    ret (create_response None
           (Some (VDict [("success", VBool true); ("trace_id", VStr trace_id);
                         ("child", child_info)])) None).

End Handler.
End Integration.

(** ** image-java-python/images/lambda/python/lambda_function.py *)

Module Image.

Section Handler.

Variable w : world.
Variable py_str : value -> string.

Definition DEFAULT_BUCKET : string := "e2e-test-bucket".
Definition DEFAULT_TARGET : string := "lambda-echo".

(** [event.get(k)] on an event known to be a [dict]. *)
Definition get_or_none (d : list (string * value)) (k : string) : value :=
  match lookup k d with Some x => x | None => VNone end.

(** The loop over the top-level keys: a key the payload lacks is copied
    from the event when its value there is a string. *)
Definition copy_strings (event : list (string * value)) (keys : list string)
           (payload : list (string * value)) : list (string * value) :=
  fold_left
    (fun payload key =>
       if has_key key payload then payload
       else match get_or_none event key with
            | VStr s => dict_set payload key (VStr s)
            | _ => payload
            end)
    keys payload.

Definition _parse_payload (event : value) : list (string * value) :=
  match event with
  | VDict ev =>
      let payload :=
        match get_or_none ev "body" with
        | VStr s =>
            let parsed :=
              match Json.loads s with Some v => v | None => VDict [] end in
            match parsed with
            | VDict d => dict_update [] d
            | _ => []
            end
        | VDict d => dict_update [] d
        | _ => []
        end in
      let payload :=
        copy_strings ev
          ["action"; "message"; "target"; "bucket"; "key"; "content"; "marker"]
          payload in
      if negb (has_key "async" payload) then
        match get_or_none ev "async" with
        | VBool b => dict_set payload "async" (VBool b)
        | _ => payload
        end
      else payload
  | _ => []
  end.

Definition _extract_message (payload : list (string * value)) : string :=
  match get_or_none payload "message" with
  | VStr msg => if negb (msg =? "")%string then msg else "hello-image"
  | _ => "hello-image"
  end.

(** [x if isinstance(x, str) and x else dflt] *)
Definition str_or (x : value) (dflt : string) : string :=
  match x with
  | VStr s => if negb (s =? "")%string then s else dflt
  | _ => dflt
  end.

Definition _invoke_lambda (payload : list (string * value))
  : M (list (string * value)) :=
  let target :=
    str_or (match lookup "target" payload with
            | Some x => x
            | None => VStr DEFAULT_TARGET
            end) DEFAULT_TARGET in
  let invoke_type :=
    match get_or_none payload "async" with
    | VBool true => "Event"
    | _ => "RequestResponse"
    end in
  let message := _extract_message payload in
  boto3_client w "lambda" ;;;
  response <- client_call w "lambda" "invoke"
                [("FunctionName", VStr target);
                 ("InvocationType", VStr invoke_type);
                 ("Payload", VStr (Json.dumps (VDict [("message", VStr message)])))] ;;
  status_code <- lift (py_get response "StatusCode" VNone) ;;
  let result := [("target", VStr target);
                 ("invocation_type", VStr invoke_type);
                 ("status_code", status_code)] in
  if (invoke_type =? "RequestResponse")%string then
    raw <- lift (read_stream response "Payload") ;;
    match Json.loads raw with
    | Some v => ret (dict_set result "child" v)
    | None => ret (dict_set result "child" (VStr raw))
    end
  else ret result.

(** [uuid.uuid4().hex]: the text of the identifier without its dashes. *)
Fixpoint drop_dashes (s : string) : string :=
  match s with
  | EmptyString => EmptyString
  | String c r => if (c =? "-")%char then drop_dashes r else String c (drop_dashes r)
  end.

Definition uuid4_hex : M string :=
  u <- uuid4_str w ;; ret (drop_dashes u).

Definition _s3_roundtrip (payload : list (string * value))
  : M (list (string * value)) :=
  let bucket :=
    str_or (match lookup "bucket" payload with
            | Some x => x
            | None => VStr DEFAULT_BUCKET
            end) DEFAULT_BUCKET in
  key <- match get_or_none payload "key" with
         | VStr s =>
             if negb (s =? "")%string then ret s
             else (h <- uuid4_hex ;;
                   ret ("image-" ++ String.substring 0 8 h ++ ".txt")%string)
         | _ => (h <- uuid4_hex ;;
                 ret ("image-" ++ String.substring 0 8 h ++ ".txt")%string)
         end ;;
  let content :=
    match (match lookup "content" payload with
           | Some x => x
           | None => VStr "from-image-s3"
           end) with
    | VStr s => s
    | other => py_str other
    end in
  boto3_client w "s3" ;;;
  swallow (client_call w "s3" "create_bucket" [("Bucket", VStr bucket)]) ;;;
  client_call w "s3" "put_object"
    [("Bucket", VStr bucket); ("Key", VStr key); ("Body", VStr content)] ;;;
  response <- client_call w "s3" "get_object"
                [("Bucket", VStr bucket); ("Key", VStr key)] ;;
  fetched <- lift (read_stream response "Body") ;;
  ret [("bucket", VStr bucket); ("key", VStr key); ("content", VStr fetched)].

Definition _write_cloudwatch_log (marker : string) : M (list (string * value)) :=
  boto3_client w "logs" ;;;
  let log_group := "/lambda/image-function" in
  now <- time_ms w ;;
  let log_stream := ("image-stream-" ++ str_of_int now)%string in
  swallow (client_call w "logs" "create_log_group"
             [("logGroupName", VStr log_group)]) ;;;
  swallow (client_call w "logs" "create_log_stream"
             [("logGroupName", VStr log_group);
              ("logStreamName", VStr log_stream)]) ;;;
  timestamp_ms <- time_ms w ;;
  client_call w "logs" "put_log_events"
    [("logGroupName", VStr log_group);
     ("logStreamName", VStr log_stream);
     ("logEvents",
      VList [VDict [("timestamp", VInt timestamp_ms);
                    ("message", VStr ("[INFO] " ++ marker))]])] ;;;
  ret [("marker", VStr marker); ("log_group", VStr log_group);
       ("log_stream", VStr log_stream)].

(** The body of the [try] block: the response with the result of the
    action added. *)
Definition run_action (action : string) (payload response : list (string * value))
  : M (list (string * value)) :=
  if (action =? "chain_invoke")%string then
    chain <- _invoke_lambda payload ;;
    ret (dict_set response "chain" (VDict chain))
  else if (action =? "s3_roundtrip")%string then
    s3 <- _s3_roundtrip payload ;;
    ret (dict_set response "s3" (VDict s3))
  else if (action =? "test_cloudwatch")%string then
    marker <- match get_or_none payload "marker" with
              | VStr s =>
                  if negb (s =? "")%string then ret s
                  else (h <- uuid4_hex ;; ret ("image-cloudwatch-" ++ h)%string)
              | _ => (h <- uuid4_hex ;; ret ("image-cloudwatch-" ++ h)%string)
              end ;;
    cloudwatch <- _write_cloudwatch_log marker ;;
    print (Json.dumps (VDict [("level", VStr "INFO"); ("message", VStr marker);
                              ("function", VStr "lambda-image")])) ;;;
    ret (dict_set response "cloudwatch" (VDict cloudwatch))
  else ret (dict_set response "message" (VStr (_extract_message payload))).

(** The [except Exception] clause. *)
Definition on_error (action : string) (exc : exn) : M value :=
  ret (VDict [("success", VBool false); ("action", VStr action);
              ("handler", VStr "esb-e2e-lambda-python");
              ("error", VStr (str_exn exc))]).

(** [payload.get("action", "echo")], replaced by ["echo"] unless it is a
    non-empty string. *)
Definition action_of (payload : list (string * value)) : string :=
  str_or (match lookup "action" payload with
          | Some x => x
          | None => VStr "echo"
          end) "echo".

Definition lambda_handler (event : value) : M value :=
  let payload := _parse_payload event in
  let action := action_of payload in
  let response := [("success", VBool true); ("action", VStr action);
                   ("handler", VStr "esb-e2e-lambda-python")] in
  try_except
    (r <- run_action action payload response ;; ret (VDict r))
    (on_error action).

End Handler.
End Image.

(** ** internal/infra/build/assets/python/trace_bridge.py *)

Module TraceBridge.

(** The context object of an invocation: a plain value, or an object with
    attributes. *)
#[local] Unset Elimination Schemes.
Inductive pyobj : Type :=
| PVal (v : value)
| PObj (attrs : list (string * pyobj)).
#[local] Set Elimination Schemes.

Fixpoint attr (k : string) (attrs : list (string * pyobj)) : option pyobj :=
  match attrs with
  | [] => None
  | (k', o) :: r => if (k' =? k)%string then Some o else attr k r
  end.

(** [getattr(o, k, None)], with [None] when [o] has no such attribute; the
    built-in values have neither [client_context] nor [custom]. *)
Definition getattr (o : pyobj) (k : string) : option pyobj :=
  match o with
  | PObj attrs => attr k attrs
  | PVal _ => None
  end.

(** The truth test: an object with attributes is true. *)
Definition obj_truthy (o : pyobj) : bool :=
  match o with
  | PObj _ => true
  | PVal v => truthy v
  end.

Definition TRACE_VAR : string := "_X_AMZN_TRACE_ID".

Fixpoint has_nul (s : string) : bool :=
  match s with
  | EmptyString => false
  | String c r => (c =? "000")%char || has_nul r
  end.

(** [os.environ[k] = v]: the value must be a [str] without a null byte. *)
Definition environ_set (k : string) (v : value) : M unit :=
  fun p =>
    match v with
    | VStr s =>
        if has_nul s then (Raise (Exn "ValueError" "embedded null byte"), p)
        else (Ok tt, Process (env_set (environ p) k s) (calls p))
    | _ => (Raise (Exn "TypeError" ("str expected, not " ++ type_name v)), p)
    end.

(** The trace identifier the context carries, when the three tests of the
    source pass. *)
Definition trace_id_of (context : pyobj) : option value :=
  match getattr context "client_context" with
  | Some client_context =>
      if obj_truthy client_context then
        match getattr client_context "custom" with
        | Some (PVal (VDict custom)) =>
            if truthy (VDict custom) then lookup "trace_id" custom else None
        | _ => None
        end
      else None
  | None => None
  end.

(** The text of a [str]. *)
Definition text_of (v : value) : string :=
  match v with VStr s => s | _ => "" end.

(** The debug line is reached only after the assignment, hence with a
    [str], which an f-string prints as it is. *)
Definition _set_trace_id_from_context (context : pyobj) : M unit :=
  match trace_id_of context with
  | Some trace_id =>
      current <- environ_get TRACE_VAR ;;
      match current with
      | Some (String _ _) => ret tt
      | _ =>
          environ_set TRACE_VAR trace_id ;;;
          log "debug" ("Hydrated _X_AMZN_TRACE_ID from ClientContext: "
                       ++ text_of trace_id)
      end
  | None => ret tt
  end.

Definition sync_wrapper {A} (handler : value -> pyobj -> M A)
           (event : value) (context : pyobj) : M A :=
  _set_trace_id_from_context context ;;; handler event context.

(** Awaiting the wrapped handler is running it to its result. *)
Definition async_wrapper {A} (handler : value -> pyobj -> M A)
           (event : value) (context : pyobj) : M A :=
  _set_trace_id_from_context context ;;; handler event context.

(** [is_coroutine] is the answer of [asyncio.iscoroutinefunction]. *)
Definition hydrate_trace_id {A} (is_coroutine : bool)
           (handler : value -> pyobj -> M A) : value -> pyobj -> M A :=
  if is_coroutine then async_wrapper handler else sync_wrapper handler.

End TraceBridge.

(** ** core/functions/python/echo/lambda_function.py *)

Module Echo.
Import Utils.

Section Handler.

Variable py_str : value -> string.
(** [datetime.now(timezone.utc).isoformat(timespec="milliseconds")], given
    the calls made so far. *)
Variable now_iso : list call -> string.

Definition timestamp : M string :=
  fun p =>
    let c := Call "datetime" "now" VNone in
    (Ok (now_iso (calls p)), record c p).

(** [event.get("requestContext", {}).get("authorizer", {})
    .get("cognito:username", "anonymous")] *)
Definition username_of (event : value) : outcome value :=
  match py_get event "requestContext" (VDict []) with
  | Raise e => Raise e
  | Ok request_context =>
      match py_get request_context "authorizer" (VDict []) with
      | Raise e => Raise e
      | Ok authorizer => py_get authorizer "cognito:username" (VStr "anonymous")
      end
  end.

(** The structured log record, and the same record with its level and
    message replaced. *)
Definition log_entry (now trace_id message : string) : list (string * value) :=
  [("_time", VStr now); ("level", VStr "INFO"); ("trace_id", VStr trace_id);
   ("message", VStr message); ("function", VStr "lambda-echo")].

Definition debug_entry (entry : list (string * value)) : list (string * value) :=
  dict_set (dict_set entry "level" (VStr "DEBUG"))
           "message" (VStr "Debug log for quality test").

Definition lambda_handler (event : value) : M value :=
  trace_env <- environ_get "_X_AMZN_TRACE_ID" ;;
  let trace_id := match trace_env with Some t => t | None => "not-found" end in
  let ping_response := handle_ping event in
  if truthy ping_response then ret ping_response
  else
    let body := parse_event_body event in
    username <- lift (username_of event) ;;
    text <- lift (py_get body "message" (VStr "Hello")) ;;
    let message := ("Echo: " ++ py_str text)%string in
    now <- timestamp ;;
    let entry := log_entry now trace_id message in
    print (Json.dumps (VDict entry)) ;;;
    print (Json.dumps (VDict (debug_entry entry))) ;;;
    ret (create_response None
           (Some (VDict [("success", VBool true); ("message", VStr message);
                         ("user", username)])) None).

End Handler.
End Echo.

(** ** core/functions/python/chaos/lambda_function.py *)

Module Chaos.
Import Utils.

Section Handler.

Variable w : world.
Variable py_str : value -> string.

(** [sys.stdout.flush()] *)
Definition flush : M unit := emit (Call "stdout" "flush" VNone).

(** [os._exit(status)] ends the process at once: nothing after it runs and
    the caller gets no result.  It is an outcome of its own class, which no
    [except] clause of the handler stands in the way of. *)
Definition os_exit {A} (status : Z) : M A :=
  raise (Exn "os._exit" (str_of_int status)).

Definition lambda_handler (event : value) : M value :=
  let ping_response := handle_ping event in
  if truthy ping_response then ret ping_response
  else
    let body := parse_event_body event in
    action <- lift (py_get body "action" (VStr "hello")) ;;
    print ("DEBUG: Processing action='" ++ py_str action ++ "'") ;;;
    flush ;;;
    if eq_str action "crash" then
      print "DEBUG: CRASHING NOW" ;;;
      flush ;;;
      os_exit 1
    else if eq_str action "delay" then
      seconds <- lift (py_get body "seconds" (VInt 5)) ;;
      print ("DELAYING FOR " ++ py_str seconds ++ " SECONDS") ;;;
      perform w (Call "time" "sleep" (VDict [("seconds", seconds)])) ;;;
      ret (create_response None
             (Some (VDict [("message",
                            VStr ("Delayed for " ++ py_str seconds ++ "s"))])) None)
    else
      ret (create_response None
             (Some (VDict [("message", VStr "Faulty Lambda is OK");
                           ("action", action)])) None).

End Handler.
End Chaos.

(** ** core/functions/python/scheduled/lambda_function.py *)

Module Scheduled.

Section Handler.

Variable w : world.
(** [datetime.utcnow().isoformat()], given the calls made so far. *)
Variable utcnow_iso : list call -> string.

Definition utcnow : M string :=
  fun p =>
    let c := Call "datetime" "utcnow" VNone in
    (Ok (utcnow_iso (calls p)), record c p).

(** [boto3.resource("dynamodb", endpoint_url=..., region_name=...)] *)
Definition boto3_resource (endpoint_url : option string) : M value :=
  perform w (Call "boto3" "resource"
               (VDict [("service_name", VStr "dynamodb");
                       ("endpoint_url",
                        match endpoint_url with Some u => VStr u | None => VNone end);
                       ("region_name", VStr "ap-northeast-1")])).

Definition lambda_handler (event : value) : M value :=
  print ("Scheduled function triggered with event: " ++ Json.dumps event) ;;;
  let table_name := "e2e-test-table" in
  endpoint_url <- environ_get "DYNAMODB_ENDPOINT" ;;
  boto3_resource endpoint_url ;;;
  perform w (Call "dynamodb" "Table" (VDict [("name", VStr table_name)])) ;;;
  let item_id := "scheduled-run" in
  last_run <- utcnow ;;
  perform w (Call "table" "put_item"
               (VDict [("Item", VDict [("id", VStr item_id);
                                       ("last_run", VStr last_run);
                                       ("event", event)])])) ;;;
  ret (VDict [("statusCode", VInt 200);
              ("body",
               VStr (Json.dumps
                       (VDict [("message",
                                VStr "Successfully updated schedule record")])))]).

End Handler.
End Scheduled.

(** * Definitions used to state the properties *)

(** ** Worlds and values used to run the functions on concrete inputs *)

Module Examples.

(** [str()] on [None], [bool], [int] and [str].  On a float, a list or a
    dict Python prints [repr], which is not modelled: the theorems take
    [str()] as a parameter, and this instance prints those as JSON. *)
Definition str_simple (v : value) : string :=
  match v with
  | VNone => "None"
  | VBool true => "True"
  | VBool false => "False"
  | VInt n => str_of_int n
  | VStr s => s
  | _ => Json.dumps v
  end.

Definition no_message (text : string) : string := "".

(** A JSON text, written with an apostrophe wherever the text has a double
    quote. *)
Fixpoint json (s : string) : string :=
  match s with
  | EmptyString => EmptyString
  | String c r => String (if (c =? "'")%char then "034"%char else c) (json r)
  end.

(** Every collaborator answers with an empty mapping. *)
Definition quiet : world :=
  World (fun _ _ => Ok (VDict []))
        (fun _ => "1b4e28ba-2fa1-41d2-883f-0016d3cca427")
        (fun _ => 1700000000000).

(** Every client raises on every operation; constructing a client
    works. *)
Definition services_down : world :=
  World (fun _ c =>
           if (target c =? "boto3")%string then Ok VNone
           else Raise (Exn "ClientError" "service unavailable"))
        (fun _ => "1b4e28ba-2fa1-41d2-883f-0016d3cca427")
        (fun _ => 1700000000000).

(** The invoked function answers with the given text. *)
Definition callee_answers (text : string) : world :=
  World (fun _ c =>
           if (method c =? "invoke")%string
           then Ok (VDict [("StatusCode", VInt 200); ("Payload", VStr text)])
           else Ok VNone)
        (fun _ => "1b4e28ba-2fa1-41d2-883f-0016d3cca427")
        (fun _ => 1700000000000).

Definition fresh : process := Process [] [].

End Examples.

(** ** Observations on responses and traces *)

Definition pong : value := VDict [("statusCode", VInt 200); ("body", VStr "pong")].

Definition field (k : string) (r : value) : option value :=
  match r with
  | VDict d => lookup k d
  | _ => None
  end.


(** The function names passed to [invoke] in a trace. *)
Definition invoked_targets (tr : list call) : list (option value) :=
  map (fun c => field "FunctionName" (args c))
      (filter (fun c => (target c =? "lambda")%string
                        && (method c =? "invoke")%string) tr).

(** ** Assumptions on collaborators *)

(** Constructing a boto3 client returns. *)
Definition clients_available (w : world) : Prop :=
  forall tr service, exists c, reply w tr (Call "boto3" "client" (VStr service)) = Ok c.

(** The invoked function returns [response], whatever the arguments. *)
Definition callee_returns (w : world) (response : value) : Prop :=
  forall tr kwargs, reply w tr (Call "lambda" "invoke" (VDict kwargs)) = Ok response.

(** The response of the catch-all of each dispatcher. *)
Definition connectivity_failure (action : value) (e : exn) : value :=
  Utils.create_response (Some (VInt 500))
    (Some (VDict [("success", VBool false); ("action", action);
                  ("error", VStr (str_exn e))])) None.

Definition dynamo_failure (e : exn) : value :=
  Utils.create_response (Some (VInt 500))
    (Some (VDict [("success", VBool false); ("error", VStr (str_exn e))])) None.

Definition image_failure (action : string) (e : exn) : value :=
  VDict [("success", VBool false); ("action", VStr action);
         ("handler", VStr "esb-e2e-lambda-python"); ("error", VStr (str_exn e))].

(** A target name is valid when it is a non-empty string. *)
Definition valid_target (x : option value) : bool :=
  match x with
  | Some (VStr s) => negb (s =? "")%string
  | _ => false
  end.

(** The child of a blocking chain invocation that falls back to the raw
    text. *)
Definition decoded_or_raw (raw : string) : value :=
  match Json.loads raw with
  | Some v => v
  | None => VStr raw
  end.

(** The process state after the bridge has published [s]. *)
Definition published (s : string) (p : process) : process :=
  record (Call "logger" "debug"
            (VStr ("Hydrated _X_AMZN_TRACE_ID from ClientContext: " ++ s)))
         (Process (env_set (environ p) TraceBridge.TRACE_VAR s) (calls p)).

(** The invocations a process serves, one after the other, through the
    wrapped handler; a handler that raises does not end the process. *)
Fixpoint invoke_all {A} (handler : value -> TraceBridge.pyobj -> M A)
         (invocations : list (value * TraceBridge.pyobj)) (p : process) : process :=
  match invocations with
  | [] => p
  | (event, context) :: rest =>
      invoke_all handler rest (snd (TraceBridge.sync_wrapper handler event context p))
  end.

(** Invocation metadata carrying [client_context.custom.trace_id]. *)
Definition context_with (trace_id : value) : TraceBridge.pyobj :=
  TraceBridge.PObj
    [("client_context",
      TraceBridge.PObj
        [("custom", TraceBridge.PVal (VDict [("trace_id", trace_id)]))])].

(** A handler that reports the published trace identifier. *)
Definition report_trace (event : value) (context : TraceBridge.pyobj) : M value :=
  t <- environ_get TraceBridge.TRACE_VAR ;;
  ret (match t with Some s => VStr s | None => VNone end).

(** ** The text of encoded values *)

Module JsonText.
Import Json.
Local Open Scope char_scope.
Local Open Scope Z_scope.

(** The value of a run of digits read after [a]. *)
Definition dval (ds : list ascii) (a : Z) : Z :=
  fold_left (fun a c => a * 10 + digit_val c) ds a.

(** What may follow a number: anything but a digit, a dot or an exponent
    mark. *)
Definition number_end (rest : list ascii) : bool :=
  match rest with
  | [] => true
  | c :: _ => negb (is_digit c || (c =? ".")%char || (c =? "e")%char || (c =? "E")%char)
  end.

Definition digits_end (rest : list ascii) : bool :=
  match rest with
  | [] => true
  | c :: _ => negb (is_digit c)
  end.

(** A continuation byte within the given bounds. *)
Definition is_cont (lo hi : Z) (c : ascii) : bool := (lo <=? code c) && (code c <=? hi).

(** Well-formed UTF-8: the bytes of a [str] without surrogate code
    points. *)
Fixpoint utf8_valid (cs : list ascii) : bool :=
  match cs with
  | [] => true
  | c :: r =>
      let b := code c in
      if b <? 128 then utf8_valid r
      else if (194 <=? b) && (b <=? 223) then
        match r with
        | c1 :: r1 => is_cont 128 191 c1 && utf8_valid r1
        | _ => false
        end
      else if (224 <=? b) && (b <=? 239) then
        match r with
        | c1 :: c2 :: r2 =>
            is_cont (if b =? 224 then 160 else 128) (if b =? 237 then 159 else 191) c1
            && is_cont 128 191 c2 && utf8_valid r2
        | _ => false
        end
      else if (240 <=? b) && (b <=? 244) then
        match r with
        | c1 :: c2 :: c3 :: r3 =>
            is_cont (if b =? 240 then 144 else 128) (if b =? 244 then 143 else 191) c1
            && is_cont 128 191 c2 && is_cont 128 191 c3 && utf8_valid r3
        | _ => false
        end
      else false
  end.

Fixpoint unique_keys (ks : list string) : bool :=
  match ks with
  | [] => true
  | k :: r => negb (existsb (String.eqb k) r) && unique_keys r
  end.

(** The values the round trip is stated for: the keys of a dict are
    distinct, as in every Python dict, and strings and keys are well-formed
    UTF-8. *)
Fixpoint wf_value (v : value) : bool :=
  match v with
  | VStr s => utf8_valid (list_ascii_of_string s)
  | VList l => forallb wf_value l
  | VDict d =>
      forallb (fun kv => utf8_valid (list_ascii_of_string (fst kv)) && wf_value (snd kv)) d
      && unique_keys (map fst d)
  | _ => true
  end.

(** Fuel that suffices to read a value back. *)
Fixpoint need (v : value) : nat :=
  match v with
  | VList l => S (fold_right (fun x n => S (need x + n)) 0%nat l)
  | VDict d => S (fold_right (fun kv n => S (need (snd kv) + n)) 0%nat d)
  | _ => 1%nat
  end.

(** The text after an element of a list, and after a member of a dict. *)
Fixpoint elems_tail (l : list value) (rest : list ascii) : list ascii :=
  match l with
  | [] => "]" :: rest
  | x :: l' => "," :: " " :: print_value x ++ elems_tail l' rest
  end.

Fixpoint members_tail (d : list (string * value)) (rest : list ascii) : list ascii :=
  match d with
  | [] => "}" :: rest
  | (k, x) :: d' =>
      "," :: " " :: "034" :: escape_chars (list_ascii_of_string k)
        ++ "034" :: ":" :: " " :: print_value x ++ members_tail d' rest
  end.

Definition member_text (kv : string * value) : list ascii :=
  print_string (fst kv) ++ ":" :: " " :: print_value (snd kv).

(** The first character of the text of a value. *)
Definition value_start (c : ascii) : bool :=
  negb (is_ws c) && negb (c =? "]")%char && negb (c =? "}")%char.

(** The statement proved by induction on the value. *)
Definition reads_back (v : value) : Prop :=
  wf_value v = true ->
  forall (f : nat) (rest : list ascii),
    (need v <= f)%nat ->
    number_end rest = true ->
    parse_value f (print_value v ++ rest) = Some (v, rest).

End JsonText.

(** ** Definitions used to state the further properties *)

(** The computation returns on every process state: it never raises. *)
Definition never_raises {A} (m : M A) : Prop :=
  forall p, exists a p', m p = (Ok a, p').

(** Every value the computation returns satisfies [Q]. *)
Definition ensures {A} (m : M A) (Q : A -> Prop) : Prop :=
  forall p a p', m p = (Ok a, p') -> Q a.

(** The calls to one collaborator in a trace. *)
Definition calls_to (service : string) (tr : list call) : list call :=
  filter (fun c => (target c =? service)%string) tr.


(** The action names the dynamo dispatcher knows. *)
Definition dynamo_actions : list string := ["put_get"; "get"; "put"; "update"; "delete"].

(** The action names the connectivity dispatcher knows. *)
Definition connectivity_actions : list string :=
  ["echo"; "dynamodb_put"; "s3_put"; "chain_invoke"; "test_cloudwatch"].

(** [action] is one of [names]. *)
Definition action_among (names : list string) (action : value) : bool :=
  existsb (eq_str action) names.


(** The operation [op] of the client [service] returns, whatever the
    arguments. *)
Definition op_returns (w : world) (service op : string) : Prop :=
  forall tr kwargs, exists r, reply w tr (Call service op (VDict kwargs)) = Ok r.

(** The invocation types passed to [invoke] in a trace. *)
Definition invoked_types (tr : list call) : list (option value) :=
  map (fun c => field "InvocationType" (args c))
      (filter (fun c => (target c =? "lambda")%string
                        && (method c =? "invoke")%string) tr).

(** The trace identifier a handler reads from the environment. *)
Definition trace_id_in (p : process) : string :=
  match env_get "_X_AMZN_TRACE_ID" (environ p) with
  | Some t => t
  | None => "not-found"
  end.

(** The answer of the integration handler with the given child. *)
Definition integration_response (trace_id : string) (child : value) : value :=
  Utils.create_response None
    (Some (VDict [("success", VBool true); ("trace_id", VStr trace_id);
                  ("child", child)])) None.

(** ** The image handler *)


(** The mapping the image handler reads from the body of an event: the
    body itself, or the mapping its text decodes to; empty otherwise. *)
Definition image_body (ev : list (string * value)) : list (string * value) :=
  match lookup "body" ev with
  | Some (VDict d) => d
  | Some (VStr s) =>
      match Json.loads s with
      | Some (VDict d) => d
      | _ => []
      end
  | _ => []
  end.

Definition image_top_level : list string :=
  ["action"; "message"; "target"; "bucket"; "key"; "content"; "marker"].

(** What the payload holds under a key: the value of the body; failing
    that, the top-level value of one of the seven names when it is a
    string, or of [async] when it is a boolean. *)
Definition image_payload_value (ev : list (string * value)) (k : string)
  : option value :=
  match lookup k (image_body ev) with
  | Some v => Some v
  | None =>
      if existsb (String.eqb k) image_top_level then
        match lookup k ev with
        | Some (VStr s) => Some (VStr s)
        | _ => None
        end
      else if (k =? "async")%string then
        match lookup k ev with
        | Some (VBool b) => Some (VBool b)
        | _ => None
        end
      else None
  end.

(** The actions the image handler serves through a collaborator. *)
Definition image_actions : list string :=
  ["chain_invoke"; "s3_roundtrip"; "test_cloudwatch"].

(** ** The scaling handler *)

(** The answer of the scaling handler. *)
Definition scaling_response (sleep_ms : value) : value :=
  VDict [("statusCode", VInt 200);
         ("headers", VDict [("Content-Type", VStr "application/json")]);
         ("body", VStr (Json.dumps (VDict [("message", VStr "scaling-test");
                                           ("slept_ms", sleep_ms)])))].

(** The events the scaling handler serves as an empty request: anything
    but a mapping, a mapping without a body, and a mapping whose body is a
    text that is not JSON. *)
Definition scaling_empty_request (event : value) : Prop :=
  match event with
  | VDict ev =>
      lookup "body" ev = None
      \/ exists s, lookup "body" ev = Some (VStr s) /\ Json.loads s = None
  | _ => True
  end.

(** The values Python compares with a number. *)
Definition is_number (v : value) : bool :=
  match v with
  | VBool _ | VInt _ | VFloat _ => true
  | _ => false
  end.

(** ** The text of encoded values, continued *)

(** A printable ASCII character: from the space to the tilde. *)
Definition printable (c : ascii) : bool :=
  (32 <=? Json.code c) && (Json.code c <=? 126).

(** A text of printable ASCII characters only: a single line, with no
    control character and no byte above 127. *)
Definition printable_ascii (s : string) : bool :=
  forallb printable (list_ascii_of_string s).

Definition all_printable (cs : list ascii) : Prop :=
  Forall (fun c => printable c = true) cs.

(** Reading any object of the store returns [content]. *)
Definition object_reads (w : world) (content : string) : Prop :=
  forall tr kwargs,
    reply w tr (Call "s3" "get_object" (VDict kwargs))
    = Ok (VDict [("Body", VStr content)]).

(** ** The scheduled handler *)

(** The answer of the scheduled handler. *)
Definition scheduled_response : value :=
  VDict [("statusCode", VInt 200);
         ("body",
          VStr (Json.dumps
                  (VDict [("message",
                           VStr "Successfully updated schedule record")])))].

(** The identifiers of the records written to the table in a trace. *)
Definition written_ids (tr : list call) : list (option value) :=
  map (fun c => match field "Item" (args c) with
                | Some item => field "id" item
                | None => None
                end)
      (filter (fun c => (target c =? "table")%string
                        && (method c =? "put_item")%string) tr).

(** * Theorems *)

(** ** The decoder never runs out of fuel *)

Module JsonFuel.
Import Json.
Local Open Scope char_scope.
Local Open Scope nat_scope.

Lemma skip_ws_length (cs : list ascii) : List.length (skip_ws cs) <= List.length cs.
Proof.
  induction cs as [|c r IH]; [apply le_n|].
  cbn [skip_ws]. destruct (is_ws c); cbn [List.length]; lia.
Qed.

Lemma strip_prefix_length (p cs r : list ascii) :
  strip_prefix p cs = Some r -> List.length r + List.length p = List.length cs.
Proof.
  revert cs. induction p as [|a p IH]; intros cs H.
  - cbn in H. inversion H. cbn. lia.
  - destruct cs as [|c cs]; [discriminate|]. cbn [strip_prefix] in H.
    destruct (a =? c)%char; [|discriminate].
    apply IH in H. cbn [List.length]. lia.
Qed.

Lemma push_some (pre : list ascii) (res : option (list ascii * list ascii))
      (s r : list ascii) :
  push pre res = Some (s, r) -> exists s', res = Some (s', r).
Proof.
  destruct res as [[s' r']|]; [|discriminate].
  cbn. intros H. inversion H. subst. exists s'. reflexivity.
Qed.

Lemma scan_string_length (n : nat) :
  forall cs s r, List.length cs <= n -> scan_string cs = Some (s, r) -> List.length r < List.length cs.
Proof.
  induction n as [|n IH]; intros cs s r Hn H.
  - destruct cs; [discriminate | cbn in Hn; lia].
  - destruct cs as [|c cs]; [discriminate|]. cbn [scan_string] in H.
    cbn [List.length] in *.
    repeat match type of H with
           | Some _ = Some _ => inversion H; subst; clear H; cbn [List.length]; lia
           | None = Some _ => discriminate H
           | push _ (scan_string ?t) = Some _ =>
               apply push_some in H; destruct H as [? H];
               apply IH in H; cbn [List.length] in *; lia
           | context [match ?x with _ => _ end] =>
               destruct x; cbn [List.length] in *
           | context [if ?b then _ else _] => destruct b
           end.
Qed.

Lemma scan_digits_length (cs : list ascii) :
  forall a k v k' r,
    scan_digits cs a k = (v, k', r) -> List.length r <= List.length cs.
Proof.
  induction cs as [|c cs IH]; intros a k v k' r H.
  - cbn in H. inversion H. apply le_n.
  - cbn [scan_digits] in H. destruct (is_digit c).
    + apply IH in H. cbn [List.length]. lia.
    + inversion H. apply le_n.
Qed.

Lemma scan_int_part_length (cs : list ascii) (n : Z) (r : list ascii) :
  scan_int_part cs = Some (n, r) -> List.length r < List.length cs.
Proof.
  destruct cs as [|c cs]; [discriminate|]. cbn [scan_int_part].
  destruct (c =? "0")%char.
  - intros H. inversion H. cbn [List.length]. lia.
  - destruct (is_digit c); [|discriminate].
    destruct (scan_digits cs (digit_val c) 0) as [[v k] r'] eqn:E.
    intros H. inversion H. subst. apply scan_digits_length in E.
    cbn [List.length]. lia.
Qed.

Lemma scan_frac_length (m : Z) (cs : list ascii) (v k : Z) (r : list ascii) :
  scan_frac m cs = Some (v, k, r) -> List.length r <= List.length cs.
Proof.
  destruct cs as [|dot [|d cs]]; try discriminate. cbn [scan_frac].
  destruct ((dot =? ".")%char && is_digit d); [|discriminate].
  intros H.
  assert (E : scan_digits (d :: cs) m 0 = (v, k, r)) by congruence.
  apply scan_digits_length in E. cbn [List.length] in *. lia.
Qed.

Lemma scan_exp_length (cs : list ascii) (e : Z) (r : list ascii) :
  scan_exp cs = Some (e, r) -> List.length r <= List.length cs.
Proof.
  destruct cs as [|c cs]; [discriminate|]. cbn [scan_exp].
  destruct ((c =? "e")%char || (c =? "E")%char); [|discriminate].
  assert (Hgen : forall neg r1,
             List.length r1 <= List.length cs ->
             match r1 with
             | [] => None
             | d :: _ =>
                 if is_digit d
                 then let '(n, _, r2) := scan_digits r1 0 0 in
                      Some (if neg : bool then (- n)%Z else n, r2)
                 else None
             end = Some (e, r) -> List.length r <= List.length (c :: cs)).
  { intros neg r1 Hr1 H. destruct r1 as [|d r1']; [discriminate|].
    destruct (is_digit d); [|discriminate].
    destruct (scan_digits (d :: r1') 0 0) as [[n k] r2] eqn:E.
    inversion H. subst. apply scan_digits_length in E.
    cbn [List.length] in *. lia. }
  destruct cs as [|s cs'].
  - apply (Hgen false []). apply le_n.
  - destruct (s =? "-")%char.
    + apply (Hgen true cs'). cbn [List.length]. lia.
    + destruct (s =? "+")%char.
      * apply (Hgen false cs'). cbn [List.length]. lia.
      * apply (Hgen false (s :: cs')). apply le_n.
Qed.

Lemma scan_tail_length (neg : bool) (ip : Z) (r1 : list ascii)
      (v : value) (r : list ascii) :
  scan_tail neg ip r1 = Some (v, r) -> List.length r <= List.length r1.
Proof.
  unfold scan_tail.
  destruct (scan_frac ip r1) as [[[m k] r2]|] eqn:Ef.
  - apply scan_frac_length in Ef.
    destruct (scan_exp r2) as [[e r3]|] eqn:Ee; intros H; inversion H; subst.
    + apply scan_exp_length in Ee. lia.
    + exact Ef.
  - destruct (scan_exp r1) as [[e r3]|] eqn:Ee; intros H; inversion H; subst.
    + apply scan_exp_length in Ee. exact Ee.
    + apply le_n.
Qed.

Lemma scan_number_length (cs : list ascii) (v : value) (r : list ascii) :
  scan_number cs = Some (v, r) -> List.length r < List.length cs.
Proof.
  unfold scan_number.
  assert (Hgen : forall neg cs1,
             List.length cs1 <= List.length cs ->
             match scan_int_part cs1 with
             | Some (ip, r1) => scan_tail neg ip r1
             | None => None
             end = Some (v, r) -> List.length r < List.length cs).
  { intros neg cs1 Hcs1 H.
    destruct (scan_int_part cs1) as [[ip r1]|] eqn:E; [|discriminate].
    apply scan_int_part_length in E. apply scan_tail_length in H. lia. }
  destruct cs as [|c cs'].
  - apply (Hgen false []). apply le_n.
  - destruct (c =? "-")%char.
    + apply (Hgen true cs'). cbn [List.length]. lia.
    + apply (Hgen false (c :: cs')). apply le_n.
Qed.

Lemma scan_constant_length (cs : list ascii) (v : value) (r : list ascii) :
  scan_constant cs = Some (v, r) -> List.length r < List.length cs.
Proof.
  unfold scan_constant. intros H.
  repeat match type of H with
         | context [strip_prefix ?p cs] =>
             let E := fresh "E" in
             destruct (strip_prefix p cs) eqn:E;
             [apply strip_prefix_length in E; cbn [List.length list_ascii_of_string] in E;
              inversion H; subst; lia|]
         | context [scan_number cs] =>
             let E := fresh "E" in
             destruct (scan_number cs) as [[? ?]|] eqn:E;
             [apply scan_number_length in E; inversion H; subst; exact E|]
         end.
  discriminate H.
Qed.

Lemma parse_length (f : nat) :
  (forall cs v r, parse_value f cs = Some (v, r) -> List.length r < List.length cs)
  /\ (forall cs acc v r,
         parse_elems f cs acc = Some (v, r) -> List.length r < List.length cs)
  /\ (forall cs acc v r,
         parse_members f cs acc = Some (v, r) -> List.length r < List.length cs).
Proof.
  induction f as [|f [IHv [IHe IHm]]].
  - repeat split; intros; discriminate.
  - split; [|split].
    + intros cs v r H. destruct cs as [|c cs]; [discriminate|].
      cbn [parse_value] in H.
      destruct (c =? "034")%char.
      { destruct (scan_string cs) as [[s r']|] eqn:E; [|discriminate].
        apply (scan_string_length _ _ _ _ (le_n _)) in E.
        inversion H. subst. cbn [List.length]. lia. }
      destruct (c =? "{")%char.
      { pose proof (skip_ws_length cs) as Hs.
        destruct (skip_ws cs) as [|c' r']; [discriminate|].
        cbn [List.length] in *.
        destruct (c' =? "}")%char; [inversion H; subst; lia|].
        destruct (c' =? "034")%char; [|discriminate].
        apply IHm in H. lia. }
      destruct (c =? "[")%char.
      { pose proof (skip_ws_length cs) as Hs.
        destruct (skip_ws cs) as [|c' r']; [discriminate|].
        cbn [List.length] in *.
        destruct (c' =? "]")%char; [inversion H; subst; lia|].
        apply IHe in H. cbn [List.length] in H. lia. }
      apply scan_constant_length in H. exact H.
    + intros cs acc v r H. cbn [parse_elems] in H.
      destruct (parse_value f cs) as [[x r1]|] eqn:E; [|discriminate].
      apply IHv in E. pose proof (skip_ws_length r1) as Hs.
      destruct (skip_ws r1) as [|c r']; [discriminate|]. cbn [List.length] in Hs.
      destruct (c =? "]")%char; [inversion H; subst; lia|].
      destruct (c =? ",")%char; [|discriminate].
      apply IHe in H. pose proof (skip_ws_length r'). lia.
    + intros cs acc v r H. cbn [parse_members] in H.
      destruct (scan_string cs) as [[k r0]|] eqn:Es; [|discriminate].
      apply (scan_string_length _ _ _ _ (le_n _)) in Es.
      pose proof (skip_ws_length r0) as Hs0.
      destruct (skip_ws r0) as [|c r1]; [discriminate|]. cbn [List.length] in Hs0.
      destruct (c =? ":")%char; [|discriminate].
      pose proof (skip_ws_length r1) as Hs1.
      destruct (parse_value f (skip_ws r1)) as [[x r2]|] eqn:E; [|discriminate].
      apply IHv in E. pose proof (skip_ws_length r2) as Hs2.
      destruct (skip_ws r2) as [|c2 r3]; [discriminate|]. cbn [List.length] in Hs2.
      destruct (c2 =? "}")%char; [inversion H; subst; lia|].
      destruct (c2 =? ",")%char; [|discriminate].
      pose proof (skip_ws_length r3) as Hs3.
      destruct (skip_ws r3) as [|c3 r4]; [discriminate|]. cbn [List.length] in Hs3.
      destruct (c3 =? "034")%char; [|discriminate].
      apply IHm in H. lia.
Qed.

(** With fuel above twice the length of the text, the result of the
    parser does not depend on the fuel. *)
Lemma fuel_stable (n : nat) :
  (forall cs f f',
      List.length cs <= n -> 2 * n + 1 <= f -> 2 * n + 1 <= f' ->
      parse_value f cs = parse_value f' cs)
  /\ (forall cs acc f f',
         List.length cs <= n -> 2 * n + 2 <= f -> 2 * n + 2 <= f' ->
         parse_elems f cs acc = parse_elems f' cs acc)
  /\ (forall cs acc f f',
         List.length cs <= n -> 2 * n + 2 <= f -> 2 * n + 2 <= f' ->
         parse_members f cs acc = parse_members f' cs acc).
Proof.
  assert (Hstep : forall m,
             (forall cs acc f f',
                 List.length cs <= m -> 2 * m + 2 <= f -> 2 * m + 2 <= f' ->
                 parse_elems f cs acc = parse_elems f' cs acc) ->
             (forall cs acc f f',
                 List.length cs <= m -> 2 * m + 2 <= f -> 2 * m + 2 <= f' ->
                 parse_members f cs acc = parse_members f' cs acc) ->
             forall cs f f',
               List.length cs <= S m -> 2 * m + 3 <= f -> 2 * m + 3 <= f' ->
               parse_value f cs = parse_value f' cs).
  { intros m He Hm cs f f' Hcs Hf Hf'.
    destruct f as [|f]; [lia|]. destruct f' as [|f']; [lia|].
    destruct cs as [|c r]; [reflexivity|]. cbn [parse_value List.length] in *.
    destruct (c =? "034")%char; [reflexivity|].
    pose proof (skip_ws_length r) as Hs.
    destruct (c =? "{")%char.
    { destruct (skip_ws r) as [|c' r']; [reflexivity|]. cbn [List.length] in Hs.
      destruct (c' =? "}")%char; [reflexivity|].
      destruct (c' =? "034")%char; [|reflexivity].
      apply Hm; lia. }
    destruct (c =? "[")%char; [|reflexivity].
    destruct (skip_ws r) as [|c' r']; [reflexivity|].
    destruct (c' =? "]")%char; [reflexivity|].
    apply He; lia. }
  induction n as [|n [IHv [IHe IHm]]].
  - assert (Hv0 : forall cs f f',
               List.length cs <= 0 -> 1 <= f -> 1 <= f' ->
               parse_value f cs = parse_value f' cs).
    { intros cs f f' Hcs Hf Hf'. destruct cs; [|cbn in Hcs; lia].
      destruct f; [lia|]. destruct f'; [lia|]. reflexivity. }
    split; [|split].
    + intros cs f f' Hcs Hf Hf'. apply Hv0; lia.
    + intros cs acc f f' Hcs Hf Hf'. destruct cs; [|cbn in Hcs; lia].
      destruct f as [|[|f]]; try lia. destruct f' as [|[|f']]; try lia. reflexivity.
    + intros cs acc f f' Hcs Hf Hf'. destruct cs; [|cbn in Hcs; lia].
      destruct f; [lia|]. destruct f'; [lia|]. reflexivity.
  - assert (Hv : forall cs f f',
               List.length cs <= S n -> 2 * S n + 1 <= f -> 2 * S n + 1 <= f' ->
               parse_value f cs = parse_value f' cs).
    { intros cs f f' Hcs Hf Hf'. apply (Hstep n IHe IHm); lia. }
    split; [exact Hv|split].
    + intros cs acc f f' Hcs Hf Hf'.
      destruct f as [|f]; [lia|]. destruct f' as [|f']; [lia|].
      cbn [parse_elems]. rewrite (Hv cs f f') by lia.
      destruct (parse_value f' cs) as [[v r1]|] eqn:E; [|reflexivity].
      apply (proj1 (parse_length f')) in E.
      pose proof (skip_ws_length r1) as Hs.
      destruct (skip_ws r1) as [|c r']; [reflexivity|]. cbn [List.length] in Hs.
      destruct (c =? "]")%char; [reflexivity|].
      destruct (c =? ",")%char; [|reflexivity].
      pose proof (skip_ws_length r') as Hs'.
      apply IHe; lia.
    + intros cs acc f f' Hcs Hf Hf'.
      destruct f as [|f]; [lia|]. destruct f' as [|f']; [lia|].
      cbn [parse_members].
      destruct (scan_string cs) as [[k r0]|] eqn:Es; [|reflexivity].
      apply (scan_string_length _ _ _ _ (le_n _)) in Es.
      pose proof (skip_ws_length r0) as Hs0.
      destruct (skip_ws r0) as [|c r1]; [reflexivity|]. cbn [List.length] in Hs0.
      destruct (c =? ":")%char; [|reflexivity].
      pose proof (skip_ws_length r1) as Hs1.
      rewrite (IHv (skip_ws r1) f f') by lia.
      destruct (parse_value f' (skip_ws r1)) as [[x r2]|] eqn:E; [|reflexivity].
      apply (proj1 (parse_length f')) in E.
      pose proof (skip_ws_length r2) as Hs2.
      destruct (skip_ws r2) as [|c2 r3]; [reflexivity|]. cbn [List.length] in Hs2.
      destruct (c2 =? "}")%char; [reflexivity|].
      destruct (c2 =? ",")%char; [|reflexivity].
      pose proof (skip_ws_length r3) as Hs3.
      destruct (skip_ws r3) as [|c3 r4]; [reflexivity|]. cbn [List.length] in Hs3.
      destruct (c3 =? "034")%char; [|reflexivity].
      apply IHm; lia.
Qed.

(** The fuel [loads] gives the parser is enough: more fuel never changes
    the result, so [None] always stands for a text that is not JSON. *)
Theorem loads_fuel (s : string) (f : nat) :
  2 * List.length (list_ascii_of_string s) + 2 <= f ->
  parse_value f (skip_ws (list_ascii_of_string s))
  = parse_value (2 * List.length (list_ascii_of_string s) + 2)
                (skip_ws (list_ascii_of_string s)).
Proof.
  intros Hf. pose proof (skip_ws_length (list_ascii_of_string s)) as Hs.
  apply (proj1 (fuel_stable (List.length (list_ascii_of_string s)))); lia.
Qed.

End JsonFuel.

(** ** The codec: [loads] inverts [dumps] *)

Module JsonFacts.
Import Json JsonText.
Local Open Scope char_scope.
Local Open Scope Z_scope.

(** *** Digits *)

Ltac digit_cases d :=
  let H := fresh in
  assert (H : d = 0 \/ d = 1 \/ d = 2 \/ d = 3 \/ d = 4 \/ d = 5 \/ d = 6
              \/ d = 7 \/ d = 8 \/ d = 9) by lia;
  repeat (destruct H as [H|H]; [subst d|]); [..|subst d].

Lemma digit_char_is_digit (d : Z) : 0 <= d <= 9 -> is_digit (digit_char d) = true.
Proof. intros H. digit_cases d; reflexivity. Qed.

Lemma digit_val_char (d : Z) : 0 <= d <= 9 -> digit_val (digit_char d) = d.
Proof. intros H. digit_cases d; reflexivity. Qed.

Lemma digit_char_zero (d : Z) :
  0 <= d <= 9 -> (digit_char d =? "0")%char = (d =? 0).
Proof. intros H. digit_cases d; reflexivity. Qed.

Lemma number_end_digits_end (rest : list ascii) :
  number_end rest = true -> digits_end rest = true.
Proof.
  destruct rest as [|c r]; simpl; [reflexivity|].
  destruct (is_digit c); simpl; [discriminate | reflexivity].
Qed.

Lemma scan_digits_app (ds rest : list ascii) (a k : Z) :
  forallb is_digit ds = true ->
  digits_end rest = true ->
  scan_digits (ds ++ rest) a k = (dval ds a, k + Z.of_nat (List.length ds), rest).
Proof.
  revert a k. induction ds as [|c ds IH]; intros a k Hds Hrest.
  - simpl. rewrite Z.add_0_r. destruct rest as [|c r]; [reflexivity|].
    simpl in Hrest. simpl. destruct (is_digit c); [discriminate | reflexivity].
  - simpl in Hds. apply andb_true_iff in Hds as [Hc Hds].
    cbn [app scan_digits]. rewrite Hc. rewrite IH by assumption.
    cbn [dval fold_left List.length]. f_equal. f_equal. lia.
Qed.

Lemma print_digits_spec (fuel : nat) (n : Z) (acc : list ascii) :
  0 <= n -> (Z.to_nat (Z.log2 n) < fuel)%nat ->
  exists ds,
    print_digits fuel n acc = ds ++ acc
    /\ forallb is_digit ds = true
    /\ dval ds 0 = n
    /\ match ds with
       | [] => False
       | c :: _ => (c =? "0")%char = (n =? 0)
       end.
Proof.
  revert n acc. induction fuel as [|f IH]; intros n acc Hn Hf; [lia|].
  cbn [print_digits]. destruct (n <? 10) eqn:E.
  - apply Z.ltb_lt in E. exists [digit_char n]. repeat split.
    + cbn. rewrite digit_char_is_digit by lia. reflexivity.
    + cbn. apply digit_val_char. lia.
    + apply digit_char_zero. lia.
  - apply Z.ltb_ge in E.
    assert (Hq : 1 <= n / 10) by (apply Z.div_le_lower_bound; lia).
    assert (Hlog : Z.log2 (n / 10) < Z.log2 n).
    {
      assert (n / 10 <= n / 2) by (apply Z.div_le_compat_l; lia).
      assert (Z.log2 (n / 2) = Z.log2 n - 1).
      { rewrite <- Z.div2_div, Z.div2_spec, Z.log2_shiftr by lia.
        rewrite Z.max_r; [lia|].
        assert (1 <= Z.log2 n) by (apply (Z.log2_le_mono 2 n); lia). lia. }
      assert (Z.log2 (n / 10) <= Z.log2 (n / 2)) by (apply Z.log2_le_mono; assumption).
      lia. }
    destruct (IH (n / 10) (digit_char (n mod 10) :: acc)) as [ds [Heq [Hd [Hv Hh]]]].
    + lia.
    + assert (0 <= Z.log2 (n / 10)) by apply Z.log2_nonneg. lia.
    + exists (ds ++ [digit_char (n mod 10)]). repeat split.
      * rewrite Heq, <- app_assoc. reflexivity.
      * rewrite forallb_app, Hd. cbn.
        rewrite digit_char_is_digit; [reflexivity|].
        pose proof (Z.mod_pos_bound n 10). lia.
      * unfold dval in *. rewrite fold_left_app, Hv. cbn.
        rewrite digit_val_char by (pose proof (Z.mod_pos_bound n 10); lia).
        pose proof (Z.div_mod n 10). lia.
      * destruct ds as [|c ds']; [contradiction|]. cbn [app].
        rewrite Hh. destruct (n / 10 =? 0) eqn:E1; [apply Z.eqb_eq in E1; lia|].
        symmetry. apply Z.eqb_neq. lia.
Qed.

Lemma print_nat_spec (n : Z) :
  0 <= n ->
  exists ds,
    print_nat n = ds
    /\ forallb is_digit ds = true
    /\ dval ds 0 = n
    /\ match ds with
       | [] => False
       | c :: _ => (c =? "0")%char = (n =? 0)
       end.
Proof.
  intros Hn. unfold print_nat.
  destruct (print_digits_spec (S (Z.to_nat (Z.log2 n))) n [] Hn) as [ds [Heq H]]; [lia|].
  exists ds. rewrite app_nil_r in Heq. split; [exact Heq | exact H].
Qed.

(** *** Numbers *)

Lemma is_digit_code (c : ascii) : is_digit c = true -> 48 <= code c <= 57.
Proof. unfold is_digit. intros H. apply andb_true_iff in H as [H1 H2]. lia. Qed.

Lemma eqb_code (c d : ascii) : code c <> code d -> (c =? d)%char = false.
Proof. intros H. apply Ascii.eqb_neq. intros E. subst. contradiction. Qed.

Lemma digit_not_minus (c : ascii) : is_digit c = true -> (c =? "-")%char = false.
Proof. intros H. apply is_digit_code in H. apply eqb_code. cbn. lia. Qed.

Lemma digit_not_plus (c : ascii) : is_digit c = true -> (c =? "+")%char = false.
Proof. intros H. apply is_digit_code in H. apply eqb_code. cbn. lia. Qed.

Lemma scan_int_part_print (n : Z) (rest : list ascii) :
  0 <= n -> digits_end rest = true ->
  scan_int_part (print_nat n ++ rest) = Some (n, rest).
Proof.
  intros Hn Hrest.
  destruct (Z.eq_dec n 0) as [->|Hnz]; [reflexivity|].
  destruct (print_nat_spec n Hn) as [ds [Heq [Hd [Hv Hh]]]]. rewrite Heq.
  destruct ds as [|c ds]; [contradiction|].
  cbn [app scan_int_part]. rewrite Hh.
  cbn in Hd. apply andb_true_iff in Hd as [Hc Hd].
  unfold dval in Hv. cbn in Hv.
  apply Z.eqb_neq in Hnz. rewrite Hnz, Hc.
  rewrite scan_digits_app by assumption.
  unfold dval. rewrite Hv. reflexivity.
Qed.

Lemma print_nat_head (n : Z) (rest : list ascii) :
  0 <= n ->
  exists c r, print_nat n ++ rest = c :: r /\ is_digit c = true.
Proof.
  intros Hn. destruct (print_nat_spec n Hn) as [ds [Heq [Hd [_ Hh]]]]. rewrite Heq.
  destruct ds as [|c ds]; [contradiction|].
  cbn in Hd. apply andb_true_iff in Hd as [Hc _].
  exists c, (ds ++ rest). split; [reflexivity | exact Hc].
Qed.

Lemma scan_number_print_int (n : Z) (tail : list ascii) :
  digits_end tail = true ->
  scan_number (print_int n ++ tail) = scan_tail (n <? 0) (Z.abs n) tail.
Proof.
  intros Htail. unfold print_int, scan_number.
  destruct (n <? 0) eqn:E.
  - apply Z.ltb_lt in E. cbn [app]. change ("-" =? "-")%char with true. cbv iota.
    rewrite scan_int_part_print by (assumption || lia).
    replace (Z.abs n) with (- n) by lia. reflexivity.
  - apply Z.ltb_ge in E.
    destruct (print_nat_head n tail E) as [c [r [Heq Hc]]].
    rewrite Heq. rewrite (digit_not_minus c Hc). rewrite <- Heq.
    rewrite scan_int_part_print by assumption.
    replace (Z.abs n) with n by lia. reflexivity.
Qed.

Lemma scan_frac_none (m : Z) (rest : list ascii) :
  number_end rest = true -> scan_frac m rest = None.
Proof.
  destruct rest as [|c [|d r]]; try reflexivity.
  cbn [number_end scan_frac]. intros H.
  destruct (is_digit c), (c =? ".")%char; try discriminate H; reflexivity.
Qed.

Lemma scan_exp_none (rest : list ascii) :
  number_end rest = true -> scan_exp rest = None.
Proof.
  destruct rest as [|c r]; [reflexivity|].
  cbn [number_end scan_exp]. intros H.
  destruct (is_digit c), (c =? ".")%char, (c =? "e")%char, (c =? "E")%char;
    try discriminate H; reflexivity.
Qed.

Lemma sign_abs (n : Z) : (if n <? 0 then - Z.abs n else Z.abs n) = n.
Proof. destruct (n <? 0) eqn:E; [apply Z.ltb_lt in E | apply Z.ltb_ge in E]; lia. Qed.

Lemma scan_number_int (n : Z) (rest : list ascii) :
  number_end rest = true ->
  scan_number (print_int n ++ rest) = Some (VInt n, rest).
Proof.
  intros H. rewrite scan_number_print_int by (apply number_end_digits_end; exact H).
  unfold scan_tail. rewrite scan_frac_none, scan_exp_none by exact H.
  rewrite sign_abs. reflexivity.
Qed.

Lemma scan_exp_print (e : Z) (rest : list ascii) :
  digits_end rest = true ->
  scan_exp ("e" :: print_int e ++ rest) = Some (e, rest).
Proof.
  intros Hrest. cbn [scan_exp]. change ("e" =? "e")%char with true. cbn [orb].
  unfold print_int. destruct (e <? 0) eqn:E.
  - apply Z.ltb_lt in E. cbn [app]. change ("-" =? "-")%char with true. cbv iota.
    assert (Hn : 0 <= - e) by lia.
    destruct (print_nat_spec (- e) Hn) as [ds [Heq [Hd [Hv Hh]]]]. rewrite Heq.
    destruct ds as [|c ds]; [contradiction|].
    pose proof Hd as Hd'. cbn in Hd'. apply andb_true_iff in Hd' as [Hc _].
    cbn [app]. rewrite Hc. change (c :: ds ++ rest) with ((c :: ds) ++ rest).
    rewrite scan_digits_app by assumption. rewrite Hv. f_equal. f_equal. lia.
  - apply Z.ltb_ge in E.
    destruct (print_nat_spec e E) as [ds [Heq [Hd [Hv Hh]]]]. rewrite Heq.
    destruct ds as [|c ds]; [contradiction|].
    pose proof Hd as Hd'. cbn in Hd'. apply andb_true_iff in Hd' as [Hc _].
    cbn [app]. rewrite (digit_not_minus c Hc), (digit_not_plus c Hc). rewrite Hc.
    change (c :: ds ++ rest) with ((c :: ds) ++ rest).
    rewrite scan_digits_app by assumption. rewrite Hv. reflexivity.
Qed.

Lemma scan_number_float (m e : Z) (rest : list ascii) :
  digits_end rest = true ->
  scan_number (print_int m ++ "e" :: print_int e ++ rest)
  = Some (VFloat (FDec m e), rest).
Proof.
  intros H. rewrite scan_number_print_int by reflexivity.
  unfold scan_tail.
  assert (Hf : scan_frac (Z.abs m) ("e" :: print_int e ++ rest) = None).
  { cbn [scan_frac]. destruct (print_int e ++ rest); reflexivity. }
  rewrite Hf, scan_exp_print by exact H. rewrite sign_abs. reflexivity.
Qed.

(** *** Strings *)

Lemma code_ascii_bit (b0 b1 b2 b3 b4 b5 b6 b7 : bool) :
  (code (Ascii b0 b1 b2 b3 b4 b5 b6 b7) <? 128) = true -> b7 = false.
Proof.
  destruct b7; [|reflexivity].
  destruct b0, b1, b2, b3, b4, b5, b6; vm_compute; discriminate.
Qed.

Lemma scan_escape_ascii (c : ascii) (tl : list ascii) :
  (code c <? 128) = true ->
  scan_string (escape_ascii c ++ tl) = push [c] (scan_string tl).
Proof.
  destruct c as [b0 b1 b2 b3 b4 b5 b6 b7]. intros H.
  rewrite (code_ascii_bit _ _ _ _ _ _ _ _ H). clear H.
  destruct b0, b1, b2, b3, b4, b5, b6; reflexivity.
Qed.

Lemma code_range (c : ascii) : 0 <= code c < 256.
Proof.
  unfold code. pose proof (N_ascii_bounded c). lia.
Qed.

Lemma chr_code (c : ascii) : chr (code c) = c.
Proof. unfold chr, code. rewrite N2Z.id. apply ascii_N_embedding. Qed.

Lemma code_chr (n : Z) : 0 <= n < 256 -> code (chr n) = n.
Proof.
  intros H. unfold chr, code. rewrite N_ascii_embedding by lia. lia.
Qed.

Lemma hex_val_char (d : Z) : 0 <= d < 16 -> hex_val (hex_char d) = Some d.
Proof.
  intros H.
  assert (Hd : d = 0 \/ d = 1 \/ d = 2 \/ d = 3 \/ d = 4 \/ d = 5 \/ d = 6 \/ d = 7
               \/ d = 8 \/ d = 9 \/ d = 10 \/ d = 11 \/ d = 12 \/ d = 13 \/ d = 14
               \/ d = 15) by lia.
  repeat (destruct Hd as [Hd|Hd]; [subst d; reflexivity|]). subst d. reflexivity.
Qed.

Lemma hex4_val_hex4 (u : Z) :
  0 <= u < 65536 ->
  hex4_val (hex_char (u / 4096 mod 16)) (hex_char (u / 256 mod 16))
           (hex_char (u / 16 mod 16)) (hex_char (u mod 16)) = Some u.
Proof.
  intros H. unfold hex4_val.
  rewrite !hex_val_char by (apply Z.mod_pos_bound; lia).
  f_equal. Z.to_euclidean_division_equations. lia.
Qed.

Lemma scan_escape_u (u : Z) (tl : list ascii) :
  0 <= u < 65536 ->
  u < 55296 \/ 56319 < u ->
  scan_string (escape_u u ++ tl) = push (utf8_encode u) (scan_string tl).
Proof.
  intros Hu Hs. unfold escape_u, hex4. cbn [app scan_string].
  change ("\" =? "034")%char with false. change ("\" =? "\")%char with true.
  change ("u" =? "u")%char with true. cbv iota.
  rewrite hex4_val_hex4 by exact Hu.
  replace ((55296 <=? u) && (u <=? 56319)) with false; [reflexivity|].
  symmetry. apply andb_false_iff. destruct Hs; [left; apply Z.leb_gt | right; apply Z.leb_gt]; lia.
Qed.

Lemma scan_escape_pair (hi lo : Z) (tl : list ascii) :
  55296 <= hi <= 56319 ->
  56320 <= lo <= 57343 ->
  scan_string (escape_u hi ++ escape_u lo ++ tl)
  = push (utf8_encode (65536 + (hi - 55296) * 1024 + (lo - 56320))) (scan_string tl).
Proof.
  intros Hhi Hlo. unfold escape_u, hex4. cbn [app scan_string].
  change ("\" =? "034")%char with false. change ("\" =? "\")%char with true.
  change ("u" =? "u")%char with true. cbv iota.
  rewrite hex4_val_hex4 by lia.
  replace ((55296 <=? hi) && (hi <=? 56319)) with true
    by (symmetry; apply andb_true_iff; split; apply Z.leb_le; lia).
  cbn [andb]. cbv iota.
  rewrite hex4_val_hex4 by lia.
  replace ((56320 <=? lo) && (lo <=? 57343)) with true
    by (symmetry; apply andb_true_iff; split; apply Z.leb_le; lia).
  reflexivity.
Qed.

Lemma is_cont_range (lo hi : Z) (c : ascii) :
  is_cont lo hi c = true -> lo <= code c <= hi.
Proof. unfold is_cont. intros H. apply andb_true_iff in H as [H1 H2]. lia. Qed.

Lemma utf8_encode_2 (c c1 : ascii) :
  194 <= code c <= 223 -> 128 <= code c1 <= 191 ->
  let cp := (code c - 192) * 64 + code c1 mod 64 in
  0 <= cp < 55296 /\ utf8_encode cp = [c; c1].
Proof.
  intros H0 H1 cp.
  assert (Hcp : 128 <= cp < 2048 /\ 192 + cp / 64 = code c /\ 128 + cp mod 64 = code c1).
  { subst cp. Z.to_euclidean_division_equations. lia. }
  destruct Hcp as [Hr [E0 E1]]. split; [lia|].
  unfold utf8_encode.
  replace (cp <? 128) with false by (symmetry; apply Z.ltb_ge; lia).
  replace (cp <? 2048) with true by (symmetry; apply Z.ltb_lt; lia).
  rewrite E0, E1, !chr_code. reflexivity.
Qed.

Lemma utf8_encode_3 (c c1 c2 : ascii) :
  224 <= code c <= 239 ->
  (if code c =? 224 then 160 else 128) <= code c1
  <= (if code c =? 237 then 159 else 191) ->
  128 <= code c2 <= 191 ->
  let cp := (code c - 224) * 4096 + code c1 mod 64 * 64 + code c2 mod 64 in
  0 <= cp < 65536 /\ (cp < 55296 \/ 56319 < cp) /\ utf8_encode cp = [c; c1; c2].
Proof.
  intros H0 H1 H2 cp.
  assert (Hcp : 2048 <= cp < 65536 /\ (cp < 55296 \/ 56319 < cp)
                /\ 224 + cp / 4096 = code c /\ 128 + cp / 64 mod 64 = code c1
                /\ 128 + cp mod 64 = code c2).
  { assert (M1 : code c1 mod 64 = code c1 - 128).
    { destruct (code c =? 224), (code c =? 237);
        Z.to_euclidean_division_equations; lia. }
    assert (M2 : code c2 mod 64 = code c2 - 128)
      by (Z.to_euclidean_division_equations; lia).
    subst cp. rewrite M1, M2. clear M1 M2.
    destruct (Z.eqb_spec (code c) 224), (Z.eqb_spec (code c) 237);
      repeat split; try (Z.to_euclidean_division_equations; lia). }
  destruct Hcp as [Hr [Hs [E0 [E1 E2]]]]. split; [lia|]. split; [exact Hs|].
  unfold utf8_encode.
  replace (cp <? 128) with false by (symmetry; apply Z.ltb_ge; lia).
  replace (cp <? 2048) with false by (symmetry; apply Z.ltb_ge; lia).
  replace (cp <? 65536) with true by (symmetry; apply Z.ltb_lt; lia).
  rewrite E0, E1, E2, !chr_code. reflexivity.
Qed.

Lemma utf8_encode_4 (c c1 c2 c3 : ascii) :
  240 <= code c <= 244 ->
  (if code c =? 240 then 144 else 128) <= code c1
  <= (if code c =? 244 then 143 else 191) ->
  128 <= code c2 <= 191 ->
  128 <= code c3 <= 191 ->
  let cp := (code c - 240) * 262144 + code c1 mod 64 * 4096
            + code c2 mod 64 * 64 + code c3 mod 64 in
  let hi := 55296 + (cp - 65536) / 1024 mod 1024 in
  let lo := 56320 + (cp - 65536) mod 1024 in
  65536 <= cp
  /\ 55296 <= hi <= 56319 /\ 56320 <= lo <= 57343
  /\ 65536 + (hi - 55296) * 1024 + (lo - 56320) = cp
  /\ utf8_encode cp = [c; c1; c2; c3].
Proof.
  intros H0 H1 H2 H3 cp hi lo.
  assert (Hcp : 65536 <= cp < 1114112
                /\ 240 + cp / 262144 = code c /\ 128 + cp / 4096 mod 64 = code c1
                /\ 128 + cp / 64 mod 64 = code c2 /\ 128 + cp mod 64 = code c3).
  { assert (M1 : code c1 mod 64 = code c1 - 128).
    { destruct (code c =? 240), (code c =? 244);
        Z.to_euclidean_division_equations; lia. }
    assert (M2 : code c2 mod 64 = code c2 - 128)
      by (Z.to_euclidean_division_equations; lia).
    assert (M3 : code c3 mod 64 = code c3 - 128)
      by (Z.to_euclidean_division_equations; lia).
    subst cp. rewrite M1, M2, M3. clear M1 M2 M3.
    destruct (Z.eqb_spec (code c) 240), (Z.eqb_spec (code c) 244);
      repeat split; try (Z.to_euclidean_division_equations; lia). }
  destruct Hcp as [Hr [E0 [E1 [E2 E3]]]].
  assert (Hpair : 55296 <= hi <= 56319 /\ 56320 <= lo <= 57343
                  /\ 65536 + (hi - 55296) * 1024 + (lo - 56320) = cp).
  { subst hi lo. clear E0 E1 E2 E3. Z.to_euclidean_division_equations. lia. }
  destruct Hpair as [Hhi [Hlo Hsum]].
  repeat split; try lia.
  unfold utf8_encode.
  replace (cp <? 128) with false by (symmetry; apply Z.ltb_ge; lia).
  replace (cp <? 2048) with false by (symmetry; apply Z.ltb_ge; lia).
  replace (cp <? 65536) with false by (symmetry; apply Z.ltb_ge; lia).
  rewrite E0, E1, E2, E3, !chr_code. reflexivity.
Qed.

Ltac solve_range :=
  symmetry;
  first [ apply andb_true_iff; split; first [apply Z.leb_le | apply Z.ltb_lt]; lia
        | apply andb_false_iff;
          first [ left; first [apply Z.leb_gt | apply Z.ltb_ge]; lia
                | right; first [apply Z.leb_gt | apply Z.ltb_ge]; lia ] ].

Lemma scan_string_utf8 (n : nat) :
  forall cs rest,
    (List.length cs <= n)%nat ->
    utf8_valid cs = true ->
    scan_string (escape_chars cs ++ "034" :: rest) = Some (cs, rest).
Proof.
  induction n as [|n IH]; intros cs rest Hn Hv.
  - destruct cs; [reflexivity | cbn in Hn; lia].
  - destruct cs as [|c r]; [reflexivity|].
    cbn [List.length] in Hn. cbn [utf8_valid] in Hv. cbn [escape_chars].
    destruct (code c <? 128) eqn:E1.
    { rewrite <- app_assoc, scan_escape_ascii by exact E1.
      rewrite IH by (assumption || lia). reflexivity. }
    apply Z.ltb_ge in E1.
    destruct ((194 <=? code c) && (code c <=? 223)) eqn:E2.
    { apply andb_true_iff in E2 as [Ea Eb]. apply Z.leb_le in Ea, Eb.
      replace ((192 <=? code c) && (code c <? 224)) with true by solve_range.
      destruct r as [|c1 r1]; [discriminate|].
      apply andb_true_iff in Hv as [Hc1 Hv]. apply is_cont_range in Hc1.
      destruct (utf8_encode_2 c c1 (conj Ea Eb) Hc1) as [Hcp Henc].
      unfold escape_cp.
      replace (_ <? 65536) with true by (symmetry; apply Z.ltb_lt; lia).
      rewrite <- app_assoc, scan_escape_u by lia.
      cbn [List.length] in Hn.
      rewrite IH by (assumption || lia). cbn [push]. rewrite Henc. reflexivity. }
    destruct ((224 <=? code c) && (code c <=? 239)) eqn:E3.
    { apply andb_true_iff in E3 as [Ea Eb]. apply Z.leb_le in Ea, Eb.
      replace ((192 <=? code c) && (code c <? 224)) with false by solve_range.
      replace ((224 <=? code c) && (code c <? 240)) with true by solve_range.
      destruct r as [|c1 [|c2 r2]]; try discriminate.
      apply andb_true_iff in Hv as [Hv Hr]. apply andb_true_iff in Hv as [Hc1 Hc2].
      apply is_cont_range in Hc1, Hc2.
      destruct (utf8_encode_3 c c1 c2 (conj Ea Eb) Hc1 Hc2) as [Hcp [Hs Henc]].
      unfold escape_cp.
      replace (_ <? 65536) with true by (symmetry; apply Z.ltb_lt; lia).
      rewrite <- app_assoc, scan_escape_u by assumption.
      cbn [List.length] in Hn.
      rewrite IH by (assumption || lia). cbn [push]. rewrite Henc. reflexivity. }
    destruct ((240 <=? code c) && (code c <=? 244)) eqn:E4; [|discriminate].
    apply andb_true_iff in E4 as [Ea Eb]. apply Z.leb_le in Ea, Eb.
    replace ((192 <=? code c) && (code c <? 224)) with false by solve_range.
    replace ((224 <=? code c) && (code c <? 240)) with false by solve_range.
    replace ((240 <=? code c) && (code c <? 248)) with true by solve_range.
    destruct r as [|c1 [|c2 [|c3 r3]]]; try discriminate.
    apply andb_true_iff in Hv as [Hv Hr]. apply andb_true_iff in Hv as [Hv Hc3].
    apply andb_true_iff in Hv as [Hc1 Hc2].
    apply is_cont_range in Hc1, Hc2, Hc3.
    destruct (utf8_encode_4 c c1 c2 c3 (conj Ea Eb) Hc1 Hc2 Hc3)
      as [Hcp [Hhi [Hlo [Hsum Henc]]]].
    unfold escape_cp.
    replace (_ <? 65536) with false by (symmetry; apply Z.ltb_ge; lia).
    rewrite <- !app_assoc, scan_escape_pair by assumption.
    cbn [List.length] in Hn.
    rewrite IH by (assumption || lia). cbn [push]. rewrite Hsum, Henc. reflexivity.
Qed.

Lemma scan_string_escape (cs rest : list ascii) :
  utf8_valid cs = true ->
  scan_string (escape_chars cs ++ "034" :: rest) = Some (cs, rest).
Proof. apply (scan_string_utf8 (List.length cs)). apply le_n. Qed.

(** *** Values *)

Lemma value_ind' (P : value -> Prop) :
  P VNone ->
  (forall b, P (VBool b)) ->
  (forall n, P (VInt n)) ->
  (forall f, P (VFloat f)) ->
  (forall s, P (VStr s)) ->
  (forall l, Forall P l -> P (VList l)) ->
  (forall d, Forall (fun kv => P (snd kv)) d -> P (VDict d)) ->
  forall v, P v.
Proof.
  intros HN HB HI HF HS HL HD.
  fix F 1. intros [| b | n | f | s | l | d].
  - exact HN.
  - apply HB.
  - apply HI.
  - apply HF.
  - apply HS.
  - apply HL. induction l as [|x r IH]; constructor; [apply F | exact IH].
  - apply HD. induction d as [|[k x] r IH]; constructor; [apply F | exact IH].
Qed.

Lemma join_elems (x : value) (l : list value) (rest : list ascii) :
  join_items (map print_value (x :: l)) ++ "]" :: rest
  = print_value x ++ elems_tail l rest.
Proof.
  revert x. induction l as [|y l IH]; intros x.
  - reflexivity.
  - change (join_items (map print_value (x :: y :: l)))
      with (print_value x ++ "," :: " " :: join_items (map print_value (y :: l))).
    rewrite <- app_assoc. cbn [app elems_tail]. rewrite IH. reflexivity.
Qed.

Lemma join_members (k : string) (x : value) (d : list (string * value))
      (rest : list ascii) :
  join_items (map member_text ((k, x) :: d)) ++ "}" :: rest
  = "034" :: escape_chars (list_ascii_of_string k)
      ++ "034" :: ":" :: " " :: print_value x ++ members_tail d rest.
Proof.
  revert k x. induction d as [|[k' y] d IH]; intros k x.
  - cbn [map join_items]. unfold member_text, print_string.
    cbn [fst snd members_tail].
    repeat (rewrite <- app_assoc || rewrite <- app_comm_cons). reflexivity.
  - change (join_items (map member_text ((k, x) :: (k', y) :: d)))
      with (member_text (k, x) ++ "," :: " " :: join_items (map member_text ((k', y) :: d))).
    rewrite <- app_assoc. rewrite <- !app_comm_cons. rewrite IH.
    unfold member_text, print_string. cbn [fst snd members_tail].
    repeat (rewrite <- app_assoc || rewrite <- app_comm_cons). reflexivity.
Qed.

Lemma digit_value_start (c : ascii) : is_digit c = true -> value_start c = true.
Proof.
  intros H. apply is_digit_code in H. unfold value_start, is_ws.
  rewrite !eqb_code by (cbn; lia). reflexivity.
Qed.

Lemma print_int_head (n : Z) (rest : list ascii) :
  exists c r, print_int n ++ rest = c :: r
              /\ (is_digit c = true \/ c = "-").
Proof.
  unfold print_int. destruct (n <? 0) eqn:E.
  - exists "-", (print_nat (- n) ++ rest). split; [reflexivity | right; reflexivity].
  - apply Z.ltb_ge in E. destruct (print_nat_head n rest E) as [c [r [Heq Hc]]].
    exists c, r. split; [exact Heq | left; exact Hc].
Qed.

Lemma numeric_value_start (c : ascii) :
  is_digit c = true \/ c = "-" -> value_start c = true.
Proof. intros [H| ->]; [apply digit_value_start; exact H | reflexivity]. Qed.

Lemma print_value_head (v : value) (rest : list ascii) :
  exists c r, print_value v ++ rest = c :: r /\ value_start c = true.
Proof.
  destruct v as [| [|] | n | [m e| | |] | s | l | d];
    try (eexists; eexists; split; [reflexivity | reflexivity]).
  - destruct (print_int_head n rest) as [c [r [Heq Hc]]].
    exists c, r. split; [exact Heq | apply numeric_value_start; exact Hc].
  - cbn [print_value print_float]. rewrite <- app_assoc.
    destruct (print_int_head m ("e" :: print_int e ++ rest)) as [c [r [Heq Hc]]].
    exists c, r. split; [exact Heq | apply numeric_value_start; exact Hc].
Qed.

Lemma skip_ws_value (v : value) (rest : list ascii) :
  skip_ws (print_value v ++ rest) = print_value v ++ rest.
Proof.
  destruct (print_value_head v rest) as [c [r [Heq Hc]]]. rewrite Heq.
  cbn [skip_ws]. unfold value_start in Hc.
  destruct (is_ws c); [discriminate | reflexivity].
Qed.

Lemma numeric_start_tests (c : ascii) :
  is_digit c = true \/ c = "-" ->
  (c =? "034")%char = false /\ (c =? "{")%char = false /\ (c =? "[")%char = false
  /\ ("n" =? c)%char = false /\ ("t" =? c)%char = false /\ ("f" =? c)%char = false.
Proof.
  intros [H| ->]; [|repeat split; reflexivity].
  apply is_digit_code in H.
  repeat split; apply eqb_code; cbn; lia.
Qed.

Lemma parse_value_numeric (f : nat) (c : ascii) (r : list ascii)
      (x : value * list ascii) :
  is_digit c = true \/ c = "-" ->
  scan_number (c :: r) = Some x ->
  parse_value (S f) (c :: r) = Some x.
Proof.
  intros Hc Hscan.
  destruct (numeric_start_tests c Hc) as [H1 [H2 [H3 [H4 [H5 H6]]]]].
  cbn [parse_value]. rewrite H1, H2, H3.
  unfold scan_constant. cbn [list_ascii_of_string strip_prefix].
  rewrite H4, H5, H6, Hscan. reflexivity.
Qed.

Lemma elems_tail_end (l : list value) (rest : list ascii) :
  number_end (elems_tail l rest) = true.
Proof. destruct l; reflexivity. Qed.

Lemma members_tail_end (d : list (string * value)) (rest : list ascii) :
  number_end (members_tail d rest) = true.
Proof. destruct d as [|[k x] d]; reflexivity. Qed.

Lemma skip_ws_comma (r : list ascii) : skip_ws ("," :: r) = "," :: r.
Proof. reflexivity. Qed.

Lemma skip_ws_space (r : list ascii) : skip_ws (" " :: r) = skip_ws r.
Proof. reflexivity. Qed.

Lemma parse_elems_print (l : list value) :
  Forall reads_back l ->
  forallb wf_value l = true ->
  forall (x : value) (acc : list value) (f : nat) (rest : list ascii),
    reads_back x ->
    wf_value x = true ->
    (S (need x + fold_right (fun y n => S (need y + n)) 0%nat l) <= f)%nat ->
    parse_elems f (print_value x ++ elems_tail l rest) acc
    = Some (VList (rev acc ++ x :: l), rest).
Proof.
  induction l as [|y l IH]; intros Hall Hwf x acc f rest Hx Hwx Hf.
  - destruct f as [|f]; [lia|]. cbn [parse_elems].
    rewrite (Hx Hwx f) by (cbn in Hf; lia || reflexivity).
    reflexivity.
  - destruct f as [|f]; [lia|]. cbn [parse_elems].
    cbn [fold_right] in Hf.
    rewrite (Hx Hwx f) by (lia || apply elems_tail_end).
    cbn [elems_tail]. rewrite skip_ws_comma.
    change ("," =? "]")%char with false. change ("," =? ",")%char with true.
    cbv iota. rewrite skip_ws_space, skip_ws_value.
    inversion Hall as [|? ? Hy Hl]; subst.
    cbn in Hwf. apply andb_true_iff in Hwf as [Hwy Hwl].
    rewrite (IH Hl Hwl y (x :: acc) f rest Hy Hwy) by lia.
    cbn [rev]. rewrite <- app_assoc. reflexivity.
Qed.

Lemma existsb_eqb_sym (k : string) (ks : list string) :
  existsb (String.eqb k) ks = existsb (fun k' => String.eqb k' k) ks.
Proof.
  induction ks as [|x r IH]; [reflexivity|].
  cbn. rewrite IH, (String.eqb_sym k x). reflexivity.
Qed.

Lemma dict_set_fresh (a : list (string * value)) (k : string) (v : value) :
  existsb (String.eqb k) (map fst a) = false ->
  dict_set a k v = a ++ [(k, v)].
Proof.
  induction a as [|[k' v'] a IH]; intros H; [reflexivity|].
  cbn in H. apply orb_false_iff in H as [H1 H2].
  cbn [dict_set app]. rewrite String.eqb_sym, H1, IH by exact H2. reflexivity.
Qed.

Lemma unique_keys_middle (a : list string) (k : string) (r : list string) :
  unique_keys (a ++ k :: r) = true ->
  existsb (String.eqb k) a = false /\ unique_keys (a ++ [k] ++ r) = true.
Proof.
  intros H. split; [|exact H].
  induction a as [|x a IH]; [reflexivity|].
  cbn in H. apply andb_true_iff in H as [H1 H2].
  apply negb_true_iff in H1. rewrite existsb_app in H1.
  apply orb_false_iff in H1 as [_ H1]. cbn in H1.
  apply orb_false_iff in H1 as [H1 _].
  cbn. rewrite String.eqb_sym, H1. exact (IH H2).
Qed.

Lemma dict_update_unique (a d : list (string * value)) :
  unique_keys (map fst (a ++ d)) = true ->
  dict_update a d = a ++ d.
Proof.
  revert a. induction d as [|[k v] d IH]; intros a H.
  - cbn. rewrite app_nil_r. reflexivity.
  - unfold dict_update. cbn [fold_left fst snd].
    rewrite map_app in H. cbn [map fst] in H.
    destruct (unique_keys_middle _ _ _ H) as [Hk _].
    rewrite dict_set_fresh by exact Hk.
    fold (dict_update (a ++ [(k, v)]) d).
    rewrite IH; rewrite <- app_assoc; [reflexivity|].
    rewrite map_app. exact H.
Qed.

Lemma dict_of_pairs_unique (d : list (string * value)) :
  unique_keys (map fst d) = true -> dict_of_pairs d = d.
Proof. intros H. unfold dict_of_pairs. apply (dict_update_unique [] d H). Qed.

Lemma parse_members_print (d : list (string * value)) :
  Forall (fun kv => reads_back (snd kv)) d ->
  forallb (fun kv => utf8_valid (list_ascii_of_string (fst kv)) && wf_value (snd kv)) d
  = true ->
  forall (k : string) (x : value) (acc : list (string * value)) (f : nat)
         (rest : list ascii),
    reads_back x ->
    wf_value x = true ->
    utf8_valid (list_ascii_of_string k) = true ->
    (S (need x + fold_right (fun kv n => S (need (snd kv) + n)) 0%nat d) <= f)%nat ->
    parse_members f
      (escape_chars (list_ascii_of_string k)
         ++ "034" :: ":" :: " " :: print_value x ++ members_tail d rest) acc
    = Some (VDict (dict_of_pairs (rev acc ++ (k, x) :: d)), rest).
Proof.
  induction d as [|[k' y] d IH]; intros Hall Hwf k x acc f rest Hx Hwx Hk Hf;
    (destruct f as [|f]; [lia|]); cbn [parse_members];
    rewrite scan_string_escape by exact Hk;
    change (skip_ws (":" :: " " :: print_value x ++ members_tail ?d rest))
      with (":" :: " " :: print_value x ++ members_tail d rest);
    change (":" =? ":")%char with true; cbv iota;
    rewrite skip_ws_space, skip_ws_value;
    cbn [fold_right snd] in Hf;
    rewrite (Hx Hwx f) by (lia || apply members_tail_end);
    rewrite string_of_list_ascii_of_string.
  - reflexivity.
  - cbn [members_tail]. rewrite skip_ws_comma.
    change ("," =? "}")%char with false. change ("," =? ",")%char with true.
    cbv iota. rewrite skip_ws_space.
    change (skip_ws ("034" :: ?r)) with ("034" :: r).
    change ("034" =? "034")%char with true. cbv iota.
    inversion Hall as [|? ? Hy Hl]; subst. cbn [snd] in Hy.
    cbn [forallb fst snd] in Hwf. apply andb_true_iff in Hwf as [Hwy Hwl].
    apply andb_true_iff in Hwy as [Hk' Hwy].
    rewrite (IH Hl Hwl k' y ((k, x) :: acc) f rest Hy Hwy Hk') by lia.
    cbn [rev]. rewrite <- app_assoc. reflexivity.
Qed.

Lemma print_list_text (x : value) (l : list value) (rest : list ascii) :
  print_value (VList (x :: l)) ++ rest = "[" :: print_value x ++ elems_tail l rest.
Proof.
  cbn [print_value]. rewrite <- app_comm_cons, <- app_assoc.
  change (["]"] ++ rest) with ("]" :: rest). rewrite join_elems. reflexivity.
Qed.

Lemma print_dict_text (k : string) (x : value) (d : list (string * value))
      (rest : list ascii) :
  print_value (VDict ((k, x) :: d)) ++ rest
  = "{" :: "034" :: escape_chars (list_ascii_of_string k)
      ++ "034" :: ":" :: " " :: print_value x ++ members_tail d rest.
Proof.
  cbn [print_value]. rewrite <- app_comm_cons, <- app_assoc.
  change (["}"] ++ rest) with ("}" :: rest).
  change (map (fun kv => print_string (fst kv) ++ ":" :: " " :: print_value (snd kv)))
    with (map member_text).
  rewrite join_members. reflexivity.
Qed.

Lemma parse_print (v : value) : reads_back v.
Proof.
  induction v as [| b | n | fl | s | l IHl | d IHd] using value_ind';
    intros Hwf f rest Hf Hrest; (destruct f as [|f]; [cbn in Hf; lia|]).
  - reflexivity.
  - destruct b; reflexivity.
  - cbn [print_value].
    destruct (print_int_head n rest) as [c [r [Heq Hc]]].
    pose proof (scan_number_int n rest Hrest) as Hscan. rewrite Heq in *.
    apply parse_value_numeric; assumption.
  - destruct fl as [m e| | |]; try reflexivity.
    cbn [print_value print_float]. rewrite <- app_assoc. cbn [app].
    destruct (print_int_head m ("e" :: print_int e ++ rest)) as [c [r [Heq Hc]]].
    pose proof (scan_number_float m e rest (number_end_digits_end _ Hrest)) as Hscan.
    rewrite Heq in *. apply parse_value_numeric; assumption.
  - cbn [print_value]. unfold print_string. cbn [app]. rewrite <- app_assoc.
    cbn [app parse_value]. change ("034" =? "034")%char with true. cbv iota.
    cbn [wf_value] in Hwf. rewrite scan_string_escape by exact Hwf.
    rewrite string_of_list_ascii_of_string. reflexivity.
  - destruct l as [|x l]; [reflexivity|].
    rewrite print_list_text. cbn [parse_value].
    change ("[" =? "034")%char with false. change ("[" =? "{")%char with false.
    change ("[" =? "[")%char with true. cbv iota.
    rewrite skip_ws_value.
    destruct (print_value_head x (elems_tail l rest)) as [c [r [Heq Hc]]].
    rewrite Heq. unfold value_start in Hc.
    destruct (c =? "]")%char;
      [rewrite andb_false_r in Hc; cbn in Hc; discriminate|].
    rewrite <- Heq.
    inversion IHl as [|? ? Hx Hl]; subst.
    cbn [wf_value forallb] in Hwf. apply andb_true_iff in Hwf as [Hwx Hwl].
    cbn [need fold_right] in Hf.
    rewrite (parse_elems_print l Hl Hwl x [] f rest Hx Hwx) by lia.
    reflexivity.
  - destruct d as [|[k x] d]; [reflexivity|].
    rewrite print_dict_text. cbn [parse_value].
    change ("{" =? "034")%char with false. change ("{" =? "{")%char with true.
    cbv iota.
    change (skip_ws ("034" :: ?r)) with ("034" :: r).
    change ("034" =? "}")%char with false. change ("034" =? "034")%char with true.
    cbv iota.
    inversion IHd as [|? ? Hx Hd]; subst. cbn [snd] in Hx.
    cbn [wf_value] in Hwf. apply andb_true_iff in Hwf as [Hwf Huniq].
    cbn [forallb fst snd] in Hwf. apply andb_true_iff in Hwf as [Hwx Hwd].
    apply andb_true_iff in Hwx as [Hk Hwx].
    cbn [need fold_right snd] in Hf.
    rewrite (parse_members_print d Hd Hwd k x [] f rest Hx Hwx Hk) by lia.
    cbn [rev app]. rewrite dict_of_pairs_unique by exact Huniq. reflexivity.
Qed.

(** *** Fuel *)

Lemma join_bound {A} (cost : A -> nat) (text : A -> list ascii) (l : list A) :
  Forall (fun a => (cost a <= List.length (text a))%nat) l ->
  (fold_right (fun a n => S (cost a + n)) 0%nat l
   <= S (List.length (join_items (map text l))))%nat.
Proof.
  induction l as [|a l IH]; intros H; [cbn; lia|].
  inversion H as [|? ? Ha Hl]; subst. specialize (IH Hl).
  destruct l as [|b l].
  - cbn. lia.
  - change (join_items (map text (a :: b :: l)))
      with (text a ++ "," :: " " :: join_items (map text (b :: l))).
    rewrite length_app. cbn [List.length fold_right] in *. lia.
Qed.

Lemma need_le_length (v : value) : (need v <= List.length (print_value v))%nat.
Proof.
  induction v as [| b | n | fl | s | l IHl | d IHd] using value_ind'.
  - cbn. lia.
  - destruct b; cbn; lia.
  - destruct (print_int_head n []) as [c [r [Heq _]]].
    rewrite app_nil_r in Heq. cbn [print_value need]. rewrite Heq. cbn. lia.
  - destruct fl as [m e| | |]; try (cbn; lia).
    destruct (print_int_head m []) as [c [r [Heq _]]].
    rewrite app_nil_r in Heq. cbn [print_value need print_float].
    rewrite Heq. cbn. lia.
  - cbn. lia.
  - cbn [need print_value]. pose proof (join_bound need print_value l IHl) as H.
    cbn [List.length]. rewrite length_app. cbn [List.length]. lia.
  - cbn [need print_value].
    assert (H : Forall (fun kv => (need (snd kv)
                                   <= List.length (member_text kv))%nat) d).
    { apply Forall_impl with (2 := IHd). intros [k x] Hx. cbn [snd] in *.
      unfold member_text. cbn [fst snd]. rewrite length_app. cbn [List.length]. lia. }
    pose proof (join_bound (fun kv => need (snd kv)) member_text d H) as Hb.
    change (map (fun kv => print_string (fst kv) ++ ":" :: " " :: print_value (snd kv)))
      with (map member_text).
    cbn [List.length]. rewrite length_app. cbn [List.length]. lia.
Qed.

(** [json.loads(json.dumps(v)) == v] *)
Theorem loads_dumps (v : value) :
  wf_value v = true -> loads (dumps v) = Some v.
Proof.
  intros Hwf. unfold loads, dumps.
  rewrite list_ascii_of_string_of_list_ascii.
  rewrite <- (app_nil_r (print_value v)) at 2.
  rewrite skip_ws_value, app_nil_r.
  rewrite <- (app_nil_r (print_value v)) at 2.
  rewrite (parse_print v Hwf) by (pose proof (need_le_length v); lia || reflexivity).
  reflexivity.
Qed.

End JsonFacts.

(** ** Envelope codec *)

(** C10: for every event that is not a structured mapping (a string, a
    number, a list, null), [parse_event_body] returns the empty mapping;
    the event itself is not taken as the request body. *)
Theorem parse_event_body_non_mapping (event : value) :
  is_dict event = false ->
  Utils.parse_event_body event = VDict [].
Proof.
  destruct event; simpl; intros H; try reflexivity; discriminate H.
Qed.

Lemma parse_event_body_non_mapping_witness :
  is_dict (VList [VStr "body"]) = false
  /\ Utils.parse_event_body (VList [VStr "body"]) = VDict [].
Proof.
  split; [reflexivity | apply (parse_event_body_non_mapping (VList [VStr "body"])); reflexivity].
Defined.

(** ** Heartbeat filter *)

Lemma handle_ping_probe (d : list (string * value)) (x : value) :
  lookup "ping" d = Some x -> truthy x = true ->
  Utils.handle_ping (VDict d) = pong.
Proof.
  intros Hl Ht. unfold Utils.handle_ping. rewrite Hl, Ht. reflexivity.
Qed.

Lemma scaling_never_pong (w : world) (event : value) (p p' : process) (r : value) :
  Scaling.lambda_handler w event p = (Ok r, p') -> r <> pong.
Proof.
  unfold Scaling.lambda_handler, bind, lift, ret.
  destruct (py_get _ _ _) as [sleep_ms|e]; [|discriminate].
  destruct (py_gt_zero sleep_ms) as [positive|e]; [|discriminate].
  destruct positive.
  - destruct (perform w _ p) as [[v|e] p1]; [|discriminate].
    intros H; inversion H; subst. unfold pong. discriminate.
  - intros H; inversion H; subst. unfold pong. discriminate.
Qed.

(** C3 (as amended): for every envelope that is a structured mapping with
    a truthy [ping] field, the heartbeat filter returns exactly
    [{statusCode: 200, body: "pong"}], and the dynamo, connectivity and
    integration handlers return it at once: the process state is
    unchanged, so no collaborator was called and neither the codec nor the
    dispatcher ran.  The scaling handler has no heartbeat filter: whatever
    it returns is never the canned response. *)
Theorem ping_short_circuits
        (w : world) (py_str : value -> string) (decode_message : string -> string)
        (d : list (string * value)) (x : value) (p : process) :
  lookup "ping" d = Some x ->
  truthy x = true ->
  Utils.handle_ping (VDict d) = pong
  /\ Dynamo.lambda_handler w py_str (VDict d) p = (Ok pong, p)
  /\ Connectivity.lambda_handler w py_str (VDict d) p = (Ok pong, p)
  /\ Integration.lambda_handler w py_str decode_message (VDict d) p = (Ok pong, p)
  /\ (forall r p', Scaling.lambda_handler w (VDict d) p = (Ok r, p') -> r <> pong).
Proof.
  intros Hl Ht.
  pose proof (handle_ping_probe d x Hl Ht) as Hp.
  repeat split.
  - exact Hp.
  - unfold Dynamo.lambda_handler. rewrite Hp. reflexivity.
  - unfold Connectivity.lambda_handler. rewrite Hp. reflexivity.
  - unfold Integration.lambda_handler. rewrite Hp. reflexivity.
  - intros r p'. apply scaling_never_pong.
Qed.

Lemma ping_short_circuits_witness :
  Utils.handle_ping (VDict [("ping", VBool true)]) = pong
  /\ Dynamo.lambda_handler Examples.quiet Examples.str_simple (VDict [("ping", VBool true)]) Examples.fresh
     = (Ok pong, Examples.fresh)
  /\ Connectivity.lambda_handler Examples.quiet Examples.str_simple (VDict [("ping", VBool true)]) Examples.fresh
     = (Ok pong, Examples.fresh)
  /\ Integration.lambda_handler Examples.quiet Examples.str_simple Examples.no_message
       (VDict [("ping", VBool true)]) Examples.fresh
     = (Ok pong, Examples.fresh)
  /\ (forall r p', Scaling.lambda_handler Examples.quiet (VDict [("ping", VBool true)]) Examples.fresh = (Ok r, p')
                   -> r <> pong).
Proof.
  exact (ping_short_circuits Examples.quiet Examples.str_simple Examples.no_message
           [("ping", VBool true)] (VBool true) Examples.fresh eq_refl eq_refl).
Defined.

(** C3 as stated fails on the scaling handler: a probe is answered with
    the scaling response, not with the canned one. *)
Lemma scaling_answers_probe_as_request :
  Scaling.lambda_handler Examples.quiet (VDict [("ping", VBool true)]) Examples.fresh
  = (Ok (VDict [("statusCode", VInt 200);
                ("headers", VDict [("Content-Type", VStr "application/json")]);
                ("body", VStr (Examples.json "{'message': 'scaling-test', 'slept_ms': 0}"))]),
     Examples.fresh)
  /\ fst (Scaling.lambda_handler Examples.quiet (VDict [("ping", VBool true)]) Examples.fresh)
     <> Ok pong.
Proof.
  split; [vm_compute; reflexivity | vm_compute; discriminate].
Qed.


Lemma invoked_targets_app (a b : list call) :
  invoked_targets (a ++ b) = invoked_targets a ++ invoked_targets b.
Proof. unfold invoked_targets. rewrite filter_app, map_app. reflexivity. Qed.

(** ** Action dispatchers *)

Section DynamoFacts.

Variable w : world.
Variable py_str : value -> string.




End DynamoFacts.

Lemma quiet_clients_available : clients_available Examples.quiet.
Proof. intros tr service. exists (VDict []). reflexivity. Qed.


(** C5 (as amended): when the handler of an action raises, the catch-all
    of the dispatcher returns a response and the failure does not escape.
    The connectivity function answers statusCode 500 with the body
    [{success: false, action, error}]; the dynamo function answers
    statusCode 500 with the body [{success: false, error}], without the
    action name; the image function answers the bare mapping
    [{success: false, action, handler, error}], without a statusCode. *)
Theorem catch_all_boundary (w : world) (py_str : value -> string) :
  (forall event action handler e p p2,
      truthy (Utils.handle_ping event) = false ->
      py_get (Utils.parse_event_body event) "action" (VStr "echo") = Ok action ->
      Connectivity.select w py_str action (Utils.parse_event_body event) = Some handler ->
      handler (record (Call "logger" "info"
                         (VStr ("Processing action: " ++ py_str action))) p)
      = (Raise e, p2) ->
      Connectivity.lambda_handler w py_str event p
      = (Ok (connectivity_failure action e), p2)
      /\ field "statusCode" (connectivity_failure action e) = Some (VInt 500)
      /\ field "body" (connectivity_failure action e)
         = Some (VStr (Json.dumps (VDict [("success", VBool false); ("action", action);
                                          ("error", VStr (str_exn e))]))))
  /\ (forall event action e p p2,
         truthy (Utils.handle_ping event) = false ->
         py_get (Utils.parse_event_body event) "action" (VStr "put_get") = Ok action ->
         Dynamo.run_action w py_str action (Utils.parse_event_body event)
           (record (Call "logger" "info"
                      (VStr ("Received event: " ++ Json.dumps event))) p)
         = (Raise e, p2) ->
         Dynamo.lambda_handler w py_str event p
         = (Ok (dynamo_failure e),
            record (Call "logger" "error" (VStr ("Error: " ++ str_exn e))) p2)
         /\ field "statusCode" (dynamo_failure e) = Some (VInt 500)
         /\ field "body" (dynamo_failure e)
            = Some (VStr (Json.dumps (VDict [("success", VBool false);
                                             ("error", VStr (str_exn e))]))))
  /\ (forall event e p p2,
         Image.run_action w py_str (Image.action_of (Image._parse_payload event))
           (Image._parse_payload event)
           [("success", VBool true);
            ("action", VStr (Image.action_of (Image._parse_payload event)));
            ("handler", VStr "esb-e2e-lambda-python")] p
         = (Raise e, p2) ->
         Image.lambda_handler w py_str event p
         = (Ok (image_failure (Image.action_of (Image._parse_payload event)) e), p2)
         /\ field "statusCode"
              (image_failure (Image.action_of (Image._parse_payload event)) e) = None).
Proof.
  split; [|split].
  - intros event action handler e p p2 Hping Haction Hsel Hraise.
    split; [|split; reflexivity].
    unfold Connectivity.lambda_handler. rewrite Hping.
    cbv beta iota zeta delta [bind lift log emit].
    rewrite Haction, Hsel. unfold try_except. rewrite Hraise. reflexivity.
  - intros event action e p p2 Hping Haction Hraise.
    split; [|split; reflexivity].
    unfold Dynamo.lambda_handler. rewrite Hping.
    cbv beta iota zeta delta [bind lift log emit].
    rewrite Haction. unfold try_except. rewrite Hraise. reflexivity.
  - intros event e p p2 Hraise. split; [|reflexivity].
    unfold Image.lambda_handler.
    cbv beta iota zeta delta [try_except bind].
    rewrite Hraise. reflexivity.
Qed.

Lemma catch_all_boundary_witness :
  Connectivity.lambda_handler Examples.services_down Examples.str_simple
    (VDict [("action", VStr "dynamodb_put")]) Examples.fresh
  = (Ok (connectivity_failure (VStr "dynamodb_put")
           (Exn "ClientError" "service unavailable")),
     Process []
       [Call "logger" "info" (VStr "Processing action: dynamodb_put");
        Call "boto3" "client" (VStr "dynamodb");
        Call "dynamodb" "put_item"
          (VDict [("TableName", VStr "e2e-test-table");
                  ("Item", VDict [("id", VDict [("S", VStr "python-smoke")]);
                                  ("value", VDict [("S", VStr "ok")])])])])
  /\ fst (Dynamo.lambda_handler Examples.services_down Examples.str_simple
            (VDict [("action", VStr "delete"); ("id", VStr "k")]) Examples.fresh)
     = Ok (dynamo_failure (Exn "ClientError" "service unavailable"))
  /\ fst (Image.lambda_handler Examples.services_down Examples.str_simple
            (VDict [("action", VStr "chain_invoke")]) Examples.fresh)
     = Ok (image_failure "chain_invoke" (Exn "ClientError" "service unavailable")).
Proof.
  destruct (catch_all_boundary Examples.services_down Examples.str_simple)
    as [Hc [Hd Hi]].
  split; [|split].
  - refine (proj1 (Hc (VDict [("action", VStr "dynamodb_put")]) (VStr "dynamodb_put")
                      _ (Exn "ClientError" "service unavailable") Examples.fresh _
                      eq_refl eq_refl eq_refl _)).
    vm_compute. reflexivity.
  - refine (f_equal fst
              (proj1 (Hd (VDict [("action", VStr "delete"); ("id", VStr "k")])
                         (VStr "delete") (Exn "ClientError" "service unavailable")
                         Examples.fresh _ eq_refl eq_refl _))).
    lazy. reflexivity.
  - refine (f_equal fst
              (proj1 (Hi (VDict [("action", VStr "chain_invoke")])
                         (Exn "ClientError" "service unavailable")
                         Examples.fresh _ _))).
    lazy. reflexivity.
Defined.

(** C5 as stated fails on the dynamo function, whose failure body has no
    action name, and on the image function, whose failure response has no
    statusCode. *)
Lemma catch_all_shapes_differ :
  (let r := fst (Dynamo.lambda_handler Examples.services_down Examples.str_simple
                   (VDict [("action", VStr "delete"); ("id", VStr "k")])
                   Examples.fresh) in
   r = Ok (VDict [("statusCode", VInt 500);
                  ("headers", VDict [("Content-Type", VStr "application/json")]);
                  ("body", VStr (Examples.json "{'success': false, 'error': 'service unavailable'}"))])
   /\ Json.loads (Examples.json "{'success': false, 'error': 'service unavailable'}")
      = Some (VDict [("success", VBool false); ("error", VStr "service unavailable")])
   /\ lookup "action" [("success", VBool false); ("error", VStr "service unavailable")]
      = None)
  /\ (let r := fst (Image.lambda_handler Examples.services_down Examples.str_simple
                      (VDict [("action", VStr "chain_invoke")]) Examples.fresh) in
      r = Ok (VDict [("success", VBool false); ("action", VStr "chain_invoke");
                     ("handler", VStr "esb-e2e-lambda-python");
                     ("error", VStr "service unavailable")])
      /\ lookup "statusCode"
           [("success", VBool false); ("action", VStr "chain_invoke");
            ("handler", VStr "esb-e2e-lambda-python");
            ("error", VStr "service unavailable")] = None).
Proof.
  vm_compute. repeat split.
Qed.

(** ** Chain invoker *)

Lemma image_target_default (payload : list (string * value)) :
  valid_target (lookup "target" payload) = false ->
  Image.str_or (match lookup "target" payload with
                | Some x => x
                | None => VStr Image.DEFAULT_TARGET
                end) Image.DEFAULT_TARGET = Image.DEFAULT_TARGET.
Proof.
  destruct (lookup "target" payload) as [[| | | |s| |]|]; simpl; try reflexivity.
  destruct (s =? "")%string; simpl; [reflexivity | discriminate].
Qed.

(** C8 (as amended): with the invoke client constructed, the chain invoker
    of the image function calls the default target whenever the supplied
    target is absent or is not a non-empty string; the chain handler of the
    connectivity function calls the default target only when the target is
    absent, and calls a supplied target as it is. *)
Theorem target_fallback (w : world) :
  clients_available w ->
  (forall payload p,
      valid_target (lookup "target" payload) = false ->
      invoked_targets (calls (snd (Image._invoke_lambda w payload p)))
      = invoked_targets (calls p) ++ [Some (VStr Image.DEFAULT_TARGET)])
  /\ (forall body p,
         lookup "target" body = None ->
         invoked_targets (calls (snd (Connectivity.handle_chain_invoke w (VDict body) p)))
         = invoked_targets (calls p) ++ [Some (VStr Connectivity.DEFAULT_LAMBDA_TARGET)])
  /\ (forall body x p,
         lookup "target" body = Some x ->
         invoked_targets (calls (snd (Connectivity.handle_chain_invoke w (VDict body) p)))
         = invoked_targets (calls p) ++ [Some x]).
Proof.
  intros Hw.
  assert (Hconn : forall body p,
             invoked_targets (calls (snd (Connectivity.handle_chain_invoke w (VDict body) p)))
             = invoked_targets (calls p)
               ++ [Some (match lookup "target" body with
                         | Some x => x
                         | None => VStr Connectivity.DEFAULT_LAMBDA_TARGET
                         end)]).
  { intros body p. unfold Connectivity.handle_chain_invoke.
    cbv beta iota zeta delta [bind lift py_get boto3_client client_call perform].
    destruct (Hw (calls p) "lambda") as [c Hc]. rewrite Hc.
    match goal with
    | |- context [reply w ?tr ?c] => destruct (reply w tr c) as [response|e]
    end.
    - destruct (read_stream response "Payload") as [raw|e]; simpl;
        rewrite <- app_assoc, invoked_targets_app; reflexivity.
    - simpl. rewrite <- app_assoc, invoked_targets_app. reflexivity. }
  split; [|split].
  - intros payload p Hinv. unfold Image._invoke_lambda.
    rewrite (image_target_default payload Hinv).
    cbv beta iota zeta delta [bind lift boto3_client client_call perform].
    destruct (Hw (calls p) "lambda") as [c Hc]. rewrite Hc.
    match goal with
    | |- context [reply w ?tr ?c] => destruct (reply w tr c) as [response|e]
    end.
    + destruct (py_get response "StatusCode" VNone) as [status|e];
        [|simpl; rewrite <- app_assoc, invoked_targets_app; reflexivity].
      destruct (_ =? "RequestResponse")%string.
      * destruct (read_stream response "Payload") as [raw|e];
          [destruct (Json.loads raw)|]; simpl;
          rewrite <- app_assoc, invoked_targets_app; reflexivity.
      * simpl. rewrite <- app_assoc, invoked_targets_app. reflexivity.
    + simpl. rewrite <- app_assoc, invoked_targets_app. reflexivity.
  - intros body p Hl. rewrite Hconn, Hl. reflexivity.
  - intros body x p Hl. rewrite Hconn, Hl. reflexivity.
Qed.

Lemma target_fallback_witness :
  invoked_targets
    (calls (snd (Image._invoke_lambda Examples.quiet [("target", VStr "")] Examples.fresh)))
  = invoked_targets (calls Examples.fresh) ++ [Some (VStr Image.DEFAULT_TARGET)]
  /\ invoked_targets
       (calls (snd (Connectivity.handle_chain_invoke Examples.quiet
                      (VDict [("message", VStr "hi")]) Examples.fresh)))
     = invoked_targets (calls Examples.fresh)
       ++ [Some (VStr Connectivity.DEFAULT_LAMBDA_TARGET)].
Proof.
  destruct (target_fallback Examples.quiet quiet_clients_available) as [Hi [Hc _]].
  split.
  - apply (Hi [("target", VStr "")] Examples.fresh). reflexivity.
  - apply (Hc [("message", VStr "hi")] Examples.fresh). reflexivity.
Defined.

(** C8 as stated fails on the connectivity function: an empty target, or
    one that is not a string, is passed to [invoke] as supplied. *)
Lemma connectivity_keeps_invalid_target :
  invoked_targets
    (calls (snd (Connectivity.handle_chain_invoke Examples.quiet
                   (VDict [("action", VStr "chain_invoke"); ("target", VStr "")])
                   Examples.fresh)))
  = [Some (VStr "")]
  /\ invoked_targets
       (calls (snd (Connectivity.handle_chain_invoke Examples.quiet
                      (VDict [("action", VStr "chain_invoke"); ("target", VInt 7)])
                      Examples.fresh)))
     = [Some (VInt 7)]
  /\ valid_target (Some (VStr "")) = false
  /\ valid_target (Some (VInt 7)) = false.
Proof.
  vm_compute. repeat split.
Qed.


Lemma callee_answers_available (text : string) :
  clients_available (Examples.callee_answers text).
Proof. intros tr service. exists VNone. reflexivity. Qed.

Lemma callee_answers_returns (text : string) :
  callee_returns (Examples.callee_answers text)
    (VDict [("StatusCode", VInt 200); ("Payload", VStr text)]).
Proof. intros tr kwargs. reflexivity. Qed.


(** The two payloads of the specification, run through the chain handler
    of the connectivity function. *)
Example chain_child_examples :
  decoded_or_raw (Examples.json "{'ok':true}") = VDict [("ok", VBool true)]
  /\ decoded_or_raw "plain" = VStr "plain".
Proof. split; vm_compute; reflexivity. Qed.


(** ** Trace context bridge *)

Section TraceFacts.
Import TraceBridge.

Lemma env_get_set (env : list (string * string)) (k v : string) :
  env_get k (env_set env k v) = Some v.
Proof.
  induction env as [|[k' v'] r IH]; simpl.
  - rewrite String.eqb_refl. reflexivity.
  - destruct (k' =? k)%string eqn:E; simpl.
    + rewrite String.eqb_refl. reflexivity.
    + rewrite E. exact IH.
Qed.

Lemma bridge_publishes (context : pyobj) (s : string) (p : process) :
  trace_id_of context = Some (VStr s) ->
  has_nul s = false ->
  env_get TRACE_VAR (environ p) = None
  \/ env_get TRACE_VAR (environ p) = Some "" ->
  _set_trace_id_from_context context p = (Ok tt, published s p).
Proof.
  intros Hid Hnul Henv. unfold _set_trace_id_from_context. rewrite Hid.
  cbv beta iota zeta delta [bind environ_get environ_set log emit].
  destruct Henv as [Henv|Henv]; rewrite Henv, Hnul; reflexivity.
Qed.

Lemma bridge_keeps (context : pyobj) (s : string) (p : process) :
  env_get TRACE_VAR (environ p) = Some s ->
  s <> "" ->
  _set_trace_id_from_context context p = (Ok tt, p).
Proof.
  intros Henv Hne. unfold _set_trace_id_from_context.
  destruct (trace_id_of context) as [trace_id|]; [|reflexivity].
  cbv beta iota zeta delta [bind environ_get]. rewrite Henv.
  destruct s as [|c s']; [contradiction Hne; reflexivity | reflexivity].
Qed.

(** C4 (as amended): when no value is published and the invocation
    metadata carries [client_context.custom.trace_id = s], the bridge
    publishes [s] and the wrapped handler, blocking or suspending, starts
    in the state where [s] is published; once a non-empty value is
    published, no later invocation changes it, whatever its metadata, as
    long as the handlers leave the environment alone. *)
Theorem trace_published_once {A} (handler : value -> pyobj -> M A) :
  (forall is_coroutine event context s p,
      env_get TRACE_VAR (environ p) = None ->
      trace_id_of context = Some (VStr s) ->
      has_nul s = false ->
      hydrate_trace_id is_coroutine handler event context p
      = handler event context (published s p)
      /\ env_get TRACE_VAR (environ (published s p)) = Some s)
  /\ (forall invocations s p,
         (forall event context q,
             environ (snd (handler event context q)) = environ q) ->
         env_get TRACE_VAR (environ p) = Some s ->
         s <> "" ->
         env_get TRACE_VAR (environ (invoke_all handler invocations p)) = Some s).
Proof.
  split.
  - intros is_coroutine event context s p Henv Hid Hnul. split.
    + unfold hydrate_trace_id, async_wrapper, sync_wrapper.
      destruct is_coroutine; unfold bind;
        rewrite (bridge_publishes context s p Hid Hnul (or_introl Henv));
        reflexivity.
    + unfold published, record. simpl. apply env_get_set.
  - intros invocations s p Hframe Henv Hne. revert p Henv.
    induction invocations as [|[event context] rest IH]; intros p Henv.
    + exact Henv.
    + simpl. apply IH. unfold sync_wrapper, bind.
      rewrite (bridge_keeps context s p Henv Hne).
      rewrite Hframe. exact Henv.
Qed.

End TraceFacts.

Lemma trace_published_once_witness :
  fst (TraceBridge.hydrate_trace_id false report_trace VNone
         (context_with (VStr "abc")) Examples.fresh) = Ok (VStr "abc")
  /\ env_get TraceBridge.TRACE_VAR
       (environ (invoke_all report_trace
                   [(VNone, context_with (VStr "xyz")); (VNone, context_with (VStr "def"))]
                   (published "abc" Examples.fresh))) = Some "abc".
Proof.
  destruct (trace_published_once report_trace) as [Hfirst Hlater].
  split.
  - rewrite (proj1 (Hfirst false VNone (context_with (VStr "abc")) "abc" Examples.fresh
                      eq_refl eq_refl eq_refl)).
    reflexivity.
  - apply Hlater.
    + intros event context q. reflexivity.
    + reflexivity.
    + discriminate.
Defined.

(** C4 as stated fails when the published value is the empty string: the
    bridge tests the variable for truth, so the next invocation replaces
    it. *)
Lemma empty_trace_id_is_replaced :
  let p1 := invoke_all report_trace [(VNone, context_with (VStr ""))] Examples.fresh in
  let p2 := invoke_all report_trace [(VNone, context_with (VStr "abc"))] p1 in
  env_get TraceBridge.TRACE_VAR (environ p1) = Some ""
  /\ env_get TraceBridge.TRACE_VAR (environ p2) = Some "abc".
Proof. vm_compute. split; reflexivity. Qed.



(** ** Envelope codec, continued *)



(** C6, at the inputs where the code departs from it: a [body] that
    encodes a JSON array or a JSON string, or that is a structured value
    other than a mapping, comes back as it is, not as a mapping; the
    dispatcher that receives it fails on [body.get] outside its catch-all. *)
Theorem parse_event_body_returns_non_mapping :
  Utils.parse_event_body (VDict [("body", VStr "[1]")]) = VList [VInt 1]
  /\ Utils.parse_event_body (VDict [("body", VStr (Examples.json "'hello'"))]) = VStr "hello"
  /\ Utils.parse_event_body (VDict [("body", VInt 5)]) = VInt 5
  /\ fst (Connectivity.lambda_handler Examples.quiet Examples.str_simple
            (VDict [("body", VStr (Examples.json "'hello'"))]) Examples.fresh)
     = Raise (Exn "AttributeError" "'str' object has no attribute 'get'").
Proof. vm_compute. repeat split. Qed.

(** [parse_event_body] returns on every event; what it returns for a
    mapping with a [body] is the decoded body, whatever its type. *)
Lemma parse_event_body_cases (event : value) :
  Utils.parse_event_body event = VDict []
  \/ Utils.parse_event_body event = event
  \/ exists d b, event = VDict d /\ lookup "body" d = Some b
                 /\ (Utils.parse_event_body event = b
                     \/ exists s, b = VStr s
                                  /\ Json.loads s = Some (Utils.parse_event_body event)).
Proof.
  destruct event as [| | | | | |d]; try (left; reflexivity).
  cbn [Utils.parse_event_body].
  destruct (lookup "body" d) as [b|] eqn:Hb; [|right; left; reflexivity].
  destruct b as [| | | |s| |];
    try (right; right; eexists; eexists; repeat split;
         [exact Hb | left; reflexivity]).
  destruct (Json.loads s) as [v|] eqn:Hs; [|left; reflexivity].
  right; right. exists d, (VStr s). repeat split; [exact Hb|].
  right. exists s. split; [reflexivity | exact Hs].
Qed.

(** ** Response envelope *)

(** C7 (as amended): the response has the fields statusCode, headers and
    body; statusCode defaults to 200 and headers to
    [{Content-Type: application/json}]; a body value that is neither
    [None] nor a string is JSON-encoded, and the text decodes back to it;
    a string is passed through as it is, and [None], also the default,
    stays [None].  So the body is a string whenever a body value other
    than [None] is given, and [create_response(200, {a: 1})] has the body
    [{"a": 1}] and the default headers. *)
Theorem create_response_shape (status_code body headers : option value) :
  Utils.create_response status_code body headers
  = VDict [("statusCode", match status_code with Some x => x | None => VInt 200 end);
           ("headers",
            match headers with
            | None | Some VNone => VDict [("Content-Type", VStr "application/json")]
            | Some h => h
            end);
           ("body",
            match body with
            | None | Some VNone => VNone
            | Some (VStr s) => VStr s
            | Some b => VStr (Json.dumps b)
            end)]
  /\ (forall b, body = Some b -> b <> VNone ->
      exists s, field "body" (Utils.create_response status_code body headers)
                = Some (VStr s))
  /\ (forall b, body = Some b -> b <> VNone -> is_str b = false ->
      JsonText.wf_value b = true ->
      exists s, field "body" (Utils.create_response status_code body headers)
                = Some (VStr s)
                /\ Json.loads s = Some b)
  /\ Utils.create_response (Some (VInt 200)) (Some (VDict [("a", VInt 1)])) None
     = VDict [("statusCode", VInt 200);
              ("headers", VDict [("Content-Type", VStr "application/json")]);
              ("body", VStr (Examples.json "{'a': 1}"))].
Proof.
  split; [|split; [|split]].
  - unfold Utils.create_response.
    destruct status_code, body as [[]|], headers as [[]|]; reflexivity.
  - intros b -> Hb. destruct b; try (eexists; reflexivity). contradiction Hb. reflexivity.
  - intros b -> Hb Hs Hwf.
    exists (Json.dumps b). split.
    + destruct b; try reflexivity; [contradiction Hb; reflexivity | discriminate Hs].
    + apply JsonFacts.loads_dumps. exact Hwf.
  - vm_compute. reflexivity.
Qed.

Lemma create_response_shape_witness :
  exists s,
    field "body"
      (Utils.create_response (Some (VInt 400))
         (Some (VDict [("success", VBool false); ("error", VStr "id is required")]))
         None) = Some (VStr s)
    /\ Json.loads s
       = Some (VDict [("success", VBool false); ("error", VStr "id is required")]).
Proof.
  apply (proj1 (proj2 (proj2
           (create_response_shape (Some (VInt 400))
              (Some (VDict [("success", VBool false); ("error", VStr "id is required")]))
              None)))
           (VDict [("success", VBool false); ("error", VStr "id is required")])).
  - reflexivity.
  - discriminate.
  - reflexivity.
  - reflexivity.
Defined.

(** C7 as stated fails: without a body value, or with [None], the body of
    the envelope is [None], not a string; a string body value is not
    encoded, so the body need not be JSON. *)
Lemma create_response_body_not_always_json :
  field "body" (Utils.create_response None None None) = Some VNone
  /\ field "body" (Utils.create_response (Some (VInt 200)) (Some VNone) None) = Some VNone
  /\ field "body" (Utils.create_response (Some (VInt 200)) (Some (VStr "plain")) None)
     = Some (VStr "plain")
  /\ Json.loads "plain" = None.
Proof. vm_compute. repeat split. Qed.

(** * Further properties of the fixtures *)

(** ** Reasoning about computations *)

Lemma ensures_ret {A} (a : A) (Q : A -> Prop) : Q a -> ensures (ret a) Q.
Proof. intros H p a' p' E. inversion E. subst. exact H. Qed.

Lemma ensures_bind {A B} (m : M A) (k : A -> M B) (Q : B -> Prop) :
  (forall a, ensures (k a) Q) -> ensures (bind m k) Q.
Proof.
  intros H p b p' E. unfold bind in E.
  destruct (m p) as [[a|e] p1]; [|discriminate].
  exact (H a p1 b p' E).
Qed.




Lemma never_raises_ret {A} (a : A) : never_raises (ret a).
Proof. intros p. exists a, p. reflexivity. Qed.


Lemma never_raises_try {A} (m : M A) (h : exn -> M A) :
  (forall e, never_raises (h e)) -> never_raises (try_except m h).
Proof.
  intros Hh p. unfold try_except.
  destruct (m p) as [[a|e] p1].
  - exists a, p1. reflexivity.
  - apply Hh.
Qed.


Lemma calls_to_app (service : string) (a b : list call) :
  calls_to service (a ++ b) = calls_to service a ++ calls_to service b.
Proof. apply filter_app. Qed.

Lemma calls_to_snoc (service : string) (l : list call) (c : call) :
  calls_to service (l ++ [c])
  = calls_to service l ++ (if (target c =? service)%string then [c] else []).
Proof. rewrite calls_to_app. reflexivity. Qed.

(** The calls to one collaborator in a trace given call by call. *)
Ltac trace_calls :=
  unfold record; cbn [calls snd fst];
  repeat rewrite calls_to_snoc;
  cbn [target String.eqb Ascii.eqb Bool.eqb];
  repeat rewrite app_nil_r; repeat rewrite <- app_assoc; cbn [app].

(** ** Envelope codec *)



(** ** The dynamo dispatcher *)

Lemma dynamo_handler_steps (w : world) (py_str : value -> string)
      (event : value) (body : list (string * value)) (p : process) :
  truthy (Utils.handle_ping event) = false ->
  Utils.parse_event_body event = VDict body ->
  Dynamo.lambda_handler w py_str event p
  = try_except
      (Dynamo.run_action w py_str
         (match lookup "action" body with Some x => x | None => VStr "put_get" end)
         (VDict body))
      (Dynamo.on_error)
      (record (Call "logger" "info" (VStr ("Received event: " ++ Json.dumps event))) p).
Proof.
  intros Hping Hbody. unfold Dynamo.lambda_handler. rewrite Hping, Hbody.
  reflexivity.
Qed.

Lemma dynamo_failure_calls (e : exn) (p : process) :
  calls_to "dynamodb" (calls (snd (Dynamo.on_error e p))) = calls_to "dynamodb" (calls p).
Proof.
  unfold Dynamo.on_error, bind, log, emit, ret, record. cbn [snd calls].
  rewrite calls_to_app. cbn. apply app_nil_r.
Qed.

(** X2: an action name the dynamo dispatcher does not know is answered
    with statusCode 400 and the error "Unknown action: <value>", and no
    operation is called on the storage client. *)
Theorem dynamo_unknown_action
        (w : world) (py_str : value -> string)
        (event : value) (body : list (string * value)) (p : process) :
  let action := match lookup "action" body with Some x => x | None => VStr "put_get" end in
  truthy (Utils.handle_ping event) = false ->
  Utils.parse_event_body event = VDict body ->
  action_among dynamo_actions action = false ->
  calls_to "dynamodb" (calls (snd (Dynamo.lambda_handler w py_str event p)))
  = calls_to "dynamodb" (calls p)
  /\ (clients_available w ->
      fst (Dynamo.lambda_handler w py_str event p)
      = Ok (Utils.create_response (Some (VInt 400))
              (Some (VDict [("success", VBool false);
                            ("error", VStr ("Unknown action: " ++ py_str action))]))
              None)).
Proof.
  intros action Hping Hbody Hunknown.
  rewrite (dynamo_handler_steps w py_str event body p Hping Hbody). fold action.
  unfold action_among, dynamo_actions in Hunknown. cbn [existsb] in Hunknown.
  repeat (apply orb_false_iff in Hunknown as [? Hunknown]).
  unfold try_except, Dynamo.run_action.
  cbv beta iota zeta delta [bind boto3_client perform].
  set (p1 := record _ p).
  repeat match goal with H : eq_str action _ = false |- _ => rewrite H; clear H end.
  destruct (reply w (calls p1) (Call "boto3" "client" (VStr "dynamodb"))) as [c|e] eqn:E.
  - split.
    + cbn [ret snd record calls]. subst p1. unfold record. cbn [calls].
      rewrite !calls_to_app. cbn. rewrite !app_nil_r. reflexivity.
    + intros _. reflexivity.
  - split.
    + rewrite dynamo_failure_calls. subst p1. unfold record. cbn [calls].
      rewrite !calls_to_app. cbn. rewrite !app_nil_r. reflexivity.
    + intros Hw. destruct (Hw (calls p1) "dynamodb") as [c Hc]. congruence.
Qed.

Lemma dynamo_unknown_action_witness :
  fst (Dynamo.lambda_handler Examples.quiet Examples.str_simple
         (VDict [("action", VStr "bogus")]) Examples.fresh)
  = Ok (Utils.create_response (Some (VInt 400))
          (Some (VDict [("success", VBool false);
                        ("error", VStr "Unknown action: bogus")])) None).
Proof.
  apply (dynamo_unknown_action Examples.quiet Examples.str_simple
           (VDict [("action", VStr "bogus")]) [("action", VStr "bogus")]
           Examples.fresh eq_refl eq_refl eq_refl).
  exact quiet_clients_available.
Defined.

Lemma dynamo_guard_stops (w : world) (body : list (string * value)) (p : process) :
  truthy (match lookup "id" body with Some x => x | None => VNone end) = false ->
  Dynamo.get w (VDict body) p = (Ok Dynamo.id_required, p)
  /\ Dynamo.update w (VDict body) p = (Ok Dynamo.id_required, p)
  /\ Dynamo.delete w (VDict body) p = (Ok Dynamo.id_required, p).
Proof.
  intros H. unfold Dynamo.get, Dynamo.update, Dynamo.delete, bind, lift, py_get.
  rewrite H. repeat split.
Qed.

(** X3: the get, update and delete actions reject an id that is missing or
    present but false (an empty string, null, zero): no operation is called
    on the storage client and, the client being constructed, the answer is
    the statusCode 400 response "id is required". *)
Theorem dynamo_falsy_id_rejected
        (w : world) (py_str : value -> string)
        (event : value) (body : list (string * value)) (action : string)
        (p : process) :
  truthy (Utils.handle_ping event) = false ->
  Utils.parse_event_body event = VDict body ->
  lookup "action" body = Some (VStr action) ->
  In action ["get"; "update"; "delete"] ->
  truthy (match lookup "id" body with Some x => x | None => VNone end) = false ->
  calls_to "dynamodb" (calls (snd (Dynamo.lambda_handler w py_str event p)))
  = calls_to "dynamodb" (calls p)
  /\ (clients_available w ->
      fst (Dynamo.lambda_handler w py_str event p) = Ok Dynamo.id_required).
Proof.
  intros Hping Hbody Haction Hkind Hid.
  rewrite (dynamo_handler_steps w py_str event body p Hping Hbody). rewrite Haction.
  unfold try_except, Dynamo.run_action.
  cbv beta iota zeta delta [bind boto3_client perform].
  set (p1 := record _ p).
  assert (Hrun : forall q,
             (if eq_str (VStr action) "put_get" then Dynamo.put_get w py_str (VDict body)
              else if eq_str (VStr action) "get" then Dynamo.get w (VDict body)
              else if eq_str (VStr action) "put" then Dynamo.put w (VDict body)
              else if eq_str (VStr action) "update" then Dynamo.update w (VDict body)
              else if eq_str (VStr action) "delete" then Dynamo.delete w (VDict body)
              else ret (Dynamo.unknown_action py_str (VStr action))) q
             = (Ok Dynamo.id_required, q)).
  { intros q. destruct (dynamo_guard_stops w body q Hid) as [Hg [Hu Hd]].
    cbn [In] in Hkind.
    destruct Hkind as [<-|[<-|[<-|[]]]]; cbn [eq_str]; assumption. }
  destruct (reply w (calls p1) (Call "boto3" "client" (VStr "dynamodb"))) as [c|e] eqn:E.
  - rewrite Hrun. split; [|reflexivity].
    cbn [snd]. subst p1. unfold record. cbn [calls].
    rewrite !calls_to_app. cbn. rewrite !app_nil_r. reflexivity.
  - split.
    + rewrite dynamo_failure_calls. subst p1. unfold record. cbn [calls].
      rewrite !calls_to_app. cbn. rewrite !app_nil_r. reflexivity.
    + intros Hw. destruct (Hw (calls p1) "dynamodb") as [c Hc]. congruence.
Qed.

Lemma dynamo_falsy_id_rejected_witness :
  fst (Dynamo.lambda_handler Examples.quiet Examples.str_simple
         (VDict [("action", VStr "get"); ("id", VStr "")]) Examples.fresh)
  = Ok Dynamo.id_required.
Proof.
  apply (dynamo_falsy_id_rejected Examples.quiet Examples.str_simple
           (VDict [("action", VStr "get"); ("id", VStr "")])
           [("action", VStr "get"); ("id", VStr "")] "get" Examples.fresh
           eq_refl eq_refl eq_refl).
  - left. reflexivity.
  - reflexivity.
  - exact quiet_clients_available.
Defined.






Lemma status_of_response (code : Z) (body headers : option value) :
  field "statusCode" (Utils.create_response (Some (VInt code)) body headers)
  = Some (VInt code).
Proof. reflexivity. Qed.

Lemma status_of_default_response (body headers : option value) :
  field "statusCode" (Utils.create_response None body headers) = Some (VInt 200).
Proof. reflexivity. Qed.




(** ** The connectivity dispatcher *)

Lemma connectivity_handler_steps (w : world) (py_str : value -> string)
      (event : value) (body : list (string * value)) (p : process) :
  truthy (Utils.handle_ping event) = false ->
  Utils.parse_event_body event = VDict body ->
  Connectivity.lambda_handler w py_str event p
  = let action := match lookup "action" body with Some x => x | None => VStr "echo" end in
    match Connectivity.select w py_str action (VDict body) with
    | Some handler => try_except handler (Connectivity.on_error action)
    | None =>
        ret (Utils.create_response None
               (Some (VDict [("success", VBool true); ("action", action)])) None)
    end (record (Call "logger" "info"
                   (VStr ("Processing action: " ++ py_str action))) p).
Proof.
  intros Hping Hbody. unfold Connectivity.lambda_handler. rewrite Hping, Hbody.
  reflexivity.
Qed.

Lemma connectivity_select_none (w : world) (py_str : value -> string)
      (action body : value) :
  action_among connectivity_actions action = false ->
  Connectivity.select w py_str action body = None.
Proof.
  unfold action_among, connectivity_actions. cbn [existsb]. intros H.
  repeat (apply orb_false_iff in H as [? H]).
  unfold Connectivity.select.
  repeat match goal with E : eq_str action _ = false |- _ => rewrite E; clear E end.
  reflexivity.
Qed.

(** X6: an action name the connectivity dispatcher does not know is
    acknowledged: the answer is the statusCode 200 response
    [{success: true, action}], and nothing but the log line is recorded; no
    collaborator is called. *)
Theorem connectivity_unknown_action
        (w : world) (py_str : value -> string)
        (event : value) (body : list (string * value)) (p : process) :
  let action := match lookup "action" body with Some x => x | None => VStr "echo" end in
  truthy (Utils.handle_ping event) = false ->
  Utils.parse_event_body event = VDict body ->
  action_among connectivity_actions action = false ->
  Connectivity.lambda_handler w py_str event p
  = (Ok (Utils.create_response None
           (Some (VDict [("success", VBool true); ("action", action)])) None),
     record (Call "logger" "info" (VStr ("Processing action: " ++ py_str action))) p)
  /\ field "statusCode"
       (Utils.create_response None
          (Some (VDict [("success", VBool true); ("action", action)])) None)
     = Some (VInt 200).
Proof.
  intros action Hping Hbody Hunknown. split; [|reflexivity].
  rewrite (connectivity_handler_steps w py_str event body p Hping Hbody).
  fold action. cbv zeta.
  rewrite (connectivity_select_none w py_str action (VDict body) Hunknown).
  reflexivity.
Qed.

Lemma connectivity_unknown_action_witness :
  Connectivity.lambda_handler Examples.services_down Examples.str_simple
    (VDict [("action", VStr "bogus")]) Examples.fresh
  = (Ok (Utils.create_response None
           (Some (VDict [("success", VBool true); ("action", VStr "bogus")])) None),
     record (Call "logger" "info" (VStr "Processing action: bogus")) Examples.fresh).
Proof.
  apply (connectivity_unknown_action Examples.services_down Examples.str_simple
           (VDict [("action", VStr "bogus")]) [("action", VStr "bogus")]
           Examples.fresh eq_refl eq_refl eq_refl).
Defined.

Lemma ensures_swallow (m : M value) (k : unit -> M value) (Q : value -> Prop) :
  (forall u, ensures (k u) Q) -> ensures (bind (swallow m) k) Q.
Proof. intros H. apply ensures_bind. exact H. Qed.




(** X8: [s3_put] does not depend on the bucket being new: with the client
    constructed and [put_object] answering, the handler calls
    [create_bucket] and then [put_object] and answers the success
    response, whether [create_bucket] returns or raises. *)
Theorem s3_put_survives_existing_bucket
        (w : world) (py_str : value -> string)
        (body : list (string * value)) (p : process) :
  clients_available w ->
  op_returns w "s3" "put_object" ->
  let bucket :=
    match lookup "bucket" body with
    | Some b => b
    | None => VStr (match env_get "E2E_BUCKET" (environ p) with
                    | Some b => b
                    | None => Connectivity.DEFAULT_BUCKET
                    end)
    end in
  let key := match lookup "key" body with
             | Some k => k
             | None => VStr "python-connectivity.txt"
             end in
  let content := match lookup "content" body with Some c => c | None => VStr "ok" end in
  fst (Connectivity.handle_s3_put w py_str (VDict body) p)
  = Ok (Utils.create_response None
          (Some (VDict [("success", VBool true); ("action", VStr "s3_put")])) None)
  /\ calls_to "s3" (calls (snd (Connectivity.handle_s3_put w py_str (VDict body) p)))
     = calls_to "s3" (calls p)
       ++ [Call "s3" "create_bucket" (VDict [("Bucket", bucket)]);
           Call "s3" "put_object"
             (VDict [("Bucket", bucket); ("Key", key);
                     ("Body", VStr (py_str content))])].
Proof.
  intros Hw Hput bucket key content.
  unfold Connectivity.handle_s3_put, swallow.
  cbv beta iota zeta delta [bind lift py_get environ_get boto3_client client_call
                            perform try_except ret].
  fold bucket. fold key. fold content.
  destruct (Hw (calls p) "s3") as [c Hc]. rewrite Hc.
  match goal with
  | |- context [reply w ?tr (Call "s3" "create_bucket" ?a)] =>
      destruct (reply w tr (Call "s3" "create_bucket" a)) as [r|e]
  end;
    match goal with
    | |- context [reply w ?tr (Call "s3" "put_object" (VDict ?kw))] =>
        destruct (Hput tr kw) as [r' Hr]; rewrite Hr
    end;
    (split; [reflexivity | trace_calls; reflexivity]).
Qed.

(** A world whose storage of buckets refuses to create one that exists. *)
Lemma s3_put_survives_existing_bucket_witness :
  fst (Connectivity.handle_s3_put
         (World (fun _ c =>
                   if (method c =? "create_bucket")%string
                   then Raise (Exn "BucketAlreadyOwnedByYou" "bucket exists")
                   else Ok VNone)
                (fun _ => "") (fun _ => 0))
         Examples.str_simple (VDict [("content", VInt 7)]) Examples.fresh)
  = Ok (Utils.create_response None
          (Some (VDict [("success", VBool true); ("action", VStr "s3_put")])) None).
Proof.
  apply (s3_put_survives_existing_bucket
           (World (fun _ c =>
                     if (method c =? "create_bucket")%string
                     then Raise (Exn "BucketAlreadyOwnedByYou" "bucket exists")
                     else Ok VNone)
                  (fun _ => "") (fun _ => 0))
           Examples.str_simple [("content", VInt 7)] Examples.fresh).
  - intros tr service. exists VNone. reflexivity.
  - intros tr kwargs. exists VNone. reflexivity.
Defined.

(** X9: the cloudwatch action never lets a failure out: it answers on
    every process state.  With the client constructed and
    [put_log_events] answering it answers the success response with the
    log group [/lambda/hello-test], whether the log group and the log
    stream could be created or not. *)
Theorem cloudwatch_never_raises (w : world) :
  never_raises (Connectivity.handle_cloudwatch w)
  /\ (clients_available w ->
      op_returns w "logs" "put_log_events" ->
      forall p, exists log_stream,
        fst (Connectivity.handle_cloudwatch w p)
        = Ok (Utils.create_response None
                (Some (VDict [("success", VBool true);
                              ("action", VStr "test_cloudwatch");
                              ("log_stream", VStr log_stream);
                              ("log_group", VStr "/lambda/hello-test")])) None)).
Proof.
  split.
  - unfold Connectivity.handle_cloudwatch. apply never_raises_try.
    intros e. apply never_raises_ret.
  - intros Hw Hput p.
    unfold Connectivity.handle_cloudwatch, swallow.
    cbv beta iota zeta delta [bind lift boto3_client client_call time_ms
                              perform try_except ret].
    destruct (Hw (calls p) "logs") as [c Hc]. rewrite Hc.
    match goal with
    | |- context [reply w ?tr (Call "logs" "create_log_group" ?a)] =>
        destruct (reply w tr (Call "logs" "create_log_group" a)) as [r1|e1]
    end;
      match goal with
      | |- context [reply w ?tr (Call "logs" "create_log_stream" ?a)] =>
          destruct (reply w tr (Call "logs" "create_log_stream" a)) as [r2|e2]
      end;
      match goal with
      | |- context [reply w ?tr (Call "logs" "put_log_events" (VDict ?kw))] =>
          destruct (Hput tr kw) as [r' Hr]; rewrite Hr
      end;
      eexists; reflexivity.
Qed.

Lemma cloudwatch_never_raises_witness :
  exists log_stream,
    fst (Connectivity.handle_cloudwatch Examples.quiet Examples.fresh)
    = Ok (Utils.create_response None
            (Some (VDict [("success", VBool true);
                          ("action", VStr "test_cloudwatch");
                          ("log_stream", VStr log_stream);
                          ("log_group", VStr "/lambda/hello-test")])) None).
Proof.
  apply (proj2 (cloudwatch_never_raises Examples.quiet)).
  - exact quiet_clients_available.
  - intros tr kwargs. exists (VDict []). reflexivity.
Defined.

(** ** The integration handler and the trace bridge *)

Lemma invoked_types_snoc (l : list call) (c : call) :
  invoked_types (l ++ [c])
  = invoked_types l
    ++ (if (target c =? "lambda")%string && (method c =? "invoke")%string
        then [field "InvocationType" (args c)] else []).
Proof.
  unfold invoked_types. rewrite filter_app, map_app. cbn [filter].
  destruct ((target c =? "lambda")%string && (method c =? "invoke")%string);
    reflexivity.
Qed.

Ltac trace_types :=
  unfold record; cbn [calls snd fst];
  repeat rewrite invoked_types_snoc;
  cbn [target method args String.eqb Ascii.eqb Bool.eqb andb field lookup];
  repeat rewrite app_nil_r; repeat rewrite <- app_assoc; cbn [app].

Lemma integration_handler_without_target
      (w : world) (py_str : value -> string) (decode_message : string -> string)
      (event : value) (body : list (string * value)) (p : process) :
  truthy (Utils.handle_ping event) = false ->
  Utils.parse_event_body event = VDict body ->
  truthy (match lookup "next_target" body with Some x => x | None => VNone end) = false ->
  Integration.lambda_handler w py_str decode_message event p
  = (Ok (integration_response (trace_id_in p) VNone),
     record (Call "logger" "info"
               (VStr ("Trace ID in environment: " ++ trace_id_in p))) p).
Proof.
  intros Hping Hbody Htarget. unfold Integration.lambda_handler.
  rewrite Hping, Hbody.
  cbv beta iota zeta delta [bind lift py_get environ_get log emit ret].
  rewrite Htarget. reflexivity.
Qed.

(** X10: without a next target (absent, null or empty) the integration
    handler invokes nothing: it records its log line only and answers
    success with a null child and the trace identifier found in the
    environment, or "not-found", and the trace of calls to the invoked
    functions is the one it started with. *)
Theorem integration_without_target
        (w : world) (py_str : value -> string) (decode_message : string -> string)
        (event : value) (body : list (string * value)) (p : process) :
  truthy (Utils.handle_ping event) = false ->
  Utils.parse_event_body event = VDict body ->
  truthy (match lookup "next_target" body with Some x => x | None => VNone end) = false ->
  Integration.lambda_handler w py_str decode_message event p
  = (Ok (integration_response (trace_id_in p) VNone),
     record (Call "logger" "info"
               (VStr ("Trace ID in environment: " ++ trace_id_in p))) p)
  /\ invoked_targets
       (calls (snd (Integration.lambda_handler w py_str decode_message event p)))
     = invoked_targets (calls p).
Proof.
  intros Hping Hbody Htarget.
  rewrite (integration_handler_without_target w py_str decode_message event body p
             Hping Hbody Htarget).
  split; [reflexivity|].
  unfold record. cbn [snd calls]. rewrite invoked_targets_app.
  cbn. apply app_nil_r.
Qed.

Lemma integration_without_target_witness :
  Integration.lambda_handler Examples.services_down Examples.str_simple
    Examples.no_message (VDict [("next_target", VStr "")]) Examples.fresh
  = (Ok (integration_response "not-found" VNone),
     record (Call "logger" "info" (VStr "Trace ID in environment: not-found"))
            Examples.fresh).
Proof.
  apply (proj1 (integration_without_target Examples.services_down
                  Examples.str_simple Examples.no_message
                  (VDict [("next_target", VStr "")])
                  [("next_target", VStr "")] Examples.fresh
                  eq_refl eq_refl eq_refl)).
Defined.

(** X11: in fire-and-forget mode the integration handler never reads the
    payload of the callee: with a true [async] flag it invokes with the
    type [Event] and its child is
    [{status: "async-started", status_code}], taken from the
    acknowledgment alone, whatever the payload is; an acknowledgment
    without [StatusCode] makes it raise [KeyError]. *)
Theorem integration_fire_and_forget
        (w : world) (py_str : value -> string) (decode_message : string -> string)
        (event : value) (body ack : list (string * value)) (target : value)
        (p : process) :
  truthy (Utils.handle_ping event) = false ->
  Utils.parse_event_body event = VDict body ->
  lookup "next_target" body = Some target ->
  truthy target = true ->
  truthy (match lookup "async" body with Some x => x | None => VBool false end) = true ->
  clients_available w ->
  callee_returns w (VDict ack) ->
  invoked_types (calls (snd (Integration.lambda_handler w py_str decode_message event p)))
  = invoked_types (calls p) ++ [Some (VStr "Event")]
  /\ fst (Integration.lambda_handler w py_str decode_message event p)
     = match lookup "StatusCode" ack with
       | Some status_code =>
           Ok (integration_response (trace_id_in p)
                 (VDict [("status", VStr "async-started");
                         ("status_code", status_code)]))
       | None => Raise (Exn "KeyError" "'StatusCode'")
       end.
Proof.
  intros Hping Hbody Htarget Htruthy Hasync Hw Hcallee.
  unfold Integration.lambda_handler. rewrite Hping, Hbody.
  cbv beta iota zeta delta [bind lift py_get environ_get log emit].
  rewrite Htarget, Htruthy. unfold Integration.chain.
  cbv beta iota zeta delta [bind lift boto3_client client_call perform log emit].
  match goal with
  | |- context [reply w ?tr (Call "boto3" "client" ?s)] =>
      destruct (Hw tr "lambda") as [c Hc]; rewrite Hc
  end.
  rewrite Hasync, Hcallee. cbn [negb py_getitem].
  destruct (lookup "StatusCode" ack) as [status_code|];
    cbv beta iota zeta delta [bind lift ret raise fst snd];
    (split; [trace_types; reflexivity | reflexivity]).
Qed.

Lemma integration_fire_and_forget_witness :
  fst (Integration.lambda_handler (Examples.callee_answers "plain")
         Examples.str_simple Examples.no_message
         (VDict [("next_target", VStr "lambda-echo"); ("async", VBool true)])
         Examples.fresh)
  = Ok (integration_response "not-found"
          (VDict [("status", VStr "async-started"); ("status_code", VInt 200)])).
Proof.
  apply (integration_fire_and_forget (Examples.callee_answers "plain")
           Examples.str_simple Examples.no_message
           (VDict [("next_target", VStr "lambda-echo"); ("async", VBool true)])
           [("next_target", VStr "lambda-echo"); ("async", VBool true)]
           [("StatusCode", VInt 200); ("Payload", VStr "plain")]
           (VStr "lambda-echo") Examples.fresh
           eq_refl eq_refl eq_refl eq_refl eq_refl
           (callee_answers_available _) (callee_answers_returns _)).
Defined.



(** ** The image handler *)

Lemma lookup_dict_set (d : list (string * value)) (k k' : string) (v : value) :
  lookup k (dict_set d k' v) = if (k' =? k)%string then Some v else lookup k d.
Proof.
  induction d as [|[k0 v0] r IH]; cbn [dict_set lookup].
  - destruct (k' =? k)%string; reflexivity.
  - destruct (String.eqb_spec k0 k') as [E0|E0]; cbn [lookup].
    + subst k0. destruct (k' =? k)%string; reflexivity.
    + destruct (String.eqb_spec k0 k) as [E1|E1]; [|exact IH].
      subst k0. destruct (String.eqb_spec k' k) as [E2|E2]; [|reflexivity].
      subst k'. contradiction.
Qed.



Lemma has_key_lookup (k : string) (d : list (string * value)) :
  has_key k d = match lookup k d with Some _ => true | None => false end.
Proof. reflexivity. Qed.

Lemma copy_strings_cons (ev : list (string * value)) (key : string)
      (rest : list string) (payload : list (string * value)) :
  Image.copy_strings ev (key :: rest) payload
  = Image.copy_strings ev rest
      (if has_key key payload then payload
       else match Image.get_or_none ev key with
            | VStr s => dict_set payload key (VStr s)
            | _ => payload
            end).
Proof. reflexivity. Qed.

Lemma copy_strings_lookup (ev : list (string * value)) (keys : list string) :
  forall (payload : list (string * value)) (k : string),
    lookup k (Image.copy_strings ev keys payload)
    = match lookup k payload with
      | Some v => Some v
      | None =>
          if existsb (String.eqb k) keys then
            match lookup k ev with
            | Some (VStr s) => Some (VStr s)
            | _ => None
            end
          else None
      end.
Proof.
  induction keys as [|key rest IH]; intros payload k.
  - cbn. destruct (lookup k payload); reflexivity.
  - rewrite copy_strings_cons. cbn [existsb].
    rewrite has_key_lookup. unfold Image.get_or_none.
    destruct (String.eqb_spec k key) as [E|E].
    + subst key. cbn [orb].
      destruct (lookup k payload) as [v|] eqn:Hp.
      * rewrite IH, Hp. reflexivity.
      * destruct (lookup k ev) as [[| | | |s| |]|] eqn:He;
          rewrite IH; try rewrite lookup_dict_set; try rewrite String.eqb_refl;
          try rewrite Hp; try rewrite He; try reflexivity;
          destruct (existsb (String.eqb k) rest); reflexivity.
    + cbn [orb].
      assert (Hstep : forall v,
                 lookup k (dict_set payload key v) = lookup k payload).
      { intros v. rewrite lookup_dict_set.
        destruct (String.eqb_spec key k) as [E'|E']; [|reflexivity].
        subst. contradiction. }
      destruct (lookup key payload) as [v|]; [apply IH|].
      destruct (lookup key ev) as [[| | | |s| |]|];
        rewrite IH; try rewrite Hstep; reflexivity.
Qed.

Lemma image_body_payload (ev : list (string * value)) :
  JsonText.unique_keys (map fst (image_body ev)) = true ->
  match Image.get_or_none ev "body" with
  | VStr s =>
      match (match Json.loads s with Some v => v | None => VDict [] end) with
      | VDict d => dict_update [] d
      | _ => []
      end
  | VDict d => dict_update [] d
  | _ => []
  end = image_body ev.
Proof.
  unfold image_body, Image.get_or_none.
  destruct (lookup "body" ev) as [[| | | |s| |d]|]; try reflexivity.
  - destruct (Json.loads s) as [[| | | | | |d]|]; try reflexivity.
    intros H. exact (JsonFacts.dict_update_unique [] d H).
  - intros H. exact (JsonFacts.dict_update_unique [] d H).
Qed.

(** X14: what the image handler takes from an event whose body mapping
    has distinct keys: under every key the payload holds the value of the
    body; failing that, the top-level value of [action], [message],
    [target], [bucket], [key], [content] or [marker] when it is a string, or
    of [async] when it is a boolean; and nothing else. *)
Theorem image_payload_precedence (ev : list (string * value)) (k : string) :
  JsonText.unique_keys (map fst (image_body ev)) = true ->
  lookup k (Image._parse_payload (VDict ev)) = image_payload_value ev k.
Proof.
  intros Hu. unfold Image._parse_payload. cbv zeta.
  rewrite (image_body_payload ev Hu).
  fold image_top_level. unfold image_payload_value.
  set (copied := Image.copy_strings ev image_top_level (image_body ev)).
  assert (Hc : forall k', lookup k' copied
                          = match lookup k' (image_body ev) with
                            | Some v => Some v
                            | None =>
                                if existsb (String.eqb k') image_top_level then
                                  match lookup k' ev with
                                  | Some (VStr s) => Some (VStr s)
                                  | _ => None
                                  end
                                else None
                            end).
  { intros k'. apply copy_strings_lookup. }
  rewrite has_key_lookup. unfold Image.get_or_none.
  destruct (String.eqb_spec k "async") as [E|E].
  - subst k. change (existsb (String.eqb "async") image_top_level) with false.
    pose proof (Hc "async") as Ha.
    change (existsb (String.eqb "async") image_top_level) with false in Ha.
    destruct (lookup "async" (image_body ev)) as [v|] eqn:Hb.
    + rewrite Ha. cbn [negb]. exact Ha.
    + rewrite Ha. cbn [negb].
      destruct (lookup "async" ev) as [[|b| | | | |]|];
        try rewrite lookup_dict_set; try exact Ha. reflexivity.
  - assert (Hk : forall payload v,
               lookup k (dict_set payload "async" v) = lookup k payload).
    { intros payload v. rewrite lookup_dict_set.
      destruct (String.eqb_spec "async" k) as [E'|E']; [|reflexivity].
      subst. contradiction. }
    destruct (lookup "async" copied); cbn [negb];
      [|destruct (lookup "async" ev) as [[|b| | | | |]|]];
      try rewrite Hk; rewrite Hc;
      destruct (lookup k (image_body ev));
      destruct (existsb (String.eqb k) image_top_level); reflexivity.
Qed.

Lemma image_payload_precedence_witness :
  lookup "message"
    (Image._parse_payload
       (VDict [("message", VStr "top"); ("action", VStr "echo");
               ("body", VDict [("message", VStr "inner")])]))
  = Some (VStr "inner").
Proof.
  apply (image_payload_precedence
           [("message", VStr "top"); ("action", VStr "echo");
            ("body", VDict [("message", VStr "inner")])] "message").
  reflexivity.
Defined.

(** X15: the image handler invokes without waiting only when [async] is
    exactly [True]: then the invocation type is [Event], the payload of the
    acknowledgment is never read, and the result has the target, the type
    and the status code and no [child]; with any other value of [async],
    true in a test or not, the invocation type is [RequestResponse]. *)
Theorem image_fire_and_forget
        (w : world) (payload ack : list (string * value)) (p : process) :
  clients_available w ->
  callee_returns w (VDict ack) ->
  (lookup "async" payload = Some (VBool true) ->
   fst (Image._invoke_lambda w payload p)
   = Ok [("target",
          VStr (Image.str_or
                  (match lookup "target" payload with
                   | Some x => x
                   | None => VStr Image.DEFAULT_TARGET
                   end) Image.DEFAULT_TARGET));
         ("invocation_type", VStr "Event");
         ("status_code",
          match lookup "StatusCode" ack with Some x => x | None => VNone end)]
   /\ invoked_types (calls (snd (Image._invoke_lambda w payload p)))
      = invoked_types (calls p) ++ [Some (VStr "Event")])
  /\ (lookup "async" payload <> Some (VBool true) ->
      invoked_types (calls (snd (Image._invoke_lambda w payload p)))
      = invoked_types (calls p) ++ [Some (VStr "RequestResponse")]).
Proof.
  intros Hw Hcallee.
  assert (Hrun : forall invoke_type,
             (match Image.get_or_none payload "async" with
              | VBool true => "Event"
              | _ => "RequestResponse"
              end) = invoke_type ->
             invoked_types (calls (snd (Image._invoke_lambda w payload p)))
             = invoked_types (calls p) ++ [Some (VStr invoke_type)]
             /\ (invoke_type = "Event" ->
                 fst (Image._invoke_lambda w payload p)
                 = Ok [("target",
                        VStr (Image.str_or
                                (match lookup "target" payload with
                                 | Some x => x
                                 | None => VStr Image.DEFAULT_TARGET
                                 end) Image.DEFAULT_TARGET));
                       ("invocation_type", VStr "Event");
                       ("status_code",
                        match lookup "StatusCode" ack with
                        | Some x => x
                        | None => VNone
                        end)])).
  { intros invoke_type Ht. unfold Image._invoke_lambda. rewrite Ht.
    cbv beta iota zeta delta [bind lift boto3_client client_call perform py_get].
    match goal with
    | |- context [reply w ?tr (Call "boto3" "client" ?s)] =>
        destruct (Hw tr "lambda") as [c Hc]; rewrite Hc
    end.
    rewrite Hcallee. split.
    - destruct (invoke_type =? "RequestResponse")%string.
      + destruct (read_stream (VDict ack) "Payload") as [raw|e];
          [destruct (Json.loads raw)|];
          cbv beta iota zeta delta [ret]; trace_types; reflexivity.
      + cbv beta iota zeta delta [ret]. trace_types. reflexivity.
    - intros ->. reflexivity. }
  split.
  - intros Ha.
    assert (Ht : (match Image.get_or_none payload "async" with
                  | VBool true => "Event"
                  | _ => "RequestResponse"
                  end) = "Event").
    { unfold Image.get_or_none. rewrite Ha. reflexivity. }
    destruct (Hrun "Event" Ht) as [H1 H2]. split; [exact (H2 eq_refl) | exact H1].
  - intros Ha.
    assert (Ht : (match Image.get_or_none payload "async" with
                  | VBool true => "Event"
                  | _ => "RequestResponse"
                  end) = "RequestResponse").
    { unfold Image.get_or_none.
      destruct (lookup "async" payload) as [[|[|]| | | | |]|]; try reflexivity.
      contradiction Ha. reflexivity. }
    exact (proj1 (Hrun "RequestResponse" Ht)).
Qed.

Lemma image_fire_and_forget_witness :
  fst (Image._invoke_lambda (Examples.callee_answers "plain")
         [("async", VBool true)] Examples.fresh)
  = Ok [("target", VStr "lambda-echo"); ("invocation_type", VStr "Event");
        ("status_code", VInt 200)].
Proof.
  apply (proj1 (image_fire_and_forget (Examples.callee_answers "plain")
                  [("async", VBool true)]
                  [("StatusCode", VInt 200); ("Payload", VStr "plain")]
                  Examples.fresh
                  (callee_answers_available _) (callee_answers_returns _))
           eq_refl).
Defined.

Lemma str_or_not_empty (x : value) (dflt : string) :
  dflt <> "" -> Image.str_or x dflt <> "".
Proof.
  intros Hd. unfold Image.str_or.
  destruct x as [| | | |s| |]; try exact Hd.
  destruct (String.eqb_spec s "") as [E|E]; cbn [negb]; assumption.
Qed.

(** X16: an action other than [chain_invoke], [s3_roundtrip] and
    [test_cloudwatch] makes the image handler echo: it answers with the
    message of the payload, which is never empty ([hello-image] by default),
    calls no collaborator and leaves the process as it was; an event that is
    not a mapping is served so, as the action [echo]. *)
Theorem image_default_action (w : world) (py_str : value -> string)
        (event : value) (p : process) :
  existsb (String.eqb (Image.action_of (Image._parse_payload event))) image_actions
  = false ->
  Image.lambda_handler w py_str event p
  = (Ok (VDict [("success", VBool true);
                ("action", VStr (Image.action_of (Image._parse_payload event)));
                ("handler", VStr "esb-e2e-lambda-python");
                ("message",
                 VStr (Image._extract_message (Image._parse_payload event)))]),
     p)
  /\ Image._extract_message (Image._parse_payload event) <> ""
  /\ (is_dict event = false ->
      Image.action_of (Image._parse_payload event) = "echo"
      /\ Image._extract_message (Image._parse_payload event) = "hello-image").
Proof.
  intros Ha. split; [|split].
  - unfold Image.lambda_handler, Image.run_action. cbv zeta.
    unfold image_actions in Ha. cbn [existsb] in Ha.
    apply orb_false_iff in Ha as [H1 Ha].
    apply orb_false_iff in Ha as [H2 Ha].
    apply orb_false_iff in Ha as [H3 _].
    rewrite H1, H2, H3. reflexivity.
  - unfold Image._extract_message.
    destruct (Image.get_or_none (Image._parse_payload event) "message")
      as [| | | |s| |]; try discriminate.
    destruct (String.eqb_spec s "") as [E|E]; cbn [negb];
      [discriminate | exact E].
  - intros Hd. destruct event; try discriminate Hd; split; reflexivity.
Qed.

Lemma image_default_action_witness :
  Image.lambda_handler Examples.services_down Examples.str_simple
    (VStr "not a mapping") Examples.fresh
  = (Ok (VDict [("success", VBool true); ("action", VStr "echo");
                ("handler", VStr "esb-e2e-lambda-python");
                ("message", VStr "hello-image")]),
     Examples.fresh).
Proof.
  apply (proj1 (image_default_action Examples.services_down Examples.str_simple
                  (VStr "not a mapping") Examples.fresh eq_refl)).
Defined.

(** X17: the round trip of the image handler reads back the object it
    wrote: with the client constructed, [put_object] answering and the
    store returning [content], it calls [create_bucket], [put_object] and
    [get_object] in that order, the last two with the same bucket and key,
    neither of them empty, whether [create_bucket] returns or raises; the
    content it reports is the one read back. *)
Theorem image_s3_same_object
        (w : world) (py_str : value -> string)
        (payload : list (string * value)) (content : string) (p : process) :
  clients_available w ->
  op_returns w "s3" "put_object" ->
  object_reads w content ->
  exists bucket key body,
    bucket <> "" /\ key <> ""
    /\ calls_to "s3" (calls (snd (Image._s3_roundtrip w py_str payload p)))
       = calls_to "s3" (calls p)
         ++ [Call "s3" "create_bucket" (VDict [("Bucket", VStr bucket)]);
             Call "s3" "put_object"
               (VDict [("Bucket", VStr bucket); ("Key", VStr key);
                       ("Body", VStr body)]);
             Call "s3" "get_object"
               (VDict [("Bucket", VStr bucket); ("Key", VStr key)])]
    /\ fst (Image._s3_roundtrip w py_str payload p)
       = Ok [("bucket", VStr bucket); ("key", VStr key);
             ("content", VStr content)].
Proof.
  intros Hw Hput Hget.
  unfold Image._s3_roundtrip. cbv zeta.
  set (bucket := Image.str_or _ Image.DEFAULT_BUCKET).
  set (body := match (match lookup "content" payload with
                      | Some x => x
                      | None => VStr "from-image-s3"
                      end) with
               | VStr s => s
               | other => py_str other
               end).
  assert (Hbucket : bucket <> "").
  { apply str_or_not_empty. discriminate. }
  assert (Hrun : forall (key : string) (q : process),
             key <> "" ->
             calls_to "s3" (calls q) = calls_to "s3" (calls p) ->
             let rest :=
               bind (boto3_client w "s3")
                 (fun _ =>
                    bind (swallow (client_call w "s3" "create_bucket"
                                     [("Bucket", VStr bucket)]))
                      (fun _ =>
                         bind (client_call w "s3" "put_object"
                                 [("Bucket", VStr bucket); ("Key", VStr key);
                                  ("Body", VStr body)])
                           (fun _ =>
                              bind (client_call w "s3" "get_object"
                                      [("Bucket", VStr bucket); ("Key", VStr key)])
                                (fun response =>
                                   bind (lift (read_stream response "Body"))
                                     (fun fetched =>
                                        ret [("bucket", VStr bucket);
                                             ("key", VStr key);
                                             ("content", VStr fetched)]))))) in
             calls_to "s3" (calls (snd (rest q)))
             = calls_to "s3" (calls p)
               ++ [Call "s3" "create_bucket" (VDict [("Bucket", VStr bucket)]);
                   Call "s3" "put_object"
                     (VDict [("Bucket", VStr bucket); ("Key", VStr key);
                             ("Body", VStr body)]);
                   Call "s3" "get_object"
                     (VDict [("Bucket", VStr bucket); ("Key", VStr key)])]
             /\ fst (rest q)
                = Ok [("bucket", VStr bucket); ("key", VStr key);
                      ("content", VStr content)]).
  { intros key q Hkey Hq rest. subst rest. unfold swallow.
    cbv beta iota zeta delta [bind lift boto3_client client_call perform
                              try_except ret].
    destruct (Hw (calls q) "s3") as [c Hc]. rewrite Hc.
    match goal with
    | |- context [reply w ?tr (Call "s3" "create_bucket" ?a)] =>
        destruct (reply w tr (Call "s3" "create_bucket" a)) as [r|e]
    end;
      match goal with
      | |- context [reply w ?tr (Call "s3" "put_object" (VDict ?kw))] =>
          destruct (Hput tr kw) as [r' Hr]; rewrite Hr
      end;
      rewrite Hget;
      change (read_stream (VDict [("Body", VStr content)]) "Body")
        with (@Ok string content);
      (split; [trace_calls; rewrite Hq; reflexivity | reflexivity]). }
  assert (Hfresh : forall q : process,
             calls_to "s3" (calls (record (Call "uuid" "uuid4" VNone) q))
             = calls_to "s3" (calls q)).
  { intros q. trace_calls. reflexivity. }
  set (generated :=
         ("image-"
          ++ String.substring 0 8 (Image.drop_dashes (uuid4 w (calls p)))
          ++ ".txt")%string).
  assert (Hgen : generated <> "") by discriminate.
  unfold Image.get_or_none.
  destruct (lookup "key" payload) as [[| | | |s| |]|];
    try (exists bucket, generated, body;
         split; [exact Hbucket|]; split; [exact Hgen|];
         exact (Hrun generated (record (Call "uuid" "uuid4" VNone) p)
                  Hgen (Hfresh p))).
  destruct (String.eqb_spec s "") as [E|E]; cbn [negb].
  - exists bucket, generated, body.
    split; [exact Hbucket|]. split; [exact Hgen|].
    exact (Hrun generated (record (Call "uuid" "uuid4" VNone) p) Hgen (Hfresh p)).
  - exists bucket, s, body.
    split; [exact Hbucket|]. split; [exact E|].
    exact (Hrun s p E eq_refl).
Qed.

Lemma image_s3_same_object_witness :
  exists bucket key body,
    bucket <> "" /\ key <> ""
    /\ calls_to "s3"
         (calls (snd (Image._s3_roundtrip
                        (World (fun _ c =>
                                  if (method c =? "create_bucket")%string
                                  then Raise (Exn "BucketAlreadyOwnedByYou" "bucket exists")
                                  else Ok (VDict [("Body", VStr "stored")]))
                               (fun _ => "1b4e28ba-2fa1-41d2-883f-0016d3cca427")
                               (fun _ => 0))
                        Examples.str_simple [("content", VInt 7)] Examples.fresh)))
       = calls_to "s3" (calls Examples.fresh)
         ++ [Call "s3" "create_bucket" (VDict [("Bucket", VStr bucket)]);
             Call "s3" "put_object"
               (VDict [("Bucket", VStr bucket); ("Key", VStr key);
                       ("Body", VStr body)]);
             Call "s3" "get_object"
               (VDict [("Bucket", VStr bucket); ("Key", VStr key)])]
    /\ fst (Image._s3_roundtrip
              (World (fun _ c =>
                        if (method c =? "create_bucket")%string
                        then Raise (Exn "BucketAlreadyOwnedByYou" "bucket exists")
                        else Ok (VDict [("Body", VStr "stored")]))
                     (fun _ => "1b4e28ba-2fa1-41d2-883f-0016d3cca427")
                     (fun _ => 0))
              Examples.str_simple [("content", VInt 7)] Examples.fresh)
       = Ok [("bucket", VStr bucket); ("key", VStr key);
             ("content", VStr "stored")].
Proof.
  apply (image_s3_same_object
           (World (fun _ c =>
                     if (method c =? "create_bucket")%string
                     then Raise (Exn "BucketAlreadyOwnedByYou" "bucket exists")
                     else Ok (VDict [("Body", VStr "stored")]))
                  (fun _ => "1b4e28ba-2fa1-41d2-883f-0016d3cca427")
                  (fun _ => 0))
           Examples.str_simple [("content", VInt 7)] "stored" Examples.fresh).
  - intros tr service. eexists. reflexivity.
  - intros tr kwargs. eexists. reflexivity.
  - intros tr kwargs. reflexivity.
Defined.

(** ** The scaling handler *)



(** X19: the scaling handler reads its request from the body alone and
    forgives a body it cannot read: an event that is not a mapping, a
    mapping without [body] (whatever else it holds, a top-level [sleep_ms]
    included) and a mapping whose body is a text that is not JSON are all
    answered as a request to sleep zero, with no call and no exception. *)
Theorem scaling_empty_requests (w : world) (event : value) (p : process) :
  scaling_empty_request event ->
  Scaling.lambda_handler w event p = (Ok (scaling_response (VInt 0)), p).
Proof.
  intros H. unfold Scaling.lambda_handler.
  assert (Hb : match Scaling.read_body event with
               | Ok (Some b) => b
               | Ok None => VDict []
               | Raise _ => VDict []
               end = VDict []).
  { unfold Scaling.read_body.
    destruct event as [| | | |s|l|ev]; try reflexivity.
    - cbn [py_contains]. destruct (is_substring "body" s); reflexivity.
    - cbn [py_contains].
      destruct (existsb (fun x => eq_str x "body") l); reflexivity.
    - cbn [py_contains py_getitem]. unfold has_key.
      destruct H as [H|[s [H1 H2]]].
      + rewrite H. reflexivity.
      + rewrite H1, H2. reflexivity. }
  rewrite Hb. reflexivity.
Qed.

Lemma scaling_empty_requests_witness :
  Scaling.lambda_handler Examples.quiet (VDict [("sleep_ms", VInt 5000)])
    Examples.fresh
  = (Ok (scaling_response (VInt 0)), Examples.fresh).
Proof.
  apply (scaling_empty_requests Examples.quiet (VDict [("sleep_ms", VInt 5000)])
           Examples.fresh).
  left. reflexivity.
Defined.

(** X20: the scaling handler has no catch-all after its body is read: a
    body that is not a mapping makes it raise [AttributeError], and a
    [sleep_ms] that is not a number makes it raise [TypeError]; in both
    cases nothing is called and the process is left as it was. *)
Theorem scaling_errors_escape
        (w : world) (event body : value) (p : process) :
  Scaling.read_body event = Ok (Some body) ->
  (is_dict body = false ->
   Scaling.lambda_handler w event p = (Raise (attribute_error body "get"), p))
  /\ (forall d x,
         body = VDict d ->
         lookup "sleep_ms" d = Some x ->
         is_number x = false ->
         Scaling.lambda_handler w event p
         = (Raise (Exn "TypeError"
                     ("'>' not supported between instances of '"
                      ++ type_name x ++ "' and 'int'")), p)).
Proof.
  intros Hbody. unfold Scaling.lambda_handler. rewrite Hbody. split.
  - intros Hd. destruct body; try discriminate Hd; reflexivity.
  - intros d x -> Hx Hn.
    cbv beta iota zeta delta [bind lift py_get]. rewrite Hx.
    destruct x; try discriminate Hn; reflexivity.
Qed.

Lemma scaling_errors_escape_witness :
  Scaling.lambda_handler Examples.quiet
    (VDict [("body", VStr "[1, 2]")]) Examples.fresh
  = (Raise (attribute_error (VList [VInt 1; VInt 2]) "get"), Examples.fresh).
Proof.
  apply (proj1 (scaling_errors_escape Examples.quiet
                  (VDict [("body", VStr "[1, 2]")]) (VList [VInt 1; VInt 2])
                  Examples.fresh eq_refl) eq_refl).
Defined.

(** ** The trace bridge *)

Lemma env_get_set_other (env : list (string * string)) (k k' v : string) :
  k <> k' -> env_get k (env_set env k' v) = env_get k env.
Proof.
  intros Hk. induction env as [|[k0 v0] r IH]; cbn [env_set env_get].
  - destruct (String.eqb_spec k' k) as [E|E]; [subst; contradiction | reflexivity].
  - destruct (String.eqb_spec k0 k') as [E0|E0]; cbn [env_get].
    + subst k0.
      destruct (String.eqb_spec k' k) as [E|E]; [subst; contradiction | reflexivity].
    + destruct (k0 =? k)%string; [reflexivity | exact IH].
Qed.

(** X21: the bridge touches nothing but the trace variable: whatever the
    invocation metadata and whether it returns or raises, every other
    environment variable keeps its value and the trace of calls grows by at
    most one line of the logger; with metadata that carries no trace
    identifier it leaves the process as it was. *)
Theorem bridge_frame (context : TraceBridge.pyobj) (p : process) :
  (forall k,
      k <> TraceBridge.TRACE_VAR ->
      env_get k (environ (snd (TraceBridge._set_trace_id_from_context context p)))
      = env_get k (environ p))
  /\ (calls (snd (TraceBridge._set_trace_id_from_context context p)) = calls p
      \/ exists msg,
          calls (snd (TraceBridge._set_trace_id_from_context context p))
          = calls p ++ [Call "logger" "debug" (VStr msg)])
  /\ (TraceBridge.trace_id_of context = None ->
      TraceBridge._set_trace_id_from_context context p = (Ok tt, p)).
Proof.
  unfold TraceBridge._set_trace_id_from_context.
  destruct (TraceBridge.trace_id_of context) as [trace_id|].
  - cbv beta iota zeta delta [bind environ_get TraceBridge.environ_set log emit ret].
    assert (Hsame : forall o : outcome unit,
               (forall k, k <> TraceBridge.TRACE_VAR ->
                          env_get k (environ (snd (o, p))) = env_get k (environ p))
               /\ (calls (snd (o, p)) = calls p
                   \/ exists msg, calls (snd (o, p))
                                  = calls p ++ [Call "logger" "debug" (VStr msg)])
               /\ (Some trace_id = None -> (o, p) = (Ok tt, p))).
    { intros o. split; [reflexivity | split; [left; reflexivity | discriminate]]. }
    destruct (env_get TraceBridge.TRACE_VAR (environ p)) as [[|c s']|];
      try apply Hsame;
      (destruct trace_id as [| | | |s| |]; try apply Hsame;
       destruct (TraceBridge.has_nul s); try apply Hsame;
       (split; [|split; [|discriminate]]);
       [ intros k Hk; cbn [snd record environ]; apply env_get_set_other; exact Hk
       | right; eexists; reflexivity ]).
  - split; [reflexivity | split; [left; reflexivity | reflexivity]].
Qed.

Lemma bridge_frame_witness :
  env_get "AWS_REGION"
    (environ (snd (TraceBridge._set_trace_id_from_context (context_with (VStr "abc"))
                     (Process [("AWS_REGION", "us-east-1")] []))))
  = Some "us-east-1".
Proof.
  apply (proj1 (bridge_frame (context_with (VStr "abc"))
                  (Process [("AWS_REGION", "us-east-1")] [])) "AWS_REGION").
  discriminate.
Defined.

(** X22: a trace identifier that cannot be an environment value stops the
    invocation before the handler runs: with the variable unset or empty and
    metadata whose [trace_id] is not a string, the wrapped handler raises
    [TypeError], and with a string holding a null byte [ValueError]; the
    handler is not called and the process is left as it was.  Once a
    non-empty identifier is published the same metadata is harmless. *)
Theorem bridge_rejects_bad_identifier {A}
        (is_coroutine : bool) (handler : value -> TraceBridge.pyobj -> M A)
        (event : value) (context : TraceBridge.pyobj) (v : value) (p : process) :
  TraceBridge.trace_id_of context = Some v ->
  (env_get TraceBridge.TRACE_VAR (environ p) = None
   \/ env_get TraceBridge.TRACE_VAR (environ p) = Some "" ->
   (is_str v = false ->
    TraceBridge.hydrate_trace_id is_coroutine handler event context p
    = (Raise (Exn "TypeError" ("str expected, not " ++ type_name v)), p))
   /\ (forall s, v = VStr s -> TraceBridge.has_nul s = true ->
                 TraceBridge.hydrate_trace_id is_coroutine handler event context p
                 = (Raise (Exn "ValueError" "embedded null byte"), p)))
  /\ (forall t, env_get TraceBridge.TRACE_VAR (environ p) = Some t -> t <> "" ->
                TraceBridge.hydrate_trace_id is_coroutine handler event context p
                = handler event context p).
Proof.
  intros Hid. split.
  - intros Henv.
    assert (Hcur : forall B (a b : B),
               match env_get TraceBridge.TRACE_VAR (environ p) with
               | Some (String _ _) => a
               | _ => b
               end = b).
    { intros B a b. destruct Henv as [E|E]; rewrite E; reflexivity. }
    split.
    + intros Hv.
      destruct is_coroutine;
        unfold TraceBridge.hydrate_trace_id, TraceBridge.async_wrapper,
          TraceBridge.sync_wrapper, TraceBridge._set_trace_id_from_context;
        rewrite Hid;
        cbv beta iota zeta delta [bind environ_get]; rewrite Hcur;
        destruct v; try discriminate Hv; reflexivity.
    + intros s -> Hnul.
      destruct is_coroutine;
        unfold TraceBridge.hydrate_trace_id, TraceBridge.async_wrapper,
          TraceBridge.sync_wrapper, TraceBridge._set_trace_id_from_context;
        rewrite Hid;
        cbv beta iota zeta delta [bind environ_get TraceBridge.environ_set];
        rewrite Hcur, Hnul; reflexivity.
  - intros t Henv Hne.
    unfold TraceBridge.hydrate_trace_id, TraceBridge.async_wrapper,
      TraceBridge.sync_wrapper.
    destruct is_coroutine; unfold bind;
      rewrite (bridge_keeps context t p Henv Hne); reflexivity.
Qed.

Lemma bridge_rejects_bad_identifier_witness :
  TraceBridge.hydrate_trace_id false report_trace VNone (context_with (VInt 7))
    Examples.fresh
  = (Raise (Exn "TypeError" "str expected, not int"), Examples.fresh).
Proof.
  apply (proj1 (proj1 (bridge_rejects_bad_identifier false report_trace VNone
                         (context_with (VInt 7)) (VInt 7) Examples.fresh eq_refl)
                      (or_introl eq_refl))
           eq_refl).
Defined.

(** ** The echo and chaos handlers *)

(** X23: the echo and chaos handlers answer a probe like the other
    handlers built on the heartbeat filter: for a mapping with a truthy
    [ping] both return the canned response at once, printing nothing and
    leaving the process as it was. *)
Theorem probe_short_circuits_echo_chaos
        (w : world) (py_str : value -> string) (now_iso : list call -> string)
        (d : list (string * value)) (x : value) (p : process) :
  lookup "ping" d = Some x ->
  truthy x = true ->
  Echo.lambda_handler py_str now_iso (VDict d) p = (Ok pong, p)
  /\ Chaos.lambda_handler w py_str (VDict d) p = (Ok pong, p).
Proof.
  intros Hl Ht. pose proof (handle_ping_probe d x Hl Ht) as Hp. split.
  - unfold Echo.lambda_handler.
    cbv beta iota zeta delta [bind environ_get]. rewrite Hp. reflexivity.
  - unfold Chaos.lambda_handler. rewrite Hp. reflexivity.
Qed.

Lemma probe_short_circuits_echo_chaos_witness :
  Echo.lambda_handler Examples.str_simple (fun _ => "2024-01-01T00:00:00.000+00:00")
    (VDict [("ping", VInt 1)]) Examples.fresh = (Ok pong, Examples.fresh)
  /\ Chaos.lambda_handler Examples.quiet Examples.str_simple
       (VDict [("ping", VInt 1)]) Examples.fresh = (Ok pong, Examples.fresh).
Proof.
  exact (probe_short_circuits_echo_chaos Examples.quiet Examples.str_simple
           (fun _ => "2024-01-01T00:00:00.000+00:00")
           [("ping", VInt 1)] (VInt 1) Examples.fresh eq_refl eq_refl).
Defined.

(** X24: what the echo handler does with a request: it reads the clock
    once and prints two records, INFO then DEBUG, that share the time and
    the trace identifier found in the environment (or "not-found") and keep
    the order of their fields; it answers success with the message
    "Echo: " followed by the text of [message] ("Hello" by default) and
    the user, which is "anonymous" for an event without
    [requestContext]. *)
Theorem echo_answers
        (py_str : value -> string) (now_iso : list call -> string)
        (event : value) (body : list (string * value)) (user : value)
        (p : process) :
  truthy (Utils.handle_ping event) = false ->
  Utils.parse_event_body event = VDict body ->
  Echo.username_of event = Ok user ->
  let message :=
    ("Echo: " ++ py_str (match lookup "message" body with
                         | Some x => x
                         | None => VStr "Hello"
                         end))%string in
  let record_of level text :=
    Call "stdout" "print"
      (VStr (Json.dumps
               (VDict [("_time", VStr (now_iso (calls p)));
                       ("level", VStr level);
                       ("trace_id", VStr (trace_id_in p));
                       ("message", VStr text);
                       ("function", VStr "lambda-echo")]))) in
  Echo.lambda_handler py_str now_iso event p
  = (Ok (Utils.create_response None
           (Some (VDict [("success", VBool true); ("message", VStr message);
                         ("user", user)])) None),
     Process (environ p)
       (calls p ++ [Call "datetime" "now" VNone;
                    record_of "INFO" message;
                    record_of "DEBUG" "Debug log for quality test"]))
  /\ (forall ev, event = VDict ev -> lookup "requestContext" ev = None ->
                 user = VStr "anonymous").
Proof.
  intros Hping Hbody Huser message record_of. split.
  - unfold Echo.lambda_handler.
    cbv beta iota zeta delta [bind environ_get lift]. rewrite Hping, Huser, Hbody.
    cbv beta iota zeta delta [py_get bind Echo.timestamp print emit ret record
                              environ calls].
    subst message record_of. unfold trace_id_in.
    repeat rewrite <- app_assoc. reflexivity.
  - intros ev -> Hrc. unfold Echo.username_of in Huser. cbn [py_get] in Huser.
    rewrite Hrc in Huser. cbn in Huser. congruence.
Qed.

Lemma echo_answers_witness :
  fst (Echo.lambda_handler Examples.str_simple
         (fun _ => "2024-01-01T00:00:00.000+00:00")
         (VDict [("message", VStr "hi")]) Examples.fresh)
  = Ok (Utils.create_response None
          (Some (VDict [("success", VBool true); ("message", VStr "Echo: hi");
                        ("user", VStr "anonymous")])) None).
Proof.
  apply (f_equal fst
           (proj1 (echo_answers Examples.str_simple
                     (fun _ => "2024-01-01T00:00:00.000+00:00")
                     (VDict [("message", VStr "hi")]) [("message", VStr "hi")]
                     (VStr "anonymous") Examples.fresh eq_refl eq_refl eq_refl))).
Defined.

(** X25: the echo handler has no catch-all and reads the event itself for
    the user: an event that is not a mapping, which the body codec
    forgives, makes it raise [AttributeError], and so does a
    [requestContext] or an [authorizer] that is present and not a mapping
    (a null, say); nothing is printed and the process is left as it
    was. *)
Theorem echo_rejects
        (py_str : value -> string) (now_iso : list call -> string)
        (event : value) (p : process) :
  (is_dict event = false ->
   Echo.lambda_handler py_str now_iso event p
   = (Raise (attribute_error event "get"), p))
  /\ (forall ev x,
         event = VDict ev ->
         truthy (Utils.handle_ping event) = false ->
         lookup "requestContext" ev = Some x ->
         is_dict x = false ->
         Echo.lambda_handler py_str now_iso event p
         = (Raise (attribute_error x "get"), p))
  /\ (forall ev rc x,
         event = VDict ev ->
         truthy (Utils.handle_ping event) = false ->
         lookup "requestContext" ev = Some (VDict rc) ->
         lookup "authorizer" rc = Some x ->
         is_dict x = false ->
         Echo.lambda_handler py_str now_iso event p
         = (Raise (attribute_error x "get"), p)).
Proof.
  split; [|split].
  - intros Hd. destruct event; try discriminate Hd; reflexivity.
  - intros ev x -> Hping Hrc Hx. unfold Echo.lambda_handler.
    cbv beta iota zeta delta [bind environ_get lift]. rewrite Hping.
    unfold Echo.username_of. cbn [py_get]. rewrite Hrc.
    destruct x; try discriminate Hx; reflexivity.
  - intros ev rc x -> Hping Hrc Ha Hx. unfold Echo.lambda_handler.
    cbv beta iota zeta delta [bind environ_get lift]. rewrite Hping.
    unfold Echo.username_of. cbn [py_get]. rewrite Hrc. cbn [py_get].
    rewrite Ha. destruct x; try discriminate Hx; reflexivity.
Qed.

Lemma echo_rejects_witness :
  Echo.lambda_handler Examples.str_simple (fun _ => "2024-01-01T00:00:00.000+00:00")
    (VDict [("requestContext", VNone)]) Examples.fresh
  = (Raise (attribute_error VNone "get"), Examples.fresh).
Proof.
  apply (proj1 (proj2 (echo_rejects Examples.str_simple
                         (fun _ => "2024-01-01T00:00:00.000+00:00")
                         (VDict [("requestContext", VNone)]) Examples.fresh))
           [("requestContext", VNone)] VNone eq_refl eq_refl eq_refl eq_refl).
Defined.

(** X26: a crash request ends the process of the chaos handler: it prints
    and flushes its two lines, then exits with status 1; no response is
    produced and nothing else is called. *)
Theorem chaos_crash
        (w : world) (py_str : value -> string)
        (event : value) (body : list (string * value)) (p : process) :
  truthy (Utils.handle_ping event) = false ->
  Utils.parse_event_body event = VDict body ->
  lookup "action" body = Some (VStr "crash") ->
  Chaos.lambda_handler w py_str event p
  = (Raise (Exn "os._exit" "1"),
     Process (environ p)
       (calls p ++ [Call "stdout" "print"
                      (VStr ("DEBUG: Processing action='"
                             ++ py_str (VStr "crash") ++ "'"));
                    Call "stdout" "flush" VNone;
                    Call "stdout" "print" (VStr "DEBUG: CRASHING NOW");
                    Call "stdout" "flush" VNone])).
Proof.
  intros Hping Hbody Haction. unfold Chaos.lambda_handler. rewrite Hping, Hbody.
  cbv beta iota zeta delta [bind lift py_get]. rewrite Haction.
  cbv beta iota zeta delta [bind print Chaos.flush emit record environ calls
                            Chaos.os_exit raise].
  change (eq_str (VStr "crash") "crash") with true. cbv iota.
  repeat rewrite <- app_assoc. reflexivity.
Qed.

Lemma chaos_crash_witness :
  fst (Chaos.lambda_handler Examples.quiet Examples.str_simple
         (VDict [("action", VStr "crash")]) Examples.fresh)
  = Raise (Exn "os._exit" "1").
Proof.
  apply (f_equal fst
           (chaos_crash Examples.quiet Examples.str_simple
              (VDict [("action", VStr "crash")]) [("action", VStr "crash")]
              Examples.fresh eq_refl eq_refl eq_refl)).
Defined.

(** X27: the chaos handler sleeps exactly on a delay request: then it
    calls [time.sleep] once, with [seconds] of the body or 5 by default, and
    on any other request it never calls it; a request that is neither a
    crash nor a delay is answered "Faulty Lambda is OK" with the action
    echoed back. *)
Theorem chaos_sleeps_only_on_delay
        (w : world) (py_str : value -> string)
        (event : value) (body : list (string * value)) (p : process) :
  truthy (Utils.handle_ping event) = false ->
  Utils.parse_event_body event = VDict body ->
  let action :=
    match lookup "action" body with Some x => x | None => VStr "hello" end in
  let seconds :=
    match lookup "seconds" body with Some x => x | None => VInt 5 end in
  calls_to "time" (calls (snd (Chaos.lambda_handler w py_str event p)))
  = calls_to "time" (calls p)
    ++ (if eq_str action "delay"
        then [Call "time" "sleep" (VDict [("seconds", seconds)])]
        else [])
  /\ (eq_str action "crash" = false ->
      eq_str action "delay" = false ->
      fst (Chaos.lambda_handler w py_str event p)
      = Ok (Utils.create_response None
              (Some (VDict [("message", VStr "Faulty Lambda is OK");
                            ("action", action)])) None)).
Proof.
  intros Hping Hbody action seconds.
  unfold Chaos.lambda_handler. rewrite Hping, Hbody.
  cbv beta iota zeta delta [bind lift py_get print Chaos.flush emit].
  fold action. fold seconds.
  destruct (eq_str action "crash") eqn:Hcrash.
  - assert (Hdelay : eq_str action "delay" = false).
    { unfold eq_str in *. destruct action; try discriminate Hcrash.
      apply String.eqb_eq in Hcrash. subst. reflexivity. }
    rewrite Hdelay. split; [|discriminate].
    cbv beta iota zeta delta [Chaos.os_exit raise].
    trace_calls. reflexivity.
  - destruct (eq_str action "delay") eqn:Hdelay.
    + split; [|discriminate].
      cbv beta iota zeta delta [perform ret].
      match goal with
      | |- context [reply w ?tr ?c] => destruct (reply w tr c)
      end; trace_calls; reflexivity.
    + split; [|intros _ _; reflexivity].
      cbv beta iota zeta delta [ret]. trace_calls. reflexivity.
Qed.

Lemma chaos_sleeps_only_on_delay_witness :
  calls_to "time"
    (calls (snd (Chaos.lambda_handler Examples.quiet Examples.str_simple
                   (VDict [("action", VStr "delay")]) Examples.fresh)))
  = [Call "time" "sleep" (VDict [("seconds", VInt 5)])].
Proof.
  apply (proj1 (chaos_sleeps_only_on_delay Examples.quiet Examples.str_simple
                  (VDict [("action", VStr "delay")]) [("action", VStr "delay")]
                  Examples.fresh eq_refl eq_refl)).
Defined.

(** ** A body that is not a mapping *)

(** X28: no catch-all stands in the way of a body that is not a mapping:
    when the envelope codec returns one (a JSON list or string in [body],
    say), the dynamo, connectivity, integration and chaos handlers raise
    [AttributeError] on their first read of the body, before any
    collaborator is called; only the log line written before that read is
    recorded. *)
Theorem non_mapping_body_escapes
        (w : world) (py_str : value -> string) (decode_message : string -> string)
        (event : value) (p : process) :
  truthy (Utils.handle_ping event) = false ->
  is_dict (Utils.parse_event_body event) = false ->
  let e := attribute_error (Utils.parse_event_body event) "get" in
  Dynamo.lambda_handler w py_str event p
  = (Raise e,
     record (Call "logger" "info" (VStr ("Received event: " ++ Json.dumps event))) p)
  /\ Connectivity.lambda_handler w py_str event p = (Raise e, p)
  /\ Integration.lambda_handler w py_str decode_message event p
     = (Raise e,
        record (Call "logger" "info"
                  (VStr ("Trace ID in environment: " ++ trace_id_in p))) p)
  /\ Chaos.lambda_handler w py_str event p = (Raise e, p).
Proof.
  intros Hping Hd e. subst e.
  unfold Dynamo.lambda_handler, Connectivity.lambda_handler,
    Integration.lambda_handler, Chaos.lambda_handler.
  rewrite Hping.
  destruct (Utils.parse_event_body event); try discriminate Hd;
    repeat split; reflexivity.
Qed.

Lemma non_mapping_body_escapes_witness :
  Connectivity.lambda_handler Examples.quiet Examples.str_simple
    (VDict [("body", VStr "[1]")]) Examples.fresh
  = (Raise (attribute_error (VList [VInt 1]) "get"), Examples.fresh).
Proof.
  apply (proj1 (proj2 (non_mapping_body_escapes Examples.quiet Examples.str_simple
                         Examples.no_message (VDict [("body", VStr "[1]")])
                         Examples.fresh eq_refl eq_refl))).
Defined.

(** ** The scheduled handler *)

Lemma written_ids_snoc (l : list call) (c : call) :
  written_ids (l ++ [c])
  = written_ids l
    ++ (if (target c =? "table")%string && (method c =? "put_item")%string
        then [match field "Item" (args c) with
              | Some item => field "id" item
              | None => None
              end]
        else []).
Proof.
  unfold written_ids. rewrite filter_app, map_app. cbn [filter].
  destruct ((target c =? "table")%string && (method c =? "put_item")%string);
    reflexivity.
Qed.

(** X29: every run of the scheduled handler writes the same record:
    whatever the event, when the resource and the table are obtained it
    writes exactly one item, under the fixed identifier [scheduled-run], so
    a later run replaces the record of an earlier one; its answer does not
    depend on the event, and a failure of the write is not caught. *)
Theorem scheduled_writes_fixed_record
        (w : world) (utcnow_iso : list call -> string)
        (event : value) (p : process) :
  ensures (Scheduled.lambda_handler w utcnow_iso event)
          (fun r => r = scheduled_response)
  /\ (op_returns w "boto3" "resource" ->
      op_returns w "dynamodb" "Table" ->
      written_ids (calls (snd (Scheduled.lambda_handler w utcnow_iso event p)))
      = written_ids (calls p) ++ [Some (VStr "scheduled-run")]
      /\ exists tr item,
          fst (Scheduled.lambda_handler w utcnow_iso event p)
          = match reply w tr (Call "table" "put_item" (VDict [("Item", item)])) with
            | Ok _ => Ok scheduled_response
            | Raise e => Raise e
            end
          /\ field "event" item = Some event).
Proof.
  split.
  - unfold Scheduled.lambda_handler. cbv zeta.
    repeat (apply ensures_bind; intros). apply ensures_ret. reflexivity.
  - intros Hres Htab.
    unfold Scheduled.lambda_handler, Scheduled.boto3_resource, Scheduled.utcnow.
    cbv beta iota zeta delta [bind print emit environ_get perform ret].
    cbn [calls record environ].
    match goal with
    | |- context [reply w ?tr (Call "boto3" "resource" (VDict ?kw))] =>
        destruct (Hres tr kw) as [r1 H1]; rewrite H1
    end.
    match goal with
    | |- context [reply w ?tr (Call "dynamodb" "Table" (VDict ?kw))] =>
        destruct (Htab tr kw) as [r2 H2]; rewrite H2
    end.
    match goal with
    | |- context [reply w ?tr (Call "table" "put_item" (VDict [("Item", ?item)]))] =>
        split;
        [ destruct (reply w tr (Call "table" "put_item" (VDict [("Item", item)])));
          unfold record; cbn [snd calls]; repeat rewrite written_ids_snoc;
          cbn [target method args String.eqb Ascii.eqb Bool.eqb andb field lookup];
          repeat rewrite app_nil_r; reflexivity
        | exists tr, item; split;
          [ destruct (reply w tr (Call "table" "put_item" (VDict [("Item", item)])));
            reflexivity
          | reflexivity ] ]
    end.
Qed.

Lemma scheduled_writes_fixed_record_witness :
  written_ids
    (calls (snd (Scheduled.lambda_handler Examples.quiet
                   (fun _ => "2024-01-01T00:00:00") (VDict [("source", VStr "cron")])
                   Examples.fresh)))
  = [Some (VStr "scheduled-run")].
Proof.
  apply (proj1 (proj2 (scheduled_writes_fixed_record Examples.quiet
                         (fun _ => "2024-01-01T00:00:00")
                         (VDict [("source", VStr "cron")]) Examples.fresh)
                  (fun tr kwargs => ex_intro _ (VDict []) eq_refl)
                  (fun tr kwargs => ex_intro _ (VDict []) eq_refl))).
Defined.

(** ** The text of encoded values *)

Module JsonAscii.
Import Json JsonText.
Local Open Scope char_scope.
Local Open Scope Z_scope.

Lemma printable_code (c : ascii) : 32 <= code c <= 126 -> printable c = true.
Proof. intros H. unfold printable. apply andb_true_iff. split; lia. Qed.

Lemma printable_chr (n : Z) : 32 <= n <= 126 -> printable (chr n) = true.
Proof.
  intros H. apply printable_code. rewrite JsonFacts.code_chr by lia. exact H.
Qed.

Lemma all_printable_app (a b : list ascii) :
  all_printable a -> all_printable b -> all_printable (a ++ b).
Proof. intros Ha Hb. apply Forall_app. split; assumption. Qed.

Lemma all_printable_cons (c : ascii) (r : list ascii) :
  printable c = true -> all_printable r -> all_printable (c :: r).
Proof. intros Hc Hr. constructor; assumption. Qed.

Lemma print_digits_printable (fuel : nat) :
  forall n acc, 0 <= n -> all_printable acc ->
                all_printable (print_digits fuel n acc).
Proof.
  induction fuel as [|f IH]; intros n acc Hn Hacc; cbn [print_digits].
  - exact Hacc.
  - destruct (Z.ltb_spec n 10) as [H|H].
    + apply all_printable_cons; [|exact Hacc].
      unfold digit_char. apply printable_chr. lia.
    + apply IH.
      * apply Z.div_pos; lia.
      * apply all_printable_cons; [|exact Hacc].
        unfold digit_char. apply printable_chr.
        pose proof (Z.mod_pos_bound n 10 ltac:(lia)). lia.
Qed.

Lemma print_int_printable (n : Z) : all_printable (print_int n).
Proof.
  unfold print_int, print_nat.
  destruct (Z.ltb_spec n 0) as [H|H].
  - apply all_printable_cons; [reflexivity|].
    apply print_digits_printable; [lia | constructor].
  - apply print_digits_printable; [lia | constructor].
Qed.

Lemma print_float_printable (f : pyfloat) : all_printable (print_float f).
Proof.
  destruct f as [m e| | |]; cbn [print_float].
  - apply all_printable_app; [apply print_int_printable|].
    apply all_printable_cons; [reflexivity | apply print_int_printable].
  - repeat constructor.
  - repeat constructor.
  - repeat constructor.
Qed.

Lemma hex_char_printable (d : Z) : 0 <= d < 16 -> printable (hex_char d) = true.
Proof.
  intros H. unfold hex_char.
  destruct (Z.ltb_spec d 10); apply printable_chr; lia.
Qed.

Lemma escape_u_printable (n : Z) : all_printable (escape_u n).
Proof.
  unfold escape_u, hex4.
  repeat (apply all_printable_cons;
          [first [reflexivity
                 | apply hex_char_printable; apply Z.mod_pos_bound; lia]|]).
  constructor.
Qed.

Lemma escape_cp_printable (cp : Z) : all_printable (escape_cp cp).
Proof.
  unfold escape_cp. destruct (cp <? 65536).
  - apply escape_u_printable.
  - apply all_printable_app; apply escape_u_printable.
Qed.

Lemma escape_ascii_printable (c : ascii) : all_printable (escape_ascii c).
Proof.
  unfold escape_ascii.
  repeat match goal with
         | |- all_printable (if (c =? _)%char then _ else _) =>
             destruct (c =? _)%char; [repeat constructor|]
         end.
  destruct ((32 <=? code c) && (code c <=? 126)) eqn:E.
  - apply all_printable_cons; [exact E | constructor].
  - apply escape_u_printable.
Qed.

Lemma escape_chars_printable (n : nat) :
  forall cs, (List.length cs <= n)%nat -> all_printable (escape_chars cs).
Proof.
  induction n as [|n IH]; intros cs Hlen.
  - destruct cs; [constructor | cbn in Hlen; lia].
  - destruct cs as [|c r]; [constructor|].
    cbn [List.length] in Hlen. cbn [escape_chars]. cbv zeta.
    assert (Hr : all_printable (escape_chars r)) by (apply IH; lia).
    destruct (code c <? 128).
    { apply all_printable_app; [apply escape_ascii_printable | exact Hr]. }
    destruct ((192 <=? code c) && (code c <? 224)).
    { destruct r as [|c1 r1].
      - apply all_printable_app; [apply escape_u_printable | exact Hr].
      - apply all_printable_app; [apply escape_cp_printable|].
        apply IH. cbn [List.length] in Hlen. lia. }
    destruct ((224 <=? code c) && (code c <? 240)).
    { destruct r as [|c1 [|c2 r2]];
        try (apply all_printable_app; [apply escape_u_printable | exact Hr]).
      apply all_printable_app; [apply escape_cp_printable|].
      apply IH. cbn [List.length] in Hlen. lia. }
    destruct ((240 <=? code c) && (code c <? 248)).
    { destruct r as [|c1 [|c2 [|c3 r3]]];
        try (apply all_printable_app; [apply escape_u_printable | exact Hr]).
      apply all_printable_app; [apply escape_cp_printable|].
      apply IH. cbn [List.length] in Hlen. lia. }
    apply all_printable_app; [apply escape_u_printable | exact Hr].
Qed.

Lemma print_string_printable (s : string) : all_printable (print_string s).
Proof.
  unfold print_string. apply all_printable_cons; [reflexivity|].
  apply all_printable_app; [|repeat constructor].
  apply (escape_chars_printable (List.length (list_ascii_of_string s))).
  apply Nat.le_refl.
Qed.

Lemma join_items_printable (items : list (list ascii)) :
  Forall all_printable items -> all_printable (join_items items).
Proof.
  induction 1 as [|x r Hx Hr IH]; [constructor|].
  cbn [join_items]. destruct r as [|y r']; [exact Hx|].
  apply all_printable_app; [exact Hx|].
  apply all_printable_cons; [reflexivity|].
  apply all_printable_cons; [reflexivity | exact IH].
Qed.

Lemma print_value_printable (v : value) : all_printable (print_value v).
Proof.
  induction v as [|b|n|f|s|l IH|d IH] using JsonFacts.value_ind'.
  - repeat constructor.
  - destruct b; repeat constructor.
  - apply print_int_printable.
  - apply print_float_printable.
  - apply print_string_printable.
  - cbn [print_value]. apply all_printable_cons; [reflexivity|].
    apply all_printable_app; [|repeat constructor].
    apply join_items_printable.
    induction IH as [|x r Hx Hr IHr]; constructor; assumption.
  - cbn [print_value]. apply all_printable_cons; [reflexivity|].
    apply all_printable_app; [|repeat constructor].
    apply join_items_printable.
    induction IH as [|[k x] r Hx Hr IHr]; constructor; [|exact IHr].
    cbn [fst snd]. apply all_printable_app; [apply print_string_printable|].
    apply all_printable_cons; [reflexivity|].
    apply all_printable_cons; [reflexivity | exact Hx].
Qed.

End JsonAscii.

(** X30: every text the encoder writes is one line of printable ASCII:
    whatever the value, its encoding holds no control character, no line
    break and no byte above 127; so the body [create_response] encodes for
    a value that is neither absent nor a string, and each record the echo
    handler prints, fit on one line. *)
Theorem encoded_text_is_printable :
  (forall v, printable_ascii (Json.dumps v) = true)
  /\ (forall status_code body headers text,
         is_str body = false ->
         field "body" (Utils.create_response status_code (Some body) headers)
         = Some (VStr text) ->
         printable_ascii text = true).
Proof.
  assert (Hdumps : forall v, printable_ascii (Json.dumps v) = true).
  { intros v. unfold printable_ascii, Json.dumps.
    rewrite list_ascii_of_string_of_list_ascii.
    apply forallb_forall. intros c Hc.
    exact (proj1 (Forall_forall _ _) (JsonAscii.print_value_printable v) c Hc). }
  split; [exact Hdumps|].
  intros status_code body headers text Hs Hf.
  unfold Utils.create_response in Hf. cbv zeta in Hf.
  unfold field in Hf. cbn [lookup] in Hf.
  change ("statusCode" =? "body")%string with false in Hf.
  change ("headers" =? "body")%string with false in Hf.
  change ("body" =? "body")%string with true in Hf. cbv iota in Hf.
  destruct body; try discriminate Hs; try discriminate Hf;
    inversion Hf; apply Hdumps.
Qed.

Lemma encoded_text_is_printable_witness :
  printable_ascii
    (Json.dumps (VDict [("message", VStr (String "010"%char "line two"))]))
  = true.
Proof.
  apply (proj1 encoded_text_is_printable).
Defined.
